(** * Big Two: hand classifier, comparator, combination enumerator and bots

  A shallow embedding of the rules engine of the repository
  (logic.ts, evaluate.ts, bot-strategy.ts and types.ts) together with
  the properties of the specification that were checked against it.

  Conventions of the embedding:
  - a JavaScript number that only ever holds an integer is a [Z];
    the one place where [-Infinity] can arise (the look-ahead score)
    has a type of its own, [BotStrategy.Score];
  - [Card.rank] is a [string] in the source, but every card is made by
    [createDeck] from the thirteen rank strings, so ranks are the
    thirteen-constructor type [Rank];
  - [Array.prototype.sort] is stable (ECMAScript 2019), and is the
    stable insertion sort [sort_by];
  - arrays are lists; [null] results are [None]. *)

From Stdlib Require Import List ZArith Lia Bool String Permutation Sorted.
Import ListNotations.
Local Open Scope Z_scope.

(** ** JavaScript array helpers *)

Section ArraySort.
Context {A : Type}.
(** [gt a b] holds when the comparator called on [(a, b)] returns a
    strictly positive number, i.e. when [b] has to be moved before [a]. *)
Variable gt : A -> A -> bool.

Fixpoint insert_by (x : A) (l : list A) : list A :=
  match l with
  | [] => [x]
  | y :: l' => if gt x y then y :: insert_by x l' else x :: y :: l'
  end.

(** The element that came first in the input stays first among equals. *)
Fixpoint sort_by (l : list A) : list A :=
  match l with
  | [] => []
  | x :: l' => insert_by x (sort_by l')
  end.
End ArraySort.

(** [a.slice(0, n)] is [firstn n a]; [a.find(p)] is [find p a];
  [a.some(p)] is [existsb p a]; [a.every(p)] is [forallb p a];
  [a[0]] on a possibly empty array is [hd_error a]. *)

(** ** types.ts *)

Module Types.

Inductive Suit := Spades | Hearts | Diamonds | Clubs.

Definition SuitOrder (s : Suit) : Z :=
  match s with
  | Spades => 3
  | Hearts => 2
  | Diamonds => 1
  | Clubs => 0
  end.

Inductive Rank :=
| R3 | R4 | R5 | R6 | R7 | R8 | R9 | R10 | RJ | RQ | RK | RA | R2.

Definition RankOrder (r : Rank) : Z :=
  match r with
  | R3 => 0 | R4 => 1 | R5 => 2 | R6 => 3 | R7 => 4 | R8 => 5 | R9 => 6
  | R10 => 7 | RJ => 8 | RQ => 9 | RK => 10 | RA => 11 | R2 => 12
  end.

(** The rank string of the source. *)
Definition rank_string (r : Rank) : string :=
  match r with
  | R3 => "3" | R4 => "4" | R5 => "5" | R6 => "6" | R7 => "7" | R8 => "8"
  | R9 => "9" | R10 => "10" | RJ => "J" | RQ => "Q" | RK => "K"
  | RA => "A" | R2 => "2"
  end%string.

Definition suit_string (s : Suit) : string :=
  match s with
  | Spades => "Spades" | Hearts => "Hearts"
  | Diamonds => "Diamonds" | Clubs => "Clubs"
  end%string.

Record Card := { suit : Suit; rank : Rank; id : string }.

Inductive HandType :=
| Single | Pair | Straight | FullHouse | FourOfAKind | StraightFlush
| Dragon | NoneType.

Record Hand := { cards : list Card; type : HandType; strength : Z }.

Definition Suit_eqb (a b : Suit) : bool :=
  match a, b with
  | Spades, Spades | Hearts, Hearts | Diamonds, Diamonds | Clubs, Clubs => true
  | _, _ => false
  end.

Definition Rank_eqb (a b : Rank) : bool := RankOrder a =? RankOrder b.

Definition HandType_eqb (a b : HandType) : bool :=
  match a, b with
  | Single, Single | Pair, Pair | Straight, Straight
  | FullHouse, FullHouse | FourOfAKind, FourOfAKind
  | StraightFlush, StraightFlush | Dragon, Dragon
  | NoneType, NoneType => true
  | _, _ => false
  end.

End Types.

(** ** logic.ts: card model, classifier, comparator *)

Module Logic.
Import Types.

Definition getCardWeight (card : Card) : Z :=
  RankOrder (rank card) * 10 + SuitOrder (suit card).

(** [[...cards].sort((a, b) => getCardWeight(a) - getCardWeight(b))] *)
Definition sortCards (cards : list Card) : list Card :=
  sort_by (fun a b => 0 <? getCardWeight a - getCardWeight b) cards.

Definition hasRank (sortedRanks : list Rank) (r : Rank) : bool :=
  existsb (Rank_eqb r) sortedRanks.

(** The loop [for (i = 0; i < 4; i++) if (weights[i+1] !== weights[i]+1)]. *)
Fixpoint consecutive (weights : list Z) : bool :=
  match weights with
  | a :: (b :: _) as rest => (b =? a + 1) && consecutive rest
  | _ => true
  end.

(** [new Set(cards.map(c => c.rank)).size] *)
Definition distinct_ranks (cards : list Card) : nat :=
  List.length
    (filter (fun r => existsb (fun c => Rank_eqb (rank c) r) cards)
            [R3; R4; R5; R6; R7; R8; R9; R10; RJ; RQ; RK; RA; R2]).

(** The five-card branch of [identifyHand], on the sorted cards
    [s0 .. s4]. *)
Definition identifyFive (s0 s1 s2 s3 s4 : Card) : option Hand :=
  let sorted := [s0; s1; s2; s3; s4] in
  let weights := map (fun c => RankOrder (rank c)) sorted in
  let isStandardStraight := consecutive weights in
  let sortedRanks := map rank sorted in
  let isA2345 :=
    hasRank sortedRanks RA && hasRank sortedRanks R2 &&
    hasRank sortedRanks R3 && hasRank sortedRanks R4 &&
    hasRank sortedRanks R5 in
  let is23456 :=
    hasRank sortedRanks R2 && hasRank sortedRanks R3 &&
    hasRank sortedRanks R4 && hasRank sortedRanks R5 &&
    hasRank sortedRanks R6 in
  if isStandardStraight || isA2345 || is23456 then
    let isFlush := forallb (fun c => Suit_eqb (suit c) (suit s0)) sorted in
    let '(sequenceRank, rankingCardRank) :=
      if is23456 then (10, R6)
      else if isA2345 then (1, R5)
      else (RankOrder (rank s4) - 2, rank s4) in
    (* the non-null assertion of the source: the rank is in the hand *)
    match find (fun c => Rank_eqb (rank c) rankingCardRank) sorted with
    | None => None
    | Some rankingCard =>
        let strength := sequenceRank * 10 + SuitOrder (suit rankingCard) in
        if isFlush
        then Some {| cards := sorted; type := StraightFlush; strength := strength |}
        else Some {| cards := sorted; type := Straight; strength := strength |}
    end
  else if Rank_eqb (rank s0) (rank s3) || Rank_eqb (rank s1) (rank s4) then
    Some {| cards := sorted; type := FourOfAKind;
            strength := RankOrder (rank s2) |}
  else if (Rank_eqb (rank s0) (rank s2) && Rank_eqb (rank s3) (rank s4))
          || (Rank_eqb (rank s0) (rank s1) && Rank_eqb (rank s2) (rank s4)) then
    Some {| cards := sorted; type := FullHouse;
            strength := RankOrder (rank s2) |}
  else None.

(** [identifyHand]: the source dispatches on [cards.length] (0, 1, 2, 13,
    5, in this order) and then indexes [sorted]; [sorted] has the length
    of [cards], so the dispatch is a match on [sorted]. *)
Definition identifyHand (cards : list Card) : option Hand :=
  let sorted := sortCards cards in
  match sorted with
  | [] => None
  | [s0] =>
      Some {| cards := sorted; type := Single; strength := getCardWeight s0 |}
  | [s0; s1] =>
      if Rank_eqb (rank s0) (rank s1)
      then Some {| cards := sorted; type := Pair;
                   strength := Z.max (getCardWeight s0) (getCardWeight s1) |}
      else None
  | [s0; s1; s2; s3; s4] => identifyFive s0 s1 s2 s3 s4
  | _ =>
      if (List.length cards =? 13)%nat then
        if (distinct_ranks cards =? 13)%nat then
          Some {| cards := sorted; type := Dragon;
                  strength := match nth_error sorted 12 with
                              | Some c => getCardWeight c
                              | None => 0
                              end |}
        else None
      else None
  end.

Definition HandTypeOrder (t : HandType) : Z :=
  match t with
  | NoneType => 0
  | Single => 1
  | Pair => 1
  | Straight => 2
  | FullHouse => 3
  | FourOfAKind => 4
  | StraightFlush => 5
  | Dragon => 6
  end.

Definition isBomb (t : HandType) : bool :=
  HandType_eqb t FourOfAKind || HandType_eqb t StraightFlush.

Definition compareHands (newHand prevHand : Hand) : bool :=
  let isNewBomb := isBomb (type newHand) in
  let isPrevBomb := isBomb (type prevHand) in
  if isNewBomb then
    if isPrevBomb then
      if HandTypeOrder (type prevHand) <? HandTypeOrder (type newHand) then true
      else if HandTypeOrder (type newHand) =? HandTypeOrder (type prevHand)
      then strength prevHand <? strength newHand
      else false
    else true
  else if negb (List.length (cards newHand) =? List.length (cards prevHand))%nat
  then false
  else if negb (HandType_eqb (type newHand) (type prevHand)) then false
  else strength prevHand <? strength newHand.

(** [createDeck] builds each card with id [`${rank}-${suit}`]. *)
Definition mkCard (r : Rank) (s : Suit) : Card :=
  {| suit := s; rank := r;
     id := (rank_string r ++ "-" ++ suit_string s)%string |}.

Definition createDeck : list Card :=
  flat_map
    (fun s => map (fun r => mkCard r s)
                [R3; R4; R5; R6; R7; R8; R9; R10; RJ; RQ; RK; RA; R2])
    [Spades; Hearts; Diamonds; Clubs].


(** *** Grouping by rank

    Both enumerators build [Record<string, Card[]>] with
    [groups[c.rank] = groups[c.rank] || []; groups[c.rank].push(c)] and
    then read it with [Object.values].  The record is an association
    list in insertion order. *)
Fixpoint push_group (c : Card) (m : list (Rank * list Card))
  : list (Rank * list Card) :=
  match m with
  | [] => [(rank c, [c])]
  | (r, g) :: m' =>
      if Rank_eqb r (rank c) then (r, g ++ [c]) :: m'
      else (r, g) :: push_group c m'
  end.

Definition groupByRank (cards : list Card) : list (Rank * list Card) :=
  fold_left (fun m c => push_group c m) cards [].

(** The keys ["2"] .. ["10"] are integer-like property names. *)
Definition integerKey (r : Rank) : option Z :=
  match r with
  | R2 => Some 2 | R3 => Some 3 | R4 => Some 4 | R5 => Some 5 | R6 => Some 6
  | R7 => Some 7 | R8 => Some 8 | R9 => Some 9 | R10 => Some 10
  | RJ | RQ | RK | RA => None
  end.

Definition isIntegerKey (r : Rank) : bool :=
  match integerKey r with Some _ => true | None => false end.

Definition keyIndex (r : Rank) : Z :=
  match integerKey r with Some n => n | None => 0 end.

(** [Object.values]: integer-like keys first, in ascending numeric
    order, then the other keys in insertion order. *)
Definition Object_values (m : list (Rank * list Card)) : list (list Card) :=
  map snd
    (sort_by (fun a b => 0 <? keyIndex (fst a) - keyIndex (fst b))
       (filter (fun e => isIntegerKey (fst e)) m)
     ++ filter (fun e => negb (isIntegerKey (fst e))) m).

(** [g[0].rank] of a group; groups are never empty. *)
Definition groupRank (g : list Card) : option Rank :=
  option_map rank (hd_error g).

Definition sameGroupRank (g1 g2 : list Card) : bool :=
  match groupRank g1, groupRank g2 with
  | Some r1, Some r2 => Rank_eqb r1 r2
  | _, _ => false
  end.

(** The body of the loops
    [for (const r of ranks) { const c = cards.find(x => x.rank === r);
       if (!c) fail; picked.push(c) }]. *)
Fixpoint pickRanks (cards : list Card) (ranks : list Rank)
  : option (list Card) :=
  match ranks with
  | [] => Some []
  | r :: ranks' =>
      match find (fun x => Rank_eqb (rank x) r) cards with
      | None => None
      | Some c =>
          match pickRanks cards ranks' with
          | None => None
          | Some picked => Some (c :: picked)
          end
      end
  end.

Definition allRanks : list Rank :=
  [R3; R4; R5; R6; R7; R8; R9; R10; RJ; RQ; RK; RA; R2].

(** [for (let i = 0; i <= allRanks.length - 5; i++)] over
    [allRanks.slice(i, i + 5)]. *)
Definition straightWindows (cards : list Card) : list (list Card) :=
  flat_map
    (fun i =>
       match pickRanks cards (firstn 5 (skipn i allRanks)) with
       | Some subset => [subset]
       | None => []
       end)
    (seq 0 9).

Definition optionToList {A : Type} (o : option A) : list A :=
  match o with Some a => [a] | None => [] end.

Definition findFiveCardHands (hand : list Card) : list (list Card) :=
  let sorted := sortCards hand in
  let groups := Object_values (groupByRank sorted) in
  let triples := filter (fun g => (3 <=? List.length g)%nat) groups in
  let pairs := filter (fun g => (2 <=? List.length g)%nat) groups in
  let fullHouses :=
    flat_map
      (fun t =>
         flat_map
           (fun p =>
              if negb (sameGroupRank p t)
              then [firstn 3 t ++ firstn 2 p] else [])
           pairs)
      triples in
  let quads := filter (fun g => (List.length g =? 4)%nat) groups in
  let fourOfAKinds :=
    flat_map
      (fun q =>
         flat_map
           (fun c =>
              if negb (match groupRank q with
                       | Some r => Rank_eqb (rank c) r
                       | None => false
                       end)
              then [q ++ [c]] else [])
           sorted)
      quads in
  fullHouses ++ fourOfAKinds ++ straightWindows sorted
  ++ optionToList (pickRanks sorted [RA; R2; R3; R4; R5])
  ++ optionToList (pickRanks sorted [R2; R3; R4; R5; R6]).

Fixpoint getAllPairs (sortedHand : list Card) : list (list Card) :=
  match sortedHand with
  | a :: (b :: _) as rest =>
      if Rank_eqb (rank a) (rank b)
      then [a; b] :: getAllPairs rest
      else getAllPairs rest
  | _ => []
  end.

(** *** The smart bot

    What a call can do: throw, return [null], return an array of cards,
    or return [[undefined]] (the array [[sorted[0]]] of an empty hand). *)
Inductive BotPlay :=
| Throw
| Pass
| Play (played : list Card)
| PlayUndefined.

(** [[sorted[0]]] *)
Definition playFirst (sorted : list Card) : BotPlay :=
  match sorted with
  | c :: _ => Play [c]
  | [] => PlayUndefined
  end.

(** [sorted[sorted.length - 1]], [undefined] on an empty array. *)
Definition lastCard (sorted : list Card) : option Card :=
  last (map Some sorted) None.

Definition bombsOf (fives : list (list Card)) : list (list Card) :=
  map cards
    (filter (fun h => isBomb (type h))
       (flat_map (fun f => optionToList (identifyHand f)) fives)).

(** [pairs.filter(p => { const h = identifyHand(p);
                         return h && h.strength > lastPlayed.strength })] *)
Definition validPairsOf (pairs : list (list Card)) (lastPlayed : Hand)
  : list (list Card) :=
  filter (fun p => match identifyHand p with
                   | Some h => strength lastPlayed <? strength h
                   | None => false
                   end) pairs.

Definition someAtMost3 (opponentsHandSizes : option (list Z)) : bool :=
  existsb (fun size => size <=? 3)
    (match opponentsHandSizes with Some l => l | None => [] end).

Definition getSmartBotPlay
  (hand : list Card) (lastPlayed : option Hand) (isFirstTurn : bool)
  (opponentsHandSizes : option (list Z)) (consecutivePasses : option Z)
  (nextPlayerHandSize : option Z) : BotPlay :=
  let sorted := sortCards hand in
  if isFirstTurn then
    match find (fun c => Rank_eqb (rank c) R3 && Suit_eqb (suit c) Clubs)
               sorted with
    | None => playFirst sorted
    | Some club3 =>
        let hasClub3 := existsb (fun c => String.eqb (id c) (id club3)) in
        match filter hasClub3 (findFiveCardHands sorted) with
        | f :: _ => Play f
        | [] =>
            match filter hasClub3 (getAllPairs sorted) with
            | p :: _ => Play p
            | [] => Play [club3]
            end
        end
    end
  else
  let myFives := findFiveCardHands sorted in
  let myBombs := bombsOf myFives in
  match lastPlayed with
  | None =>
      let isLateGame := (List.length hand <=? 5)%nat in
      let nonBombs :=
        filter (fun cs => match identifyHand cs with
                          | Some h => negb (isBomb (type h))
                          | None => false
                          end) myFives in
      let afterFives :=
        match getAllPairs sorted with
        | p :: _ => Play p
        | [] =>
            match filter (fun c => RankOrder (rank c) <? 8) sorted with
            | c :: _ => Play [c]
            | [] => playFirst sorted
            end
        end in
      match myFives with
      | f :: _ =>
          if (List.length hand =? 5)%nat then Play f
          else if negb isLateGame then
            match nonBombs with
            | nb :: _ => Play nb
            | [] => afterFives
            end
          else Play f
      | [] => afterFives
      end
  | Some lastPlayed =>
      let isNextPlayerOneCard :=
        match nextPlayerHandSize with Some n => n =? 1 | None => false end in
      match type lastPlayed with
      | Single =>
          if isNextPlayerOneCard then
            match lastCard sorted with
            | None => Throw      (* getCardWeight(undefined) *)
            | Some myLargest =>
                if strength lastPlayed <? getCardWeight myLargest
                then Play [myLargest]
                else match myBombs with
                     | b :: _ => Play b
                     | [] => Pass
                     end
            end
          else
            let validCards :=
              filter (fun c => strength lastPlayed <? getCardWeight c) sorted in
            match validCards with
            | v :: _ =>
                match filter (fun c => negb (Rank_eqb (rank c) R2))
                             validCards with
                | n :: _ => Play [n]
                | [] => Play [v]
                end
            | [] =>
                let dangerousOpponent := someAtMost3 opponentsHandSizes in
                let isLateGame := (List.length hand <=? 5)%nat in
                match myBombs with
                | b :: _ =>
                    if dangerousOpponent || isLateGame then Play b else Pass
                | [] => Pass
                end
            end
      | Pair =>
          let pairs := getAllPairs sorted in
          let validPairs := validPairsOf pairs lastPlayed in
          match validPairs with
          | bestPair :: _ =>
              let isPair2 :=
                match bestPair with
                | c :: _ => Rank_eqb (rank c) R2
                | [] => false
                end in
              let dangerousOpponent := someAtMost3 opponentsHandSizes in
              let amILateGame := (List.length hand <=? 5)%nat in
              if isPair2 && negb dangerousOpponent && negb amILateGame
              then Pass
              else Play bestPair
          | [] =>
              match myBombs with
              | b :: _ => Play b
              | [] => Pass
              end
          end
      | Straight | FullHouse | FourOfAKind | StraightFlush | Dragon =>
          match find (fun f => match identifyHand f with
                               | Some h => compareHands h lastPlayed
                               | None => false
                               end) myFives with
          | Some f => Play f
          | None => Pass
          end
      | NoneType => Pass
      end
  end.

(** *** Shuffling

    [shuffleDeck] draws [j = Math.floor(Math.random() * (i + 1))] at each
    step; [draws i] is the value drawn at step [i], which lies in [0..i]. *)
Fixpoint set_nth {A : Type} (i : nat) (v : A) (l : list A) : list A :=
  match l, i with
  | [], _ => []
  | _ :: t, O => v :: t
  | x :: t, S i' => x :: set_nth i' v t
  end.

(** [[a[i], a[j]] = [a[j], a[i]]] for indices inside the array. *)
Definition swap {A : Type} (l : list A) (i j : nat) : list A :=
  match nth_error l i, nth_error l j with
  | Some a, Some b => set_nth i b (set_nth j a l)
  | _, _ => l
  end.

(** [for (let i = shuffled.length - 1; i > 0; i--)] *)
Fixpoint shuffleLoop (draws : nat -> nat) (i : nat) (shuffled : list Card)
  : list Card :=
  match i with
  | O => shuffled
  | S i' => shuffleLoop draws i' (swap shuffled i (draws i))
  end.

Definition shuffleDeck (draws : nat -> nat) (deck : list Card) : list Card :=
  shuffleLoop draws (List.length deck - 1) deck.

(** *** The first bot: [findValidHand] *)

Definition isClub3 (c : Card) : bool :=
  Rank_eqb (rank c) R3 && Suit_eqb (suit c) Clubs.

(** The loop over adjacent cards of equal rank that returns the first pair
    accepted by [accept]. *)
Fixpoint firstPair (accept : Card -> Card -> bool) (sortedHand : list Card)
  : option (list Card) :=
  match sortedHand with
  | a :: (b :: _) as rest =>
      if Rank_eqb (rank a) (rank b) && accept a b then Some [a; b]
      else firstPair accept rest
  | _ => None
  end.

Definition findValidHand
  (hand : list Card) (prevHand : option Hand) (isFirstTurn : bool) : BotPlay :=
  let sortedHand := sortCards hand in
  if isFirstTurn then
    match find isClub3 sortedHand with
    | None => playFirst sortedHand
    | Some club3 =>
        let isIt := fun c => String.eqb (id c) (id club3) in
        match filter (existsb isIt) (findFiveCardHands hand) with
        | f :: _ => Play f
        | [] =>
            match firstPair (fun a b => isIt a || isIt b) sortedHand with
            | Some p => Play p
            | None => Play [club3]
            end
        end
    end
  else
  match prevHand with
  | None =>
      match findFiveCardHands hand with
      | f :: _ => Play f
      | [] =>
          match firstPair (fun _ _ => true) sortedHand with
          | Some p => Play p
          | None => playFirst sortedHand
          end
      end
  | Some prevHand =>
      let fives := findFiveCardHands hand in
      let bombs := bombsOf fives in
      let fiveCardAnswer :=
        if (List.length (cards prevHand) =? 5)%nat then
          match find (fun f => match identifyHand f with
                               | Some h => compareHands h prevHand
                               | None => false
                               end) fives with
          | Some f => Play f
          | None => Pass
          end
        else Pass in
      match type prevHand with
      | Single =>
          match find (fun c => strength prevHand <? getCardWeight c)
                     sortedHand with
          | Some valid => Play [valid]
          | None =>
              match bombs with
              | b :: _ => Play b
              | [] => Pass
              end
          end
      | Pair =>
          match firstPair
                  (fun a b => match identifyHand [a; b] with
                              | Some h => compareHands h prevHand
                              | None => false
                              end) sortedHand with
          | Some p => Play p
          | None =>
              match bombs with
              | b :: _ => Play b
              | [] => fiveCardAnswer
              end
          end
      | _ => fiveCardAnswer
      end
  end.

(** *** The rule-following bot: [getDumbBotPlay] *)

Definition getDumbBotPlay
  (hand : list Card) (lastPlayed : option Hand) (isFirstTurn : bool) : BotPlay :=
  let sorted := sortCards hand in
  if isFirstTurn then
    match find isClub3 sorted with
    | Some club3 => Play [club3]
    | None => playFirst sorted
    end
  else
  match lastPlayed with
  | None => playFirst sorted
  | Some lastPlayed =>
      match type lastPlayed with
      | Single =>
          match find (fun c => strength lastPlayed <? getCardWeight c)
                     sorted with
          | Some valid => Play [valid]
          | None => Pass
          end
      | _ => Pass
      end
  end.

End Logic.

(** ** evaluate.ts: the combination enumerator *)

Module Evaluate.
Import Types Logic.

Inductive Category := bomb | five | pair | single.

Record CardCombination := {
  cards : list Card;
  hand : Hand;
  priority : Z;
  category : Category
}.

Record HandEvaluation := {
  bombs : list CardCombination;
  fiveCards : list CardCombination;
  pairs : list CardCombination;
  singles : list Card;
  totalStrength : Z
}.

Definition RANK_ORDER : list Rank :=
  [R3; R4; R5; R6; R7; R8; R9; R10; RJ; RQ; RK; RA; R2].

Definition findAllStraights (cs : list Card) : list (list Card) :=
  flat_map
    (fun i =>
       match pickRanks cs (firstn 5 (skipn i RANK_ORDER)) with
       | Some picked => [picked]
       | None => []
       end)
    (seq 0 9)
  ++ optionToList (pickRanks cs [RA; R2; R3; R4; R5]).

(** [results.sort((a, b) => b.priority - a.priority)] *)
Definition sortByPriority (l : list CardCombination) : list CardCombination :=
  sort_by (fun a b => 0 <? priority b - priority a) l.

Definition findAllFiveCardHands (cs : list Card) : list CardCombination :=
  let byRank := Object_values (groupByRank cs) in
  let fourOfAKinds :=
    flat_map
      (fun quad =>
         flat_map
           (fun kicker =>
              if negb (match groupRank quad with
                       | Some r => Rank_eqb (rank kicker) r
                       | None => false
                       end)
              then
                let handCards := quad ++ [kicker] in
                match identifyHand handCards with
                | Some h =>
                    if HandType_eqb (type h) FourOfAKind
                    then [{| cards := handCards; hand := h;
                             priority := strength h + 10000;
                             category := bomb |}]
                    else []
                | None => []
                end
              else [])
           cs)
      (filter (fun g => (List.length g =? 4)%nat) byRank) in
  let triples := filter (fun g => (3 <=? List.length g)%nat) byRank in
  let pairGroups := filter (fun g => (2 <=? List.length g)%nat) byRank in
  let fullHouses :=
    flat_map
      (fun t =>
         flat_map
           (fun p =>
              if negb (sameGroupRank t p) then
                let handCards := firstn 3 t ++ firstn 2 p in
                match identifyHand handCards with
                | Some h =>
                    if HandType_eqb (type h) FullHouse
                    then [{| cards := handCards; hand := h;
                             priority := strength h;
                             category := five |}]
                    else []
                | None => []
                end
              else [])
           pairGroups)
      triples in
  let straights :=
    flat_map
      (fun straight =>
         match identifyHand straight with
         | None => []
         | Some h =>
             let isSF := HandType_eqb (type h) StraightFlush in
             [{| cards := straight; hand := h;
                 priority := if isSF then strength h + 10000 else strength h;
                 category := if isSF then bomb else five |}]
         end)
      (findAllStraights cs) in
  sortByPriority (fourOfAKinds ++ fullHouses ++ straights).

Fixpoint adjacentPairs (cs : list Card) : list CardCombination :=
  match cs with
  | a :: (b :: _) as rest =>
      if Rank_eqb (rank a) (rank b) then
        match identifyHand [a; b] with
        | Some h =>
            {| cards := [a; b]; hand := h; priority := strength h;
               category := pair |} :: adjacentPairs rest
        | None => adjacentPairs rest
        end
      else adjacentPairs rest
  | _ => []
  end.

Definition findAllPairs (cs : list Card) : list CardCombination :=
  sortByPriority (adjacentPairs cs).

Definition calculateStrength
  (bombs fives pairs : list CardCombination) (singles : list Card) : Z :=
  let score :=
    Z.of_nat (List.length bombs) * 1000
    + Z.of_nat (List.length fives) * 200
    + Z.of_nat (List.length pairs) * 30 in
  fold_left
    (fun score c => if 40 <=? getCardWeight c then score - 5 else score)
    singles score.

(** [new Set(combos.flatMap(c => c.cards.map(x => x.id)))], as the list
    of its members; [used.has(i)] is [hasId used i]. *)
Definition idsOf (combos : list CardCombination) : list string :=
  flat_map (fun c => map id (cards c)) combos.

Definition hasId (used : list string) (i : string) : bool :=
  existsb (String.eqb i) used.

Definition evaluateHand (cs : list Card) : HandEvaluation :=
  let sorted := sortCards cs in
  let fiveCards := findAllFiveCardHands sorted in
  let bombs :=
    filter (fun c => HandType_eqb (type (hand c)) FourOfAKind
                     || HandType_eqb (type (hand c)) StraightFlush) fiveCards in
  let normalFives :=
    filter (fun c => negb (HandType_eqb (type (hand c)) FourOfAKind)
                     && negb (HandType_eqb (type (hand c)) StraightFlush))
           fiveCards in
  let pairs := findAllPairs sorted in
  let used := idsOf (bombs ++ normalFives ++ pairs) in
  let singles := filter (fun c => negb (hasId used (id c))) sorted in
  let totalStrength := calculateStrength bombs normalFives pairs singles in
  {| bombs := bombs; fiveCards := normalFives; pairs := pairs;
     singles := singles; totalStrength := totalStrength |}.

End Evaluate.

(** ** bot-strategy.ts: the look-ahead bot *)

Module BotStrategy.
Import Types Logic Evaluate.

Record Context := {
  myHandSize : Z;
  opponentsHandSizes : list Z;
  lastPlayedHand : option Hand;
  consecutivePasses : Z
}.

(** A score is an integer or [-Infinity] ([simulateFuture] starts its
    maximum at [-Infinity] and may find no move). *)
Inductive Score := NegInfinity | Finite (z : Z).

Definition score_add (a b : Score) : Score :=
  match a, b with
  | Finite x, Finite y => Finite (x + y)
  | _, _ => NegInfinity
  end.

Definition score_max (a b : Score) : Score :=
  match a, b with
  | NegInfinity, _ => b
  | _, NegInfinity => a
  | Finite x, Finite y => Finite (Z.max x y)
  end.

(** [b - a > 0]; [-Infinity - -Infinity] is [NaN], which is not. *)
Definition score_ltb (a b : Score) : bool :=
  match a, b with
  | NegInfinity, Finite _ => true
  | Finite x, Finite y => x <? y
  | _, NegInfinity => false
  end.

Definition removeCards (all used : list Card) : list Card :=
  let usedIds := map id used in
  filter (fun c => negb (hasId usedIds (id c))) all.

Definition canBeat (my last : Hand) : bool :=
  if (HandType_eqb (type my) FourOfAKind || HandType_eqb (type my) StraightFlush)
     && (negb (HandType_eqb (type last) FourOfAKind)
         && negb (HandType_eqb (type last) StraightFlush))
  then true
  else if negb (HandType_eqb (type my) (type last)) then false
  else strength last <? strength my.

(** [singles.map(c => ({cards: [c], hand: identifyHand([c])!, ...}))];
    [identifyHand] of one card is never [null]. *)
Definition singleMoves (cs : list Card) : list CardCombination :=
  flat_map
    (fun c =>
       match identifyHand [c] with
       | Some h => [{| cards := [c]; hand := h;
                       priority := getCardWeight c; category := single |}]
       | None => []
       end)
    cs.

Definition getAllLegalMoves
  (cs : list Card) (evaluation : HandEvaluation) (lastPlayedHand : option Hand)
  : list CardCombination :=
  match lastPlayedHand with
  | None =>
      fiveCards evaluation ++ pairs evaluation
      ++ singleMoves (singles evaluation)
  | Some lastPlayedHand =>
      let all :=
        bombs evaluation ++ fiveCards evaluation ++ pairs evaluation
        ++ singleMoves (singles evaluation) in
      filter (fun m => canBeat (hand m) lastPlayedHand) all
  end.

Definition evaluateEndState (cs : list Card) : Z :=
  fold_left
    (fun score c => if 40 <=? getCardWeight c then score - 5 else score)
    cs (- Z.of_nat (List.length cs) * 10).

Definition Category_eqb (a b : Category) : bool :=
  match a, b with
  | bomb, bomb | five, five | pair, pair | single, single => true
  | _, _ => false
  end.

Definition moveCost (move : CardCombination) (evaluation : HandEvaluation) : Z :=
  let cost0 := if Category_eqb (category move) single then 2 else 0 in
  let cost1 := if Category_eqb (category move) pair then cost0 + 3 else cost0 in
  let protectedIds := idsOf (fiveCards evaluation ++ bombs evaluation) in
  let cost2 :=
    fold_left
      (fun cost c =>
         if hasId protectedIds (id c) && (List.length (cards move) <? 5)%nat
         then cost + 20 else cost)
      (cards move) cost1 in
  if Category_eqb (category move) bomb then cost2 + 10 else cost2.

Fixpoint simulateFuture (cs : list Card) (depth : nat) : Score :=
  match depth with
  | O => Finite (evaluateEndState cs)
  | S depth' =>
      match cs with
      | [] => Finite (evaluateEndState cs)
      | _ :: _ =>
          let evalHand := evaluateHand cs in
          let moves :=
            fiveCards evalHand ++ pairs evalHand
            ++ singleMoves (singles evalHand) in
          fold_left
            (fun best m =>
               let next := removeCards cs (cards m) in
               let score :=
                 score_add (Finite (- moveCost m evalHand))
                           (simulateFuture next depth') in
               score_max best score)
            moves NegInfinity
      end
  end.

Definition immediateScore
  (move : CardCombination) (evaluation : HandEvaluation) : Z :=
  let s0 := Z.of_nat (List.length (cards move)) * 15 in
  let s1 := if Category_eqb (category move) five then s0 + 20 else s0 in
  let s2 := if Category_eqb (category move) bomb then s1 + 50 else s1 in
  s2 - moveCost move evaluation.

(** A single move holds one card, so [move.cards[0]] is defined. *)
Definition dangerAdjustment
  (move : CardCombination) (dangerousOpponent : bool) (context : Context) : Z :=
  if negb dangerousOpponent then 0
  else if Category_eqb (category move) bomb then 30
  else if Category_eqb (category move) single then
    match cards move with
    | c :: _ => if getCardWeight c <? 30 then -20 else 0
    | [] => 0
    end
  else 0.

Definition chooseBestMove
  (cs : list Card) (evaluation : HandEvaluation) (context : Context)
  : option (list Card) :=
  let legalMoves := getAllLegalMoves cs evaluation (lastPlayedHand context) in
  match legalMoves with
  | [] => None
  | _ :: _ =>
      let dangerousOpponent :=
        existsb (fun s => s <=? 3) (opponentsHandSizes context) in
      let scored :=
        map (fun move =>
               let remaining := removeCards cs (cards move) in
               let score :=
                 score_add
                   (score_add (simulateFuture remaining 2)
                              (Finite (immediateScore move evaluation)))
                   (Finite (dangerAdjustment move dangerousOpponent context)) in
               (move, score))
            legalMoves in
      match sort_by (fun a b => score_ltb (snd a) (snd b)) scored with
      | best :: _ => Some (cards (fst best))
      | [] => None            (* [scored] is as long as [legalMoves] *)
      end
  end.

End BotStrategy.

(** ** Example cards and hands *)

Module Examples.
Import Types Logic.

Definition threeOfClubs : Card := mkCard R3 Clubs.

Definition straight23456 : list Card :=
  [mkCard R3 Clubs; mkCard R4 Diamonds; mkCard R5 Hearts; mkCard R6 Clubs;
   mkCard R2 Spades].

Definition straightJQKA2 : list Card :=
  [mkCard RJ Clubs; mkCard RQ Diamonds; mkCard RK Hearts; mkCard RA Spades;
   mkCard R2 Spades].

Definition straightFlush34567 : list Card :=
  [mkCard R3 Clubs; mkCard R4 Clubs; mkCard R5 Clubs; mkCard R6 Clubs;
   mkCard R7 Clubs].

Definition quadThrees : list Card :=
  [mkCard R7 Clubs; mkCard R3 Clubs; mkCard R3 Spades; mkCard R3 Hearts;
   mkCard R3 Diamonds].

Definition sevensOverThrees : list Card :=
  [mkCard R7 Hearts; mkCard R3 Clubs; mkCard R7 Diamonds; mkCard R3 Spades;
   mkCard R7 Clubs].

Definition pairOfAces : list Card := [mkCard RA Clubs; mkCard RA Spades].

Definition pairOfNines : list Card := [mkCard R9 Clubs; mkCard R9 Spades].

(** Seven cards whose only pair above a pair of aces is the pair of 2s. *)
Definition handWithTwos : list Card :=
  [mkCard R3 Clubs; mkCard R4 Diamonds; mkCard R5 Hearts; mkCard R7 Spades;
   mkCard R9 Clubs; mkCard R2 Hearts; mkCard R2 Spades].

(** Seven cards with a pair of kings, a pair of 2s and no bomb. *)
Definition handWithKings : list Card :=
  [mkCard R3 Clubs; mkCard R4 Diamonds; mkCard RK Hearts; mkCard RK Spades;
   mkCard R9 Clubs; mkCard R2 Hearts; mkCard R2 Spades].

(** Seven cards with four threes and no pair above the aces. *)
Definition handWithQuad : list Card :=
  [mkCard R3 Clubs; mkCard R3 Diamonds; mkCard R3 Hearts; mkCard R3 Spades;
   mkCard R9 Clubs; mkCard RJ Hearts; mkCard RQ Spades].

(** Six low cards: nothing beats a single ace, and there is no bomb. *)
Definition lowHand : list Card :=
  [mkCard R3 Clubs; mkCard R4 Diamonds; mkCard R5 Hearts; mkCard R7 Spades;
   mkCard R9 Clubs; mkCard R9 Hearts].

(** Seven cards holding the straight flush 3-4-5-6-7 of diamonds beside a
    lighter 3, and no pair above the aces. *)
Definition handHiddenFlush : list Card :=
  [mkCard R3 Clubs; mkCard R3 Diamonds; mkCard R4 Diamonds; mkCard R5 Diamonds;
   mkCard R6 Diamonds; mkCard R7 Diamonds; mkCard R9 Spades].

Definition diamonds34567 : list Card :=
  [mkCard R3 Diamonds; mkCard R4 Diamonds; mkCard R5 Diamonds;
   mkCard R6 Diamonds; mkCard R7 Diamonds].

(** The hands [identifyHand] returns on these groups. *)
Definition handStraightFlush : Hand :=
  {| cards := straightFlush34567; type := StraightFlush; strength := 20 |}.

Definition handStraight : Hand :=
  {| cards := straight23456; type := Straight; strength := 100 |}.

Definition handJQKA2 : Hand :=
  {| cards := straightJQKA2; type := Straight; strength := 103 |}.

Definition handQuad : Hand :=
  {| cards := [mkCard R3 Clubs; mkCard R3 Diamonds; mkCard R3 Hearts;
               mkCard R3 Spades; mkCard R7 Clubs];
     type := FourOfAKind; strength := 0 |}.

Definition handFullHouse : Hand :=
  {| cards := [mkCard R3 Clubs; mkCard R3 Spades; mkCard R7 Clubs;
               mkCard R7 Diamonds; mkCard R7 Hearts];
     type := FullHouse; strength := 4 |}.

Definition handPairOfAces : Hand :=
  {| cards := pairOfAces; type := Pair; strength := 113 |}.

Definition handPairOfNines : Hand :=
  {| cards := pairOfNines; type := Pair; strength := 63 |}.

Definition handSingleAce : Hand :=
  {| cards := [mkCard RA Spades]; type := Single; strength := 113 |}.

End Examples.

(** ** Notions used in the statements *)

Module Notions.
Import Types Logic Evaluate.

(** The order [sortCards] sorts by. *)
Definition weight_le (a b : Card) : Prop := getCardWeight a <= getCardWeight b.

(** How many cards of [cs] have rank [r]. *)
Definition countRank (r : Rank) (cs : list Card) : nat :=
  List.length (filter (fun c => Rank_eqb (rank c) r) cs).

(** Two cards have the same identity when rank and suit agree. *)
Definition sameCard (a b : Card) : bool :=
  Rank_eqb (rank a) (rank b) && Suit_eqb (suit a) (suit b).

(** Some card identity occurs twice in [cs]. *)
Fixpoint hasDuplicate (cs : list Card) : bool :=
  match cs with
  | [] => false
  | c :: rest => existsb (sameCard c) rest || hasDuplicate rest
  end.

(** Some card of [cs] has rank [r]. *)
Definition hasRankIn (cs : list Card) (r : Rank) : bool :=
  existsb (fun c => Rank_eqb (rank c) r) cs.

(** The cards [m] can be taken out of [hand], each card of the hand used
    at most once. *)
Definition playable (m hand : list Card) : Prop :=
  exists rest, Permutation (m ++ rest) hand.

(** A legal answer to [reference]: playable, classified, and beating it. *)
Definition legalMove (hand : list Card) (reference : Hand) (m : list Card)
  : Prop :=
  playable m hand
  /\ exists h, identifyHand m = Some h /\ compareHands h reference = true.

(** The number of cards of a hand of each type. *)
Definition cardsOfType (t : HandType) : nat :=
  match t with
  | Single => 1
  | Pair => 2
  | Straight | FullHouse | FourOfAKind | StraightFlush => 5
  | Dragon => 13
  | NoneType => 0
  end.

(** [c.rank === r] *)
Definition rankIs (r : Rank) (c : Card) : bool := Rank_eqb (rank c) r.

(** [m] holds, under pairwise different keys, the non-empty groups of the
    cards of [l] by rank, each in the order of [l]. *)
Definition groupsOf (l : list Card) (m : list (Rank * list Card)) : Prop :=
  NoDup (map fst m)
  /\ (forall r g, In (r, g) m -> g = filter (rankIs r) l /\ g <> [])
  /\ (forall c, In c l -> In (rank c) (map fst m)).

(** A combination of the evaluation is playable and carries the hand that
    [identifyHand] gives its cards. *)
Definition soundCombination (hand : list Card) (m : CardCombination) : Prop :=
  playable (Evaluate.cards m) hand
  /\ identifyHand (Evaluate.cards m) = Some (Evaluate.hand m).

(** The three shapes of a straight, on the sorted cards. *)
Inductive StraightShape (s0 s1 s2 s3 s4 : Card) : Z -> Prop :=
| Shape23456 :
    map rank [s0; s1; s2; s3; s4] = [R3; R4; R5; R6; R2] ->
    StraightShape s0 s1 s2 s3 s4 (10 * 10 + SuitOrder (suit s3))
| ShapeA2345 :
    map rank [s0; s1; s2; s3; s4] = [R3; R4; R5; RA; R2] ->
    StraightShape s0 s1 s2 s3 s4 (1 * 10 + SuitOrder (suit s2))
| ShapeStandard :
    consecutive (map (fun c => RankOrder (rank c)) [s0; s1; s2; s3; s4]) = true ->
    StraightShape s0 s1 s2 s3 s4
      ((RankOrder (rank s4) - 2) * 10 + SuitOrder (suit s4)).

(** The rank lists the enumerators look for, and the same in sorted order. *)
Definition straightWindowRanks : list (list Rank) :=
  [[R3; R4; R5; R6; R7]; [R4; R5; R6; R7; R8]; [R5; R6; R7; R8; R9];
   [R6; R7; R8; R9; R10]; [R7; R8; R9; R10; RJ]; [R8; R9; R10; RJ; RQ];
   [R9; R10; RJ; RQ; RK]; [R10; RJ; RQ; RK; RA]; [RJ; RQ; RK; RA; R2];
   [RA; R2; R3; R4; R5]; [R2; R3; R4; R5; R6]].

Definition sortedStraightRanks : list (list Rank) :=
  [[R3; R4; R5; R6; R7]; [R4; R5; R6; R7; R8]; [R5; R6; R7; R8; R9];
   [R6; R7; R8; R9; R10]; [R7; R8; R9; R10; RJ]; [R8; R9; R10; RJ; RQ];
   [R9; R10; RJ; RQ; RK]; [R10; RJ; RQ; RK; RA]; [RJ; RQ; RK; RA; R2];
   [R3; R4; R5; RA; R2]; [R3; R4; R5; R6; R2]].

(** A pair that answers [reference]: two cards that are a legal move. *)
Definition beatingPair (hand : list Card) (reference : Hand) (m : list Card)
  : Prop :=
  List.length m = 2%nat /\ legalMove hand reference m.

(** [c] is a lightest card of rank [r] in [hand]. *)
Definition lowestOfRank (hand : list Card) (r : Rank) (c : Card) : Prop :=
  In c hand /\ rank c = r
  /\ forall c', In c' hand -> rank c' = r ->
                getCardWeight c <= getCardWeight c'.

(** A rank held exactly four times, with one more card of another rank. *)
Definition quadWithKicker (hand : list Card) : Prop :=
  exists q c, countRank q hand = 4%nat /\ In c hand /\ rank c <> q.

(** A straight window whose lightest cards, rank by rank, share a suit. *)
Definition lowestFlush (hand : list Card) : Prop :=
  exists rs s,
    In rs straightWindowRanks
    /\ forall r, In r rs -> exists c, lowestOfRank hand r c /\ suit c = s.

(** No opponent is close to going out and the hand is not nearly empty. *)
Definition calm (hand : list Card) (opponents : option (list Z)) : Prop :=
  (forall sizes, opponents = Some sizes -> Forall (fun s => 3 < s) sizes)
  /\ (5 < List.length hand)%nat.

(** The order of the lists of an evaluation: higher priority first. *)
Definition priority_ge (a b : CardCombination) : Prop :=
  priority b <= priority a.

(** The kind of a five-card combination: its type with the category and
    priority the enumerator gives that type. *)
Definition fiveCardKind (m : CardCombination) : Prop :=
  (isBomb (type (Evaluate.hand m)) = true /\ category m = bomb
   /\ priority m = strength (Evaluate.hand m) + 10000)
  \/ ((type (Evaluate.hand m) = FullHouse \/ type (Evaluate.hand m) = Straight)
      /\ category m = five /\ priority m = strength (Evaluate.hand m)).

End Notions.

(** * Properties *)

Import Types Logic Examples Notions.

(** ** Shared facts *)

Example example_hands_identified :
  identifyHand straightFlush34567 = Some handStraightFlush
  /\ identifyHand straight23456 = Some handStraight
  /\ identifyHand quadThrees = Some handQuad
  /\ identifyHand sevensOverThrees = Some handFullHouse
  /\ identifyHand pairOfAces = Some handPairOfAces
  /\ identifyHand pairOfNines = Some handPairOfNines
  /\ identifyHand [mkCard RA Spades] = Some handSingleAce.
Proof. repeat split. Qed.

Lemma Rank_eqb_eq (a b : Rank) : Rank_eqb a b = true <-> a = b.
Proof.
  unfold Rank_eqb; rewrite Z.eqb_eq; split; [|now intros ->].
  destruct a, b; simpl; intros H; try reflexivity; discriminate H.
Qed.

Lemma Rank_eqb_refl (a : Rank) : Rank_eqb a a = true.
Proof. now apply Rank_eqb_eq. Qed.

Lemma Rank_eqb_neq (a b : Rank) : Rank_eqb a b = false <-> a <> b.
Proof.
  rewrite <- Rank_eqb_eq. destruct (Rank_eqb a b); split; congruence.
Qed.

Lemma HandType_eqb_eq (a b : HandType) : HandType_eqb a b = true <-> a = b.
Proof. destruct a, b; simpl; split; congruence. Qed.

Lemma isBomb_spec (t : HandType) :
  isBomb t = true <-> t = FourOfAKind \/ t = StraightFlush.
Proof.
  destruct t; simpl; split; intros H; try discriminate; auto;
    destruct H; discriminate.
Qed.

Lemma isBomb_false (t : HandType) :
  isBomb t = false <-> t <> FourOfAKind /\ t <> StraightFlush.
Proof.
  destruct t; simpl; split; intros H; try discriminate;
    try (split; discriminate); destruct H; congruence.
Qed.

(** Turns the boolean tests of [compareHands] into arithmetic. *)
Ltac bool_arith :=
  repeat match goal with
    | H : _ && _ = true |- _ => apply andb_true_iff in H; destruct H
    | H : _ || _ = false |- _ => apply orb_false_iff in H; destruct H
    | H : negb _ = true |- _ => apply negb_true_iff in H
    | H : negb _ = false |- _ => apply negb_false_iff in H
    | H : (_ <? _) = true |- _ => apply Z.ltb_lt in H
    | H : (_ <? _) = false |- _ => apply Z.ltb_ge in H
    | H : (_ <=? _) = true |- _ => apply Z.leb_le in H
    | H : (_ <=? _) = false |- _ => apply Z.leb_gt in H
    | H : (_ =? _) = true |- _ => apply Z.eqb_eq in H
    | H : (_ =? _) = false |- _ => apply Z.eqb_neq in H
    | H : (_ =? _)%nat = true |- _ => apply Nat.eqb_eq in H
    | H : (_ =? _)%nat = false |- _ => apply Nat.eqb_neq in H
    | H : (_ <=? _)%nat = true |- _ => apply Nat.leb_le in H
    | H : (_ <=? _)%nat = false |- _ => apply Nat.leb_gt in H
    end.

(** ** The comparator *)

Lemma compareHands_same_type (a b : Hand) :
  isBomb (type a) = false -> compareHands a b = true ->
  type a = type b /\ strength b < strength a.
Proof.
  intros Hnb. unfold compareHands. rewrite Hnb.
  destruct (negb _); [discriminate|].
  destruct (HandType_eqb (type a) (type b)) eqn:Hty; [|discriminate].
  apply HandType_eqb_eq in Hty. simpl. rewrite Z.ltb_lt. auto.
Qed.

(** C1. A candidate whose type is FourOfAKind or StraightFlush beats every
    reference that is neither, whatever the strengths, the numbers of
    cards and the reference's type; against a reference that is also one
    of the two, it wins exactly when its type rank (FourOfAKind = 4,
    StraightFlush = 5) is strictly greater, or the ranks are equal and its
    strength is strictly greater. *)
Theorem compareHands_bomb (candidate reference : Hand)
  (Hbomb : type candidate = FourOfAKind \/ type candidate = StraightFlush) :
  (type reference <> FourOfAKind /\ type reference <> StraightFlush ->
   compareHands candidate reference = true)
  /\ (type reference = FourOfAKind \/ type reference = StraightFlush ->
      (compareHands candidate reference = true <->
       HandTypeOrder (type reference) < HandTypeOrder (type candidate)
       \/ (HandTypeOrder (type candidate) = HandTypeOrder (type reference)
           /\ strength reference < strength candidate)))
  /\ HandTypeOrder FourOfAKind = 4 /\ HandTypeOrder StraightFlush = 5.
Proof.
  apply isBomb_spec in Hbomb.
  unfold compareHands; rewrite Hbomb.
  split; [|split; [|split; reflexivity]].
  - intros Href. apply isBomb_false in Href. now rewrite Href.
  - intros Href. apply isBomb_spec in Href. rewrite Href.
    destruct (HandTypeOrder (type reference) <? HandTypeOrder (type candidate))
      eqn:Hlt; bool_arith.
    + split; auto.
    + destruct (HandTypeOrder (type candidate) =? HandTypeOrder (type reference))
        eqn:Heq; bool_arith.
      * rewrite Z.ltb_lt. split; [intros; right; split; assumption|].
        intros [Hc | [_ Hc]]; [lia | exact Hc].
      * split; [discriminate | intros [Hc | [Hc _]]; lia].
Qed.

Lemma compareHands_bomb_witness :
  compareHands handStraightFlush handStraight = true
  /\ compareHands handStraightFlush handQuad = true.
Proof.
  split.
  - apply (proj1 (compareHands_bomb handStraightFlush handStraight
                    (or_intror eq_refl))).
    split; discriminate.
  - apply (proj1 (proj2 (compareHands_bomb handStraightFlush handQuad
                           (or_intror eq_refl)))).
    + left; reflexivity.
    + left; simpl; lia.
Defined.

(** C2. A candidate that is neither FourOfAKind nor StraightFlush beats the
    reference exactly when both have the same number of cards and the same
    type and the candidate's strength is strictly greater; so no Straight
    beats a FullHouse. *)
Theorem compareHands_non_bomb (candidate reference : Hand)
  (H4 : type candidate <> FourOfAKind)
  (HSF : type candidate <> StraightFlush) :
  (compareHands candidate reference = true <->
   List.length (cards candidate) = List.length (cards reference)
   /\ type candidate = type reference
   /\ strength reference < strength candidate)
  /\ (type candidate = Straight -> type reference = FullHouse ->
      compareHands candidate reference = false).
Proof.
  assert (Hnb : isBomb (type candidate) = false)
    by (apply isBomb_false; split; assumption).
  unfold compareHands; rewrite Hnb. split.
  - destruct (List.length (cards candidate) =? List.length (cards reference))%nat
      eqn:Hlen; simpl; bool_arith.
    + destruct (HandType_eqb (type candidate) (type reference)) eqn:Hty; simpl.
      * apply HandType_eqb_eq in Hty. rewrite Z.ltb_lt. tauto.
      * split; [discriminate|]. intros (_ & Heq & _).
        apply HandType_eqb_eq in Heq. congruence.
    + split; [discriminate|]. intros (Heq & _). contradiction.
  - intros Hc Hr. rewrite Hc, Hr.
    destruct (negb _); reflexivity.
Qed.

Lemma compareHands_non_bomb_witness :
  (compareHands handPairOfAces handPairOfNines = true)
  /\ compareHands handStraight handFullHouse = false.
Proof.
  split.
  - apply (proj1 (compareHands_non_bomb handPairOfAces handPairOfNines
                    ltac:(discriminate) ltac:(discriminate))).
    split; [reflexivity | split; [reflexivity | simpl; lia]].
  - apply (proj2 (compareHands_non_bomb handStraight handFullHouse
                    ltac:(discriminate) ltac:(discriminate)));
      reflexivity.
Defined.

(** C10. [compareHands] is irreflexive and asymmetric. *)
Theorem compareHands_irreflexive_asymmetric :
  (forall h : Hand, compareHands h h = false)
  /\ (forall a b : Hand,
        ~ (compareHands a b = true /\ compareHands b a = true)).
Proof.
  split.
  - intros h. unfold compareHands.
    destruct (isBomb (type h)).
    + rewrite !Z.ltb_irrefl, Z.eqb_refl. reflexivity.
    + rewrite Nat.eqb_refl. simpl.
      replace (HandType_eqb (type h) (type h)) with true
        by (symmetry; now apply HandType_eqb_eq).
      simpl. apply Z.ltb_irrefl.
  - intros a b [Hab Hba]. unfold compareHands in Hab, Hba.
    destruct (isBomb (type a)) eqn:Ha, (isBomb (type b)) eqn:Hb.
    + destruct (HandTypeOrder (type b) <? HandTypeOrder (type a)) eqn:H1,
               (HandTypeOrder (type a) <? HandTypeOrder (type b)) eqn:H2,
               (HandTypeOrder (type a) =? HandTypeOrder (type b)) eqn:H3,
               (HandTypeOrder (type b) =? HandTypeOrder (type a)) eqn:H4;
        bool_arith; try lia; discriminate.
    + destruct (negb (List.length (cards b) =? List.length (cards a))%nat);
        [discriminate|].
      destruct (HandType_eqb (type b) (type a)) eqn:Hty; [|discriminate].
      apply HandType_eqb_eq in Hty. congruence.
    + destruct (negb (List.length (cards a) =? List.length (cards b))%nat);
        [discriminate|].
      destruct (HandType_eqb (type a) (type b)) eqn:Hty; [|discriminate].
      apply HandType_eqb_eq in Hty. congruence.
    + destruct (negb (List.length (cards a) =? List.length (cards b))%nat);
        [discriminate|].
      destruct (negb (List.length (cards b) =? List.length (cards a))%nat);
        [discriminate|].
      destruct (negb (HandType_eqb (type a) (type b))); [discriminate|].
      destruct (negb (HandType_eqb (type b) (type a))); [discriminate|].
      bool_arith. lia.
Qed.

Lemma compareHands_irreflexive_asymmetric_witness :
  compareHands handQuad handQuad = false
  /\ ~ (compareHands handStraightFlush handQuad = true
        /\ compareHands handQuad handStraightFlush = true).
Proof.
  split.
  - apply (proj1 compareHands_irreflexive_asymmetric handQuad).
  - apply (proj2 compareHands_irreflexive_asymmetric
             handStraightFlush handQuad).
Defined.

(** The comparator private to the look-ahead bot is a different relation:
    it compares two bombs by strength only when their types agree. *)
Example canBeat_differs_from_compareHands :
  compareHands handStraightFlush handQuad = true
  /\ BotStrategy.canBeat handStraightFlush handQuad = false.
Proof. split; reflexivity. Qed.

(** ** Sorting *)

Section SortFacts.
Context {A : Type} (gt : A -> A -> bool).

Lemma insert_by_perm (x : A) (l : list A) :
  Permutation (x :: l) (insert_by gt x l).
Proof.
  induction l as [|y l IH]; simpl; [reflexivity|].
  destruct (gt x y); [|reflexivity].
  rewrite perm_swap. now apply perm_skip.
Qed.

Lemma sort_by_perm (l : list A) : Permutation l (sort_by gt l).
Proof.
  induction l as [|x l IH]; simpl; [constructor|].
  rewrite <- insert_by_perm. now apply perm_skip.
Qed.

Lemma sort_by_length (l : list A) : List.length (sort_by gt l) = List.length l.
Proof. symmetry. apply Permutation_length, sort_by_perm. Qed.

Lemma sort_by_In (l : list A) (x : A) : In x (sort_by gt l) <-> In x l.
Proof.
  split; apply Permutation_in;
    [apply Permutation_sym|]; apply sort_by_perm.
Qed.

Lemma sort_by_nil_inv (l : list A) : sort_by gt l = [] -> l = [].
Proof.
  intros H. apply Permutation_nil. rewrite <- H. apply Permutation_sym, sort_by_perm.
Qed.
End SortFacts.

Lemma insert_weight_sorted (x : Card) (l : list Card) :
  Sorted weight_le l ->
  Sorted weight_le
    (insert_by (fun a b => 0 <? getCardWeight a - getCardWeight b) x l).
Proof.
  induction 1 as [|y l Hs IH Hhd]; simpl.
  - repeat constructor.
  - destruct (0 <? getCardWeight x - getCardWeight y) eqn:Hc; bool_arith.
    + constructor; [exact IH|].
      destruct Hhd as [|z l Hyz]; simpl.
      * constructor. unfold weight_le. lia.
      * destruct (0 <? getCardWeight x - getCardWeight z);
          constructor; unfold weight_le in *; lia.
    + constructor; [now constructor|]. constructor. unfold weight_le. lia.
Qed.

Lemma sortCards_sorted (l : list Card) : Sorted weight_le (sortCards l).
Proof.
  unfold sortCards. induction l as [|x l IH]; simpl; [constructor|].
  now apply insert_weight_sorted.
Qed.

Lemma sortCards_perm (l : list Card) : Permutation l (sortCards l).
Proof. apply sort_by_perm. Qed.

Lemma sortCards_length (l : list Card) :
  List.length (sortCards l) = List.length l.
Proof. apply sort_by_length. Qed.

Lemma SuitOrder_range (s : Suit) : 0 <= SuitOrder s <= 3.
Proof. destruct s; simpl; lia. Qed.

Lemma weight_le_rank (a b : Card) :
  weight_le a b -> RankOrder (rank a) <= RankOrder (rank b).
Proof.
  unfold weight_le, getCardWeight.
  pose proof (SuitOrder_range (suit a)). pose proof (SuitOrder_range (suit b)).
  lia.
Qed.

Lemma RankOrder_inj (a b : Rank) : RankOrder a = RankOrder b -> a = b.
Proof. intros H. apply Rank_eqb_eq. unfold Rank_eqb. now apply Z.eqb_eq. Qed.

(** The five sorted cards of a five-card group, with their rank order. *)
Lemma sortCards_five (cs : list Card) :
  List.length cs = 5%nat ->
  exists s0 s1 s2 s3 s4,
    sortCards cs = [s0; s1; s2; s3; s4]
    /\ RankOrder (rank s0) <= RankOrder (rank s1)
    /\ RankOrder (rank s1) <= RankOrder (rank s2)
    /\ RankOrder (rank s2) <= RankOrder (rank s3)
    /\ RankOrder (rank s3) <= RankOrder (rank s4).
Proof.
  intros Hlen. rewrite <- sortCards_length in Hlen.
  pose proof (sortCards_sorted cs) as Hs.
  destruct (sortCards cs) as [|s0 [|s1 [|s2 [|s3 [|s4 [|]]]]]]; try discriminate.
  exists s0, s1, s2, s3, s4. split; [reflexivity|].
  repeat match goal with
         | H : Sorted _ (_ :: _) |- _ => inversion H; clear H; subst
         | H : HdRel _ _ (_ :: _) |- _ => inversion H; clear H; subst
         end.
  repeat split; now apply weight_le_rank.
Qed.

Lemma countRank_perm (r : Rank) (l l' : list Card) :
  Permutation l l' -> countRank r l = countRank r l'.
Proof.
  intros H. unfold countRank. apply Permutation_length.
  induction H; simpl.
  - constructor.
  - destruct (Rank_eqb (rank x) r); [now constructor | assumption].
  - destruct (Rank_eqb (rank x) r), (Rank_eqb (rank y) r);
      try reflexivity; constructor.
  - etransitivity; eassumption.
Qed.

(** ** Four of a kind and full house *)

Ltac split_rank c r H :=
  destruct (Rank_eqb (rank c) r) eqn:H;
  [apply Rank_eqb_eq in H | apply Rank_eqb_neq in H].

(** [identifyFive] looks at the cards only through their ranks and suits;
    once the ranks are constructors it computes. *)
Ltac identifyFive_compute :=
  unfold identifyFive, hasRank, Rank_eqb; simpl;
  eexists; split; [reflexivity | split; reflexivity].

Lemma identifyFive_quad_low (s0 s1 s2 s3 s4 : Card) (q : Rank) :
  rank s0 = q -> rank s1 = q -> rank s2 = q -> rank s3 = q -> rank s4 <> q ->
  exists h, identifyFive s0 s1 s2 s3 s4 = Some h
            /\ type h = FourOfAKind /\ strength h = RankOrder q.
Proof.
  destruct s0 as [u0 r0 i0], s1 as [u1 r1 i1], s2 as [u2 r2 i2],
           s3 as [u3 r3 i3], s4 as [u4 r4 i4]; simpl.
  intros -> -> -> -> Hk.
  destruct q, r4; try congruence; identifyFive_compute.
Qed.

Lemma identifyFive_quad_high (s0 s1 s2 s3 s4 : Card) (q : Rank) :
  rank s0 <> q -> rank s1 = q -> rank s2 = q -> rank s3 = q -> rank s4 = q ->
  exists h, identifyFive s0 s1 s2 s3 s4 = Some h
            /\ type h = FourOfAKind /\ strength h = RankOrder q.
Proof.
  destruct s0 as [u0 r0 i0], s1 as [u1 r1 i1], s2 as [u2 r2 i2],
           s3 as [u3 r3 i3], s4 as [u4 r4 i4]; simpl.
  intros Hk -> -> -> ->.
  destruct q, r0; try congruence; identifyFive_compute.
Qed.

Lemma identifyFive_triple_low (s0 s1 s2 s3 s4 : Card) (t p : Rank) :
  t <> p ->
  rank s0 = t -> rank s1 = t -> rank s2 = t -> rank s3 = p -> rank s4 = p ->
  exists h, identifyFive s0 s1 s2 s3 s4 = Some h
            /\ type h = FullHouse /\ strength h = RankOrder t.
Proof.
  destruct s0 as [u0 r0 i0], s1 as [u1 r1 i1], s2 as [u2 r2 i2],
           s3 as [u3 r3 i3], s4 as [u4 r4 i4]; simpl.
  intros Hne -> -> -> -> ->.
  destruct t, p; try congruence; identifyFive_compute.
Qed.

Lemma identifyFive_triple_high (s0 s1 s2 s3 s4 : Card) (t p : Rank) :
  t <> p ->
  rank s0 = p -> rank s1 = p -> rank s2 = t -> rank s3 = t -> rank s4 = t ->
  exists h, identifyFive s0 s1 s2 s3 s4 = Some h
            /\ type h = FullHouse /\ strength h = RankOrder t.
Proof.
  destruct s0 as [u0 r0 i0], s1 as [u1 r1 i1], s2 as [u2 r2 i2],
           s3 as [u3 r3 i3], s4 as [u4 r4 i4]; simpl.
  intros Hne -> -> -> -> ->.
  destruct t, p; try congruence; identifyFive_compute.
Qed.

Lemma identifyHand_five (cs : list Card) (s0 s1 s2 s3 s4 : Card) :
  sortCards cs = [s0; s1; s2; s3; s4] ->
  identifyHand cs = identifyFive s0 s1 s2 s3 s4.
Proof. intros H. unfold identifyHand. now rewrite H. Qed.

(** C4. Five cards made of four cards of one rank and a kicker are a
    FourOfAKind whose strength is the rank order of the quad; five cards
    made of a triple and a pair are a FullHouse whose strength is the rank
    order of the triple.  Neither the other rank nor any suit matters. *)
Theorem identifyHand_quad_and_full_house (cs : list Card)
  (Hlen : List.length cs = 5%nat) :
  (forall q, countRank q cs = 4%nat ->
     exists h, identifyHand cs = Some h
               /\ type h = FourOfAKind /\ strength h = RankOrder q)
  /\ (forall t p, countRank t cs = 3%nat -> countRank p cs = 2%nat ->
        exists h, identifyHand cs = Some h
                  /\ type h = FullHouse /\ strength h = RankOrder t).
Proof.
  destruct (sortCards_five cs Hlen)
    as (s0 & s1 & s2 & s3 & s4 & Hs & H01 & H12 & H23 & H34).
  rewrite (identifyHand_five cs _ _ _ _ _ Hs).
  split.
  - intros q Hq.
    rewrite (countRank_perm q _ _ (sortCards_perm cs)), Hs in Hq.
    unfold countRank in Hq; simpl in Hq.
    split_rank s0 q E0; split_rank s1 q E1; split_rank s2 q E2;
      split_rank s3 q E3; split_rank s4 q E4;
      simpl in Hq; try discriminate Hq.
    + now apply identifyFive_quad_low.
    + exfalso. apply E3, RankOrder_inj. rewrite E2 in H23. rewrite E4 in H34. lia.
    + exfalso. apply E2, RankOrder_inj. rewrite E1 in H12. rewrite E3 in H23. lia.
    + exfalso. apply E1, RankOrder_inj. rewrite E0 in H01. rewrite E2 in H12. lia.
    + now apply identifyFive_quad_high.
  - intros t p Ht Hp.
    assert (Hne : t <> p) by (intros ->; rewrite Ht in Hp; discriminate).
    assert (Hro : RankOrder t <> RankOrder p)
      by (intros H; apply Hne, RankOrder_inj, H).
    rewrite (countRank_perm t _ _ (sortCards_perm cs)), Hs in Ht.
    rewrite (countRank_perm p _ _ (sortCards_perm cs)), Hs in Hp.
    unfold countRank in Ht, Hp; simpl in Ht, Hp.
    split_rank s0 t E0; split_rank s1 t E1; split_rank s2 t E2;
      split_rank s3 t E3; split_rank s4 t E4;
      simpl in Ht; try discriminate Ht;
      split_rank s0 p F0; split_rank s1 p F1; split_rank s2 p F2;
      split_rank s3 p F3; split_rank s4 p F4;
      simpl in Hp; try discriminate Hp; try congruence;
      try (exfalso;
           repeat match goal with
             | H : rank _ = _ |- _ => rewrite H in *; clear H
             end; lia).
    + now apply identifyFive_triple_low with (p := p).
    + now apply identifyFive_triple_high with (p := p).
Qed.

Lemma identifyHand_quad_and_full_house_witness :
  (exists h, identifyHand quadThrees = Some h
             /\ type h = FourOfAKind /\ strength h = RankOrder R3)
  /\ (exists h, identifyHand sevensOverThrees = Some h
                /\ type h = FullHouse /\ strength h = RankOrder R7).
Proof.
  split.
  - apply (proj1 (identifyHand_quad_and_full_house quadThrees eq_refl) R3).
    reflexivity.
  - apply (proj2 (identifyHand_quad_and_full_house sevensOverThrees eq_refl)
             R7 R3); reflexivity.
Defined.

(** ** Duplicate cards *)

Lemma filter_or_eq_length (x : Rank) (f : Rank -> bool) (R : list Rank) :
  NoDup R ->
  (List.length (filter (fun r => Rank_eqb x r || f r) R)
   <= S (List.length (filter f R)))%nat.
Proof.
  induction 1 as [|r R Hnin Hnd IH]; simpl; [lia|].
  destruct (Rank_eqb x r) eqn:E; simpl.
  - apply Rank_eqb_eq in E. subst r.
    rewrite (filter_ext_in (fun r => Rank_eqb x r || f r) f).
    + destruct (f x); simpl; lia.
    + intros r Hr. destruct (Rank_eqb x r) eqn:E; [|reflexivity].
      apply Rank_eqb_eq in E. subst r. contradiction.
  - destruct (f r); simpl; lia.
Qed.

Lemma NoDup_thirteen_ranks :
  NoDup [R3; R4; R5; R6; R7; R8; R9; R10; RJ; RQ; RK; RA; R2].
Proof.
  repeat (constructor;
          [simpl; intros H;
           repeat (destruct H as [H | H]; [discriminate H|]); exact H|]).
  constructor.
Qed.

Lemma distinct_ranks_cons (c : Card) (cs : list Card) :
  (distinct_ranks (c :: cs) <= S (distinct_ranks cs))%nat
  /\ (hasRankIn cs (rank c) = true ->
      distinct_ranks (c :: cs) = distinct_ranks cs).
Proof.
  unfold distinct_ranks. fold (hasRankIn (c :: cs)). fold (hasRankIn cs).
  split.
  - apply (filter_or_eq_length (rank c) (hasRankIn cs)), NoDup_thirteen_ranks.
  - intros Hin. f_equal. apply filter_ext. intros r.
    unfold hasRankIn in *; simpl.
    destruct (Rank_eqb (rank c) r) eqn:E; [|reflexivity].
    apply Rank_eqb_eq in E. subst r. simpl. now rewrite Hin.
Qed.

Lemma distinct_ranks_le_length (cs : list Card) :
  (distinct_ranks cs <= List.length cs)%nat.
Proof.
  induction cs as [|c cs IH]; [unfold distinct_ranks; simpl; lia|].
  pose proof (proj1 (distinct_ranks_cons c cs)). simpl. lia.
Qed.

Lemma hasDuplicate_distinct_ranks (cs : list Card) :
  hasDuplicate cs = true -> (distinct_ranks cs < List.length cs)%nat.
Proof.
  induction cs as [|c cs IH]; simpl; [discriminate|].
  intros H. apply orb_true_iff in H. destruct H as [H | H].
  - rewrite (proj2 (distinct_ranks_cons c cs)).
    + pose proof (distinct_ranks_le_length cs). lia.
    + unfold hasRankIn. apply existsb_exists in H.
      destruct H as (d & Hd & Hs). apply existsb_exists. exists d.
      split; [exact Hd|]. unfold sameCard in Hs.
      apply andb_true_iff in Hs. destruct Hs as [Hs _].
      apply Rank_eqb_eq in Hs. apply Rank_eqb_eq. congruence.
  - pose proof (proj1 (distinct_ranks_cons c cs)). specialize (IH H). lia.
Qed.

Lemma identifyHand_one (c : Card) :
  identifyHand [c]
  = Some {| cards := [c]; type := Single; strength := getCardWeight c |}.
Proof. reflexivity. Qed.

Lemma identifyHand_two (a b : Card) (h : Hand) :
  identifyHand [a; b] = Some h ->
  type h = Pair /\ Permutation [a; b] (cards h)
  /\ strength h = Z.max (getCardWeight a) (getCardWeight b).
Proof.
  unfold identifyHand, sortCards; simpl.
  destruct (0 <? getCardWeight a - getCardWeight b).
  - destruct (Rank_eqb (rank b) (rank a)); [|discriminate].
    intros [= <-]; simpl. repeat split; [constructor | apply Z.max_comm].
  - destruct (Rank_eqb (rank a) (rank b)); [|discriminate].
    intros [= <-]; simpl. repeat split; reflexivity.
Qed.

(** C5 (as the code has it). [identifyHand] has no check for duplicate
    cards.  A group with a duplicate is invalid when its length is other
    than 2 or 5 (thirteen cards with a duplicate do not hold thirteen
    ranks), but two copies of one card are a Pair whose strength is the
    weight of that card, and four copies of the three of clubs with the
    four of clubs are a FourOfAKind. *)
Theorem identifyHand_duplicate (cs : list Card)
  (Hdup : hasDuplicate cs = true) :
  (List.length cs <> 2%nat -> List.length cs <> 5%nat ->
   identifyHand cs = None)
  /\ (forall c, cs = [c; c] ->
      identifyHand cs
      = Some {| cards := [c; c]; type := Pair; strength := getCardWeight c |})
  /\ option_map type
       (identifyHand [threeOfClubs; threeOfClubs; threeOfClubs; threeOfClubs;
                      mkCard R4 Clubs])
     = Some FourOfAKind.
Proof.
  split; [|split; [|reflexivity]].
  - intros H2 H5. unfold identifyHand.
    pose proof (sortCards_length cs) as Hlen.
    pose proof (hasDuplicate_distinct_ranks cs Hdup) as Hlt.
    destruct (sortCards cs) as [|s0 [|s1 [|s2 [|s3 [|s4 [|s5 rest]]]]]] eqn:Hs;
      simpl in Hlen; try reflexivity; try congruence;
      try (destruct cs as [|c [|]]; discriminate);
      (destruct (List.length cs =? 13)%nat eqn:E13; [|reflexivity];
       destruct (distinct_ranks cs =? 13)%nat eqn:Ed; [|reflexivity];
       bool_arith; lia).
  - intros c ->. unfold identifyHand, sortCards; simpl.
    rewrite Z.sub_diag; simpl. rewrite Rank_eqb_refl, Z.max_id. reflexivity.
Qed.

(** Two copies of the three of clubs are classified as a Pair: the claim
    that a duplicate makes a group invalid fails there. *)
Lemma identifyHand_duplicate_pair_counterexample :
  hasDuplicate [threeOfClubs; threeOfClubs] = true
  /\ identifyHand [threeOfClubs; threeOfClubs]
     = Some {| cards := [threeOfClubs; threeOfClubs]; type := Pair;
               strength := 0 |}.
Proof. split; reflexivity. Qed.

Lemma identifyHand_duplicate_witness :
  identifyHand [threeOfClubs; threeOfClubs; threeOfClubs] = None
  /\ identifyHand [threeOfClubs; threeOfClubs]
     = Some {| cards := [threeOfClubs; threeOfClubs]; type := Pair;
               strength := getCardWeight threeOfClubs |}.
Proof.
  split.
  - apply (proj1 (identifyHand_duplicate
                    [threeOfClubs; threeOfClubs; threeOfClubs] eq_refl));
      simpl; lia.
  - apply (proj1 (proj2 (identifyHand_duplicate [threeOfClubs; threeOfClubs]
                           eq_refl))).
    reflexivity.
Defined.

(** ** Straights *)

(** *** The strength of a straight

    Supporting facts for C3: the strength formula as the code computes it,
    for every five-card group classified as a Straight or StraightFlush. *)

Lemma hasRank_five (r0 r1 r2 r3 r4 r : Rank) :
  hasRank [r0; r1; r2; r3; r4] r = true ->
  RankOrder r0 = RankOrder r \/ RankOrder r1 = RankOrder r
  \/ RankOrder r2 = RankOrder r \/ RankOrder r3 = RankOrder r
  \/ RankOrder r4 = RankOrder r.
Proof.
  unfold hasRank, Rank_eqb; simpl. rewrite orb_false_r, !orb_true_iff.
  rewrite !Z.eqb_eq. intuition congruence.
Qed.

Lemma RankOrder_range (r : Rank) : 0 <= RankOrder r <= 12.
Proof. destruct r; simpl; lia. Qed.

Lemma find_rank_here (c : Card) (l : list Card) (r : Rank) :
  rank c = r -> find (fun x => Rank_eqb (rank x) r) (c :: l) = Some c.
Proof. intros <-. simpl. now rewrite Rank_eqb_refl. Qed.

Lemma find_rank_skip (c : Card) (l : list Card) (r : Rank) :
  RankOrder (rank c) <> RankOrder r ->
  find (fun x => Rank_eqb (rank x) r) (c :: l)
  = find (fun x => Rank_eqb (rank x) r) l.
Proof.
  intros H. simpl. unfold Rank_eqb at 1.
  now replace (RankOrder (rank c) =? RankOrder r) with false
    by (symmetry; now apply Z.eqb_neq).
Qed.

Lemma identifyFive_straight (s0 s1 s2 s3 s4 : Card) (h : Hand) :
  RankOrder (rank s0) <= RankOrder (rank s1) ->
  RankOrder (rank s1) <= RankOrder (rank s2) ->
  RankOrder (rank s2) <= RankOrder (rank s3) ->
  RankOrder (rank s3) <= RankOrder (rank s4) ->
  identifyFive s0 s1 s2 s3 s4 = Some h ->
  type h = Straight \/ type h = StraightFlush ->
  StraightShape s0 s1 s2 s3 s4 (strength h).
Proof.
  intros H01 H12 H23 H34.
  pose proof (RankOrder_range (rank s0)) as B0.
  pose proof (RankOrder_range (rank s1)) as B1.
  pose proof (RankOrder_range (rank s2)) as B2.
  pose proof (RankOrder_range (rank s3)) as B3.
  pose proof (RankOrder_range (rank s4)) as B4.
  unfold identifyFive. cbv zeta. cbn [map].
  set (ranks := [rank s0; rank s1; rank s2; rank s3; rank s4]).
  set (is23456 := hasRank ranks R2 && hasRank ranks R3 && hasRank ranks R4
                  && hasRank ranks R5 && hasRank ranks R6).
  set (isA2345 := hasRank ranks RA && hasRank ranks R2 && hasRank ranks R3
                  && hasRank ranks R4 && hasRank ranks R5).
  destruct is23456 eqn:E6; [|destruct isA2345 eqn:EA].
  - (* 2-3-4-5-6 *)
    rewrite !orb_true_r.
    subst is23456. bool_arith.
    repeat match goal with
           | H : hasRank ranks _ = true |- _ =>
               apply hasRank_five in H; simpl in H
           end.
    assert (O0 : RankOrder (rank s0) = 0) by lia.
    assert (O4 : RankOrder (rank s4) = 12) by lia.
    assert (O1 : RankOrder (rank s1) = 1) by lia.
    assert (O2 : RankOrder (rank s2) = 2) by lia.
    assert (O3 : RankOrder (rank s3) = 3) by lia.
    assert (E0 : rank s0 = R3) by now apply RankOrder_inj.
    assert (E1 : rank s1 = R4) by now apply RankOrder_inj.
    assert (E2 : rank s2 = R5) by now apply RankOrder_inj.
    assert (E3 : rank s3 = R6) by now apply RankOrder_inj.
    assert (E4 : rank s4 = R2) by now apply RankOrder_inj.
    rewrite !find_rank_skip by (simpl; lia).
    rewrite (find_rank_here s3 _ R6 E3).
    assert (Hshape : StraightShape s0 s1 s2 s3 s4
                       (10 * 10 + SuitOrder (suit s3)))
      by (apply Shape23456; simpl; congruence).
    destruct (forallb _ _); intros [= <-] _; exact Hshape.
  - (* A-2-3-4-5 *)
    rewrite orb_true_r. cbn [orb].
    subst isA2345. bool_arith.
    repeat match goal with
           | H : hasRank ranks _ = true |- _ =>
               apply hasRank_five in H; simpl in H
           end.
    assert (O0 : RankOrder (rank s0) = 0) by lia.
    assert (O4 : RankOrder (rank s4) = 12) by lia.
    assert (O3 : RankOrder (rank s3) = 11) by lia.
    assert (O1 : RankOrder (rank s1) = 1) by lia.
    assert (O2 : RankOrder (rank s2) = 2) by lia.
    assert (E0 : rank s0 = R3) by now apply RankOrder_inj.
    assert (E1 : rank s1 = R4) by now apply RankOrder_inj.
    assert (E2 : rank s2 = R5) by now apply RankOrder_inj.
    assert (E3 : rank s3 = RA) by now apply RankOrder_inj.
    assert (E4 : rank s4 = R2) by now apply RankOrder_inj.
    rewrite !find_rank_skip by (simpl; lia).
    rewrite (find_rank_here s2 _ R5 E2).
    assert (Hshape : StraightShape s0 s1 s2 s3 s4
                       (1 * 10 + SuitOrder (suit s2)))
      by (apply ShapeA2345; simpl; congruence).
    destruct (forallb _ _); intros [= <-] _; exact Hshape.
  - (* neither special shape *)
    rewrite !orb_false_r.
    destruct (consecutive _) eqn:Ec.
    + pose proof Ec as Ec'. simpl in Ec'. bool_arith.
      rewrite !find_rank_skip by lia.
      rewrite (find_rank_here s4 _ (rank s4) eq_refl).
      assert (Hshape : StraightShape s0 s1 s2 s3 s4
                ((RankOrder (rank s4) - 2) * 10 + SuitOrder (suit s4)))
        by (apply ShapeStandard; exact Ec).
      destruct (forallb _ _); intros [= <-] _; exact Hshape.
    + repeat match goal with
             | |- context [if ?b then _ else _] => destruct b
             end;
        intros [= <-]; simpl; intros [H | H]; discriminate H.
Qed.

(** On every five-card group classified as a straight the strength is the
    one of its shape; a 2-3-4-5-6 straight is above every standard window
    up to 10-J-Q-K-A (top rank order at most 11), and an A-2-3-4-5 straight
    is below every other straight. *)
Lemma identifyHand_straight_strength (cs : list Card) (h : Hand) :
  List.length cs = 5%nat ->
  identifyHand cs = Some h ->
  type h = Straight \/ type h = StraightFlush ->
  exists s0 s1 s2 s3 s4,
    sortCards cs = [s0; s1; s2; s3; s4]
    /\ StraightShape s0 s1 s2 s3 s4 (strength h).
Proof.
  intros Hlen Hid Hty.
  destruct (sortCards_five cs Hlen)
    as (s0 & s1 & s2 & s3 & s4 & Hs & H01 & H12 & H23 & H34).
  rewrite (identifyHand_five cs _ _ _ _ _ Hs) in Hid.
  exists s0, s1, s2, s3, s4. split; [exact Hs|].
  now apply identifyFive_straight.
Qed.

Lemma five_ranks (c0 c1 c2 c3 c4 : Card) (r0 r1 r2 r3 r4 : Rank) :
  map rank [c0; c1; c2; c3; c4] = [r0; r1; r2; r3; r4] ->
  rank c0 = r0 /\ rank c1 = r1 /\ rank c2 = r2 /\ rank c3 = r3 /\ rank c4 = r4.
Proof. simpl. intros [= ? ? ? ? ?]. auto. Qed.

(** Reads the five ranks off an equation and rewrites with them. *)
Ltac use_ranks H :=
  apply five_ranks in H;
  let E0 := fresh "E" in
  let E1 := fresh "E" in
  let E2 := fresh "E" in
  let E3 := fresh "E" in
  let E4 := fresh "E" in
  destruct H as (E0 & E1 & E2 & E3 & E4);
  cbn [map] in *;
  rewrite ?E0, ?E1, ?E2, ?E3, ?E4 in *.

Lemma StraightShape_order (a0 a1 a2 a3 a4 b0 b1 b2 b3 b4 : Card) (sa sb : Z) :
  StraightShape a0 a1 a2 a3 a4 sa ->
  StraightShape b0 b1 b2 b3 b4 sb ->
  (map rank [a0; a1; a2; a3; a4] = [R3; R4; R5; R6; R2] ->
   consecutive (map (fun c => RankOrder (rank c)) [b0; b1; b2; b3; b4]) = true ->
   RankOrder (rank b4) <= 11 -> sb < sa)
  /\ (map rank [a0; a1; a2; a3; a4] = [R3; R4; R5; RA; R2] ->
      map rank [b0; b1; b2; b3; b4] <> [R3; R4; R5; RA; R2] -> sa < sb).
Proof.
  intros Ha Hb.
  pose proof (SuitOrder_range (suit a2)). pose proof (SuitOrder_range (suit a3)).
  pose proof (SuitOrder_range (suit a4)). pose proof (SuitOrder_range (suit b2)).
  pose proof (SuitOrder_range (suit b3)). pose proof (SuitOrder_range (suit b4)).
  pose proof (RankOrder_range (rank b0)).
  split.
  - intros Ea Eb Htop.
    destruct Ha as [_ | Ea' | Ea'];
      [| congruence | use_ranks Ea; cbv in Ea'; discriminate Ea'].
    destruct Hb as [Eb' | Eb' | _];
      [use_ranks Eb'; cbv in Eb; discriminate Eb
      |use_ranks Eb'; cbv in Eb; discriminate Eb |].
    lia.
  - intros Ea Eb.
    destruct Ha as [Ea' | _ | Ea'];
      [congruence | | use_ranks Ea; cbv in Ea'; discriminate Ea'].
    destruct Hb as [_ | Eb' | Eb']; [lia | contradiction |].
    simpl in Eb'. bool_arith. lia.
Qed.

(** C3, evaluated where the code departs from it.  J-Q-K-A-2 passes the
    consecutive-rank test, so it is classified as a Straight with sequence
    rank 12 - 2 = 10, the rank reserved for 2-3-4-5-6: with the 2 of spades
    its strength is 103, above the 100 of a 2-3-4-5-6 straight whose six is
    a club, and the 2-3-4-5-6 straight does not beat it. *)
Theorem identifyHand_JQKA2_outranks_23456 :
  identifyHand straightJQKA2 = Some handJQKA2
  /\ identifyHand straight23456 = Some handStraight
  /\ type handJQKA2 = Straight /\ type handStraight = Straight
  /\ strength handStraight = 100 /\ strength handJQKA2 = 103
  /\ compareHands handStraight handJQKA2 = false
  /\ compareHands handJQKA2 handStraight = true.
Proof. repeat split. Qed.

(** ** The look-ahead bot on the lead *)

Import Evaluate BotStrategy.

Lemma adjacentPairs_In (cs : list Card) (m : CardCombination) :
  In m (adjacentPairs cs) ->
  exists l1 a b l2,
    cs = l1 ++ a :: b :: l2
    /\ Evaluate.cards m = [a; b]
    /\ identifyHand [a; b] = Some (hand m).
Proof.
  induction cs as [|a cs IH]; [contradiction|].
  destruct cs as [|b cs]; [contradiction|].
  cbn [adjacentPairs].
  intros Hin.
  assert (Hrest : In m (adjacentPairs (b :: cs)) ->
                  exists l1 a0 b0 l2,
                    a :: b :: cs = l1 ++ a0 :: b0 :: l2
                    /\ Evaluate.cards m = [a0; b0]
                    /\ identifyHand [a0; b0] = Some (hand m)).
  { intros H. destruct (IH H) as (l1 & a0 & b0 & l2 & E & Hc & Hh).
    exists (a :: l1), a0, b0, l2. rewrite E. auto. }
  destruct (Rank_eqb (rank a) (rank b)); [|auto].
  destruct (identifyHand [a; b]) as [h|] eqn:Hid; [|auto].
  destruct Hin as [<- | Hin]; [|auto].
  exists [], a, b, cs. simpl. auto.
Qed.

Lemma singleMoves_In (cs : list Card) (m : CardCombination) :
  In m (singleMoves cs) ->
  exists c, In c cs /\ Evaluate.cards m = [c]
            /\ hand m = {| Types.cards := [c]; type := Single;
                           strength := getCardWeight c |}
            /\ category m = single.
Proof.
  unfold singleMoves. rewrite in_flat_map. intros (c & Hc & Hm).
  rewrite identifyHand_one in Hm. destruct Hm as [<- | []].
  exists c. simpl. auto.
Qed.

Lemma findAllPairs_In (cs : list Card) (m : CardCombination) :
  In m (findAllPairs cs) <-> In m (adjacentPairs cs).
Proof. apply sort_by_In. Qed.

(** C9. On the lead the candidate moves are the non-bomb five-card
    combinations, the pairs and the singles of the evaluation, and none of
    them is a bomb; a hand that is exactly one straight flush is a legal
    play as a whole, yet the bot passes. *)
Theorem chooseBestMove_lead_without_bombs :
  (forall cs ev,
     getAllLegalMoves cs ev None
     = fiveCards ev ++ pairs ev ++ singleMoves (singles ev))
  /\ (forall cs,
        Forall (fun m => isBomb (type (hand m)) = false)
               (getAllLegalMoves cs (evaluateHand cs) None))
  /\ identifyHand straightFlush34567 = Some handStraightFlush
  /\ map Evaluate.cards (bombs (evaluateHand straightFlush34567))
     = [straightFlush34567]
  /\ (forall size opponents passes,
        chooseBestMove straightFlush34567 (evaluateHand straightFlush34567)
          {| myHandSize := size; opponentsHandSizes := opponents;
             lastPlayedHand := None; consecutivePasses := passes |}
        = None).
Proof.
  split; [reflexivity|]. split; [|repeat split].
  intros cs. cbn [getAllLegalMoves]. rewrite !Forall_app. repeat split.
  - apply Forall_forall. intros m Hm. cbn [evaluateHand fiveCards] in Hm.
    apply filter_In in Hm. destruct Hm as [_ Hm]. unfold isBomb.
    bool_arith. now rewrite H, H0.
  - apply Forall_forall. intros m Hm. cbn [evaluateHand pairs] in Hm.
    apply findAllPairs_In, adjacentPairs_In in Hm.
    destruct Hm as (l1 & a & b & l2 & _ & _ & Hid).
    apply identifyHand_two in Hid. destruct Hid as [-> _]. reflexivity.
  - apply Forall_forall. intros m Hm. apply singleMoves_In in Hm.
    destruct Hm as (c & _ & _ & -> & _). reflexivity.
Qed.

(** ** The smart bot on a pair *)

Lemma someAtMost3_false (opponents : option (list Z)) :
  (forall sizes, opponents = Some sizes -> Forall (fun s => 3 < s) sizes) ->
  someAtMost3 opponents = false.
Proof.
  intros H. unfold someAtMost3. destruct opponents as [sizes|]; [|reflexivity].
  specialize (H sizes eq_refl).
  induction H as [|s sizes Hs _ IH]; [reflexivity|]. simpl.
  rewrite IH, orb_false_r. apply Z.leb_gt, Hs.
Qed.

(** The Pair branch of the smart bot, on its own lists. *)
Lemma smart_bot_pair_branch
  (hand : list Card) (lastPlayed : Hand)
  (opponents : option (list Z)) (passes next : option Z) :
  type lastPlayed = Pair ->
  getSmartBotPlay hand (Some lastPlayed) false opponents passes next
  = match validPairsOf (getAllPairs (sortCards hand)) lastPlayed with
    | bestPair :: _ =>
        if (match bestPair with
            | c :: _ => Rank_eqb (rank c) R2
            | [] => false
            end)
           && negb (someAtMost3 opponents)
           && negb (List.length hand <=? 5)%nat
        then Pass else Play bestPair
    | [] =>
        match bombsOf (findFiveCardHands (sortCards hand)) with
        | b :: _ => Play b
        | [] => Pass
        end
    end.
Proof.
  intros Hpair. unfold getSmartBotPlay. cbv zeta. rewrite Hpair. reflexivity.
Qed.

(** ** Singles of an evaluation *)

Lemma hasId_In (used : list string) (i : string) :
  hasId used i = true <-> In i used.
Proof.
  unfold hasId. rewrite existsb_exists. split.
  - intros (j & Hj & E). apply String.eqb_eq in E. now subst j.
  - intros H. exists i. split; [exact H | apply String.eqb_refl].
Qed.

Lemma filter_perm {A : Type} (p : A -> bool) (l l' : list A) :
  Permutation l l' -> Permutation (filter p l) (filter p l').
Proof.
  induction 1 as [|x l l' _ IH|x y l|l l' l'' _ IH1 _ IH2]; simpl.
  - constructor.
  - destruct (p x); [now constructor | exact IH].
  - destruct (p x), (p y); try reflexivity. constructor.
  - etransitivity; eassumption.
Qed.

Lemma idsOf_In (combos : list CardCombination) (i : string) :
  In i (idsOf combos) <->
  exists m x, In m combos /\ In x (Evaluate.cards m) /\ id x = i.
Proof.
  unfold idsOf. rewrite in_flat_map. split.
  - intros (m & Hm & Hi). apply in_map_iff in Hi.
    destruct Hi as (x & E & Hx). now exists m, x.
  - intros (m & x & Hm & Hx & E). exists m. split; [exact Hm|].
    apply in_map_iff. now exists x.
Qed.

(** C6. The singles of an evaluation are exactly the input cards whose id
    occurs in none of the returned bombs, five-card combinations and pairs
    (as a list: those cards, in sorted order); so no single shares an id
    with a card of a returned combination, whatever the number of input
    cards. *)
Theorem evaluateHand_singles (cs : list Card) :
  let ev := evaluateHand cs in
  let combos := bombs ev ++ fiveCards ev ++ pairs ev in
  (forall c, In c (singles ev) <-> In c cs /\ ~ In (id c) (idsOf combos))
  /\ singles ev
     = filter (fun c => negb (hasId (idsOf combos) (id c))) (sortCards cs)
  /\ Permutation (singles ev)
       (filter (fun c => negb (hasId (idsOf combos) (id c))) cs)
  /\ Forall
       (fun c =>
          Forall (fun m => Forall (fun x => id c <> id x) (Evaluate.cards m))
                 combos)
       (singles ev).
Proof.
  intros ev combos.
  assert (Hsingles :
    singles ev
    = filter (fun c => negb (hasId (idsOf combos) (id c))) (sortCards cs))
    by reflexivity.
  assert (Hin : forall c,
             In c (singles ev) <-> In c cs /\ ~ In (id c) (idsOf combos)).
  { intros c. rewrite Hsingles, filter_In, negb_true_iff.
    rewrite <- (hasId_In (idsOf combos) (id c)).
    rewrite <- not_true_iff_false.
    split; intros [H1 H2]; (split; [|exact H2]).
    - eapply Permutation_in; [apply Permutation_sym, sortCards_perm | exact H1].
    - eapply Permutation_in; [apply sortCards_perm | exact H1]. }
  split; [exact Hin|]. split; [exact Hsingles|]. split.
  - rewrite Hsingles. apply filter_perm, Permutation_sym, sortCards_perm.
  - apply Forall_forall. intros c Hc. apply Hin in Hc. destruct Hc as [_ Hc].
    apply Forall_forall. intros m Hm. apply Forall_forall. intros x Hx E.
    apply Hc, idsOf_In. exists m, x. auto.
Qed.

Lemma evaluateHand_singles_witness :
  In (mkCard R9 Clubs) (singles (evaluateHand handWithKings))
  /\ ~ In (mkCard RK Hearts) (singles (evaluateHand handWithKings)).
Proof.
  assert (Hused :
    In (id (mkCard RK Hearts))
       (idsOf (bombs (evaluateHand handWithKings)
               ++ fiveCards (evaluateHand handWithKings)
               ++ pairs (evaluateHand handWithKings)))).
  { cbv. auto. }
  split.
  - apply (proj1 (evaluateHand_singles handWithKings)). split.
    + simpl. auto 10.
    + cbv. intros H.
      repeat (destruct H as [H | H]; [discriminate H|]). exact H.
  - intros H.
    apply (proj1 (evaluateHand_singles handWithKings)) in H.
    destruct H as [_ H]. exact (H Hused).
Defined.

(** ** Moves that can be played from a hand *)

Lemma playable_refl (l : list Card) : playable l l.
Proof. exists []. now rewrite app_nil_r. Qed.

Lemma playable_perm (m l l' : list Card) :
  Permutation l l' -> playable m l -> playable m l'.
Proof. intros Hp [rest Hr]. exists rest. now rewrite Hr. Qed.

Lemma playable_trans (m l l' : list Card) :
  playable m l -> playable l l' -> playable m l'.
Proof.
  intros [r1 H1] [r2 H2]. exists (r1 ++ r2).
  now rewrite app_assoc, H1.
Qed.

Lemma playable_single (c : Card) (l : list Card) : In c l -> playable [c] l.
Proof.
  intros H. apply in_split in H. destruct H as (l1 & l2 & ->).
  exists (l1 ++ l2). simpl. apply Permutation_middle.
Qed.

Lemma playable_adjacent (a b : Card) (l1 l2 : list Card) :
  playable [a; b] (l1 ++ a :: b :: l2).
Proof.
  exists (l1 ++ l2). simpl.
  transitivity (a :: l1 ++ b :: l2).
  - apply perm_skip, Permutation_middle.
  - apply Permutation_middle.
Qed.

Lemma playable_firstn (n : nat) (l : list Card) : playable (firstn n l) l.
Proof. exists (skipn n l). now rewrite firstn_skipn. Qed.

Lemma filter_split_perm (p : Card -> bool) (l : list Card) :
  Permutation l (filter p l ++ filter (fun c => negb (p c)) l).
Proof.
  induction l as [|c l IH]; simpl; [constructor|].
  destruct (p c); simpl.
  - now constructor.
  - rewrite <- Permutation_middle. now constructor.
Qed.

Lemma playable_filter (p : Card -> bool) (l : list Card) :
  playable (filter p l) l.
Proof.
  exists (filter (fun c => negb (p c)) l).
  apply Permutation_sym, filter_split_perm.
Qed.

(** Two moves taken from disjoint parts of a hand can be played together. *)
Lemma playable_app (p : Card -> bool) (m1 m2 l : list Card) :
  playable m1 (filter p l) ->
  playable m2 (filter (fun c => negb (p c)) l) ->
  playable (m1 ++ m2) l.
Proof.
  intros [r1 H1] [r2 H2]. exists (r1 ++ r2).
  rewrite (filter_split_perm p l), <- H1, <- H2.
  rewrite <- !app_assoc. apply Permutation_app_head.
  rewrite !app_assoc. apply Permutation_app_tail, Permutation_app_comm.
Qed.

Lemma filter_filter_implied (p q : Card -> bool) (l : list Card) :
  (forall c, q c = true -> p c = true) ->
  filter q (filter p l) = filter q l.
Proof.
  intros Himp. induction l as [|c l IH]; simpl; [reflexivity|].
  destruct (p c) eqn:Hp; simpl.
  - now rewrite IH.
  - destruct (q c) eqn:Hq; [|exact IH].
    apply Himp in Hq. congruence.
Qed.

(** Cards of pairwise different ranks, all in the hand, are playable. *)
Lemma playable_NoDup (m l : list Card) :
  NoDup m -> incl m l -> playable m l.
Proof.
  intros Hnd. revert l. induction Hnd as [|c m Hnin Hnd IH]; intros l Hincl.
  - exists l. reflexivity.
  - assert (Hc : In c l) by (apply Hincl; now left).
    apply in_split in Hc. destruct Hc as (l1 & l2 & ->).
    destruct (IH (l1 ++ l2)) as [rest Hrest].
    + intros x Hx. assert (Hx' : In x (l1 ++ c :: l2))
        by (apply Hincl; now right).
      apply in_app_or in Hx'. apply in_or_app.
      destruct Hx' as [Hx' | [-> | Hx']]; auto. contradiction.
    + exists rest. simpl. rewrite Hrest. apply Permutation_middle.
Qed.

(** ** What [identifyHand] returns *)

Lemma identifyFive_cards (s0 s1 s2 s3 s4 : Card) (h : Hand) :
  identifyFive s0 s1 s2 s3 s4 = Some h ->
  Types.cards h = [s0; s1; s2; s3; s4] /\ cardsOfType (type h) = 5%nat.
Proof.
  unfold identifyFive. cbv zeta.
  repeat match goal with
    | |- context [if ?b then _ else _] => destruct b
    | |- context [match find ?f ?l with _ => _ end] => destruct (find f l)
    end;
    intros [= <-]; split; reflexivity.
Qed.

Lemma identifyHand_cards (cs : list Card) (h : Hand) :
  identifyHand cs = Some h ->
  Types.cards h = sortCards cs
  /\ List.length cs = cardsOfType (type h)
  /\ type h <> NoneType.
Proof.
  unfold identifyHand.
  pose proof (sortCards_length cs) as Hlen.
  destruct (sortCards cs) as [|s0 [|s1 [|s2 [|s3 [|s4 [|s5 rest]]]]]] eqn:Hs;
    simpl in Hlen; try discriminate;
    try (destruct (List.length cs =? 13)%nat eqn:E13; [|discriminate];
         destruct (distinct_ranks cs =? 13)%nat; [|discriminate];
         bool_arith; intros [= <-]; simpl; repeat split;
         [assumption | discriminate]).
  - intros [= <-]; simpl. repeat split; [now symmetry | discriminate].
  - destruct (Rank_eqb (rank s0) (rank s1)); [|discriminate].
    intros [= <-]; simpl. repeat split; [now symmetry | discriminate].
  - intros H. apply identifyFive_cards in H. destruct H as [Hc Ht].
    repeat split; [exact Hc | congruence |].
    intros E. rewrite E in Ht. discriminate.
Qed.

Lemma identifyHand_card_count (cs : list Card) (h : Hand) :
  identifyHand cs = Some h ->
  List.length (Types.cards h) = cardsOfType (type h).
Proof.
  intros H. apply identifyHand_cards in H. destruct H as (-> & <- & _).
  apply sortCards_length.
Qed.

(** ** The groups of [Object.values(groupByRank cards)] *)

Lemma push_group_keys (c : Card) (m : list (Rank * list Card)) (r : Rank) :
  In r (map fst (push_group c m)) <-> r = rank c \/ In r (map fst m).
Proof.
  induction m as [|[r0 g0] m IH]; simpl.
  - intuition congruence.
  - destruct (Rank_eqb r0 (rank c)) eqn:E; simpl.
    + apply Rank_eqb_eq in E. subst r0. intuition congruence.
    + rewrite IH. tauto.
Qed.

Lemma push_group_NoDup (c : Card) (m : list (Rank * list Card)) :
  NoDup (map fst m) -> NoDup (map fst (push_group c m)).
Proof.
  induction m as [|[r0 g0] m IH]; simpl; intros Hnd.
  - repeat constructor. intros [].
  - inversion Hnd as [|? ? Hnin Hnd']; subst.
    destruct (Rank_eqb r0 (rank c)) eqn:E; simpl.
    + now constructor.
    + constructor; [|now apply IH].
      rewrite push_group_keys. intros [-> | H]; [|contradiction].
      rewrite Rank_eqb_refl in E. discriminate.
Qed.

Lemma push_group_In (c : Card) (m : list (Rank * list Card))
  (r : Rank) (g : list Card) :
  NoDup (map fst m) ->
  In (r, g) (push_group c m) ->
  (r <> rank c /\ In (r, g) m)
  \/ (r = rank c
      /\ ((exists g0, In (r, g0) m /\ g = g0 ++ [c])
          \/ (~ In r (map fst m) /\ g = [c]))).
Proof.
  induction m as [|[r0 g0] m IH]; simpl; intros Hnd Hin.
  - destruct Hin as [[= <- <-] | []]. right. split; [reflexivity|].
    right. split; [tauto | reflexivity].
  - inversion Hnd as [|? ? Hnin Hnd']; subst.
    destruct (Rank_eqb r0 (rank c)) eqn:E.
    + apply Rank_eqb_eq in E. subst r0.
      destruct Hin as [[= <- <-] | Hin].
      * right. split; [reflexivity|]. left. exists g0. auto.
      * left. split; [|now right].
        intros ->. apply Hnin. apply in_map_iff. now exists (rank c, g).
    + apply Rank_eqb_neq in E.
      destruct Hin as [[= <- <-] | Hin].
      * left. split; [exact E | now left].
      * destruct (IH Hnd' Hin) as [[Hne H] | [-> [(g1 & H & ->) | [Hk ->]]]].
        -- left. auto.
        -- right. split; [reflexivity|]. left. exists g1. auto.
        -- right. split; [reflexivity|]. right. split; [|reflexivity].
           intros [H | H]; [congruence | contradiction].
Qed.

Lemma filter_rankIs_nil (r : Rank) (l : list Card) :
  (forall c, In c l -> rank c <> r) -> filter (rankIs r) l = [].
Proof.
  induction l as [|c l IH]; simpl; intros H; [reflexivity|].
  unfold rankIs at 1.
  destruct (Rank_eqb (rank c) r) eqn:E.
  - apply Rank_eqb_eq in E. exfalso. apply (H c); auto.
  - apply IH. intros c' Hc'. apply H. now right.
Qed.

Lemma groupsOf_push (l : list Card) (m : list (Rank * list Card)) (c : Card) :
  groupsOf l m -> groupsOf (l ++ [c]) (push_group c m).
Proof.
  intros (Hnd & Hcards & Hall). split; [|split].
  - now apply push_group_NoDup.
  - intros r g Hin. rewrite filter_app. simpl. unfold rankIs at 2.
    destruct (push_group_In c m r g Hnd Hin)
      as [[Hne H] | [-> [(g0 & H & ->) | [Hk ->]]]].
    + destruct (Hcards r g H) as [-> Hg].
      replace (Rank_eqb (rank c) r) with false
        by (symmetry; apply Rank_eqb_neq; congruence).
      rewrite app_nil_r. auto.
    + destruct (Hcards _ g0 H) as [-> Hg]. rewrite Rank_eqb_refl.
      split; [reflexivity|]. intros E. now apply app_eq_nil in E.
    + rewrite Rank_eqb_refl, filter_rankIs_nil; [split; [reflexivity|discriminate]|].
      intros c' Hc' E. apply Hk. rewrite <- E. now apply Hall.
  - intros c' Hc'. apply push_group_keys. apply in_app_or in Hc'.
    destruct Hc' as [Hc' | [<- | []]]; auto.
Qed.

Lemma groupsOf_groupByRank (l : list Card) : groupsOf l (groupByRank l).
Proof.
  unfold groupByRank.
  assert (H : forall l0 m0, groupsOf l0 m0 ->
                groupsOf (l0 ++ l) (fold_left (fun m c => push_group c m) l m0)).
  { induction l as [|c l IH]; intros l0 m0 H0; simpl.
    - now rewrite app_nil_r.
    - replace (l0 ++ c :: l) with ((l0 ++ [c]) ++ l)
        by (now rewrite <- app_assoc).
      apply IH. now apply groupsOf_push. }
  apply (H [] []). split; [constructor|]. split; [intros ? ? [] | intros ? []].
Qed.

Lemma Object_values_In (m : list (Rank * list Card)) (g : list Card) :
  In g (Object_values m) -> exists r, In (r, g) m.
Proof.
  unfold Object_values. rewrite in_map_iff.
  intros ([r g'] & <- & Hin). exists r. simpl.
  apply in_app_or in Hin. destruct Hin as [Hin | Hin].
  - apply sort_by_In in Hin. now apply filter_In in Hin.
  - now apply filter_In in Hin.
Qed.

(** Every group is the list of all cards of one rank, in input order. *)
Lemma group_In (l g : list Card) :
  In g (Object_values (groupByRank l)) ->
  exists r, g = filter (rankIs r) l /\ groupRank g = Some r.
Proof.
  intros H. apply Object_values_In in H. destruct H as [r H].
  destruct (groupsOf_groupByRank l) as (_ & Hcards & _).
  destruct (Hcards r g H) as [Hg Hne]. exists r. split; [exact Hg|].
  destruct g as [|c g]; [contradiction|]. unfold groupRank; simpl.
  assert (Hc : In c (filter (rankIs r) l)) by (rewrite <- Hg; now left).
  apply filter_In in Hc. destruct Hc as [_ Hc]. apply Rank_eqb_eq in Hc.
  now rewrite Hc.
Qed.

(** ** The enumerated combinations are playable *)

Lemma pickRanks_spec (l : list Card) (rs : list Rank) (picked : list Card) :
  pickRanks l rs = Some picked -> map rank picked = rs /\ incl picked l.
Proof.
  revert picked. induction rs as [|r rs IH]; simpl; intros picked.
  - intros [= <-]. split; [reflexivity | intros ? []].
  - destruct (find (fun x => Rank_eqb (rank x) r) l) as [c|] eqn:Hf;
      [|discriminate].
    destruct (pickRanks l rs) as [p|]; [|discriminate].
    intros [= <-]. destruct (IH p eq_refl) as [Hr Hi].
    apply find_some in Hf. destruct Hf as [Hc Hrc]. apply Rank_eqb_eq in Hrc.
    split; [simpl; congruence|].
    intros x [<- | Hx]; [exact Hc | now apply Hi].
Qed.

Lemma pickRanks_playable (l : list Card) (rs : list Rank) (picked : list Card) :
  NoDup rs -> pickRanks l rs = Some picked -> playable picked l.
Proof.
  intros Hnd H. apply pickRanks_spec in H. destruct H as [Hr Hi].
  apply playable_NoDup; [|exact Hi].
  apply (NoDup_map_inv rank). now rewrite Hr.
Qed.

Ltac NoDup_ranks :=
  repeat (constructor;
          [simpl; intros H;
           repeat (destruct H as [H | H]; [discriminate H|]); exact H|]);
  constructor.

Lemma window_NoDup (i : nat) :
  In i (seq 0 9) -> NoDup (firstn 5 (skipn i allRanks)).
Proof.
  simpl. intros H.
  repeat (destruct H as [<- | H]; [simpl; NoDup_ranks|]).
  contradiction.
Qed.

Lemma optionToList_In {A : Type} (o : option A) (a : A) :
  In a (optionToList o) <-> o = Some a.
Proof.
  destruct o; simpl; split; try intros [-> | []]; try intros [= ->];
    auto; try contradiction; discriminate.
Qed.

Lemma straightWindows_playable (l f : list Card) :
  In f (straightWindows l) -> playable f l.
Proof.
  unfold straightWindows. rewrite in_flat_map. intros (i & Hi & Hf).
  destruct (pickRanks l (firstn 5 (skipn i allRanks))) as [p|] eqn:Hp;
    [|contradiction].
  destruct Hf as [<- | []].
  eapply pickRanks_playable; [|exact Hp]. now apply window_NoDup.
Qed.

Lemma groups_playable (l : list Card) (r1 r2 : Rank) (n1 n2 : nat) :
  r1 <> r2 ->
  playable (firstn n1 (filter (rankIs r1) l) ++ firstn n2 (filter (rankIs r2) l)) l.
Proof.
  intros Hne. apply (playable_app (rankIs r1)).
  - apply playable_firstn.
  - rewrite <- (filter_filter_implied (fun c => negb (rankIs r1 c)) (rankIs r2)).
    + eapply playable_trans; [apply playable_firstn | apply playable_filter].
    + intros c. unfold rankIs. rewrite negb_true_iff, Rank_eqb_eq, Rank_eqb_neq.
      congruence.
Qed.

Lemma group_kicker_playable (l : list Card) (r : Rank) (c : Card) :
  In c l -> rank c <> r -> playable (filter (rankIs r) l ++ [c]) l.
Proof.
  intros Hc Hne. apply (playable_app (rankIs r)).
  - apply playable_refl.
  - apply playable_single, filter_In. split; [exact Hc|].
    unfold rankIs. now rewrite negb_true_iff, Rank_eqb_neq.
Qed.

Lemma sameGroupRank_false (g1 g2 : list Card) (r1 r2 : Rank) :
  groupRank g1 = Some r1 -> groupRank g2 = Some r2 ->
  sameGroupRank g1 g2 = false -> r1 <> r2.
Proof.
  unfold sameGroupRank. intros -> ->. apply Rank_eqb_neq.
Qed.

(** The three families both enumerators build from the groups. *)
Lemma fullHouse_playable (l t p : list Card) :
  In t (Object_values (groupByRank l)) ->
  In p (Object_values (groupByRank l)) ->
  sameGroupRank t p = false ->
  playable (firstn 3 t ++ firstn 2 p) l.
Proof.
  intros Ht Hp Hs.
  apply group_In in Ht. destruct Ht as (rt & -> & Hrt).
  apply group_In in Hp. destruct Hp as (rp & -> & Hrp).
  apply groups_playable. eapply sameGroupRank_false; eassumption.
Qed.

Lemma fourOfAKind_playable (l q : list Card) (c : Card) :
  In q (Object_values (groupByRank l)) ->
  In c l ->
  match groupRank q with
  | Some r => Rank_eqb (rank c) r
  | None => false
  end = false ->
  playable (q ++ [c]) l.
Proof.
  intros Hq Hc Hr.
  apply group_In in Hq. destruct Hq as (r & Hq & Hg). rewrite Hg in Hr.
  rewrite Hq. apply group_kicker_playable; [exact Hc|].
  now apply Rank_eqb_neq.
Qed.

Lemma sameGroupRank_sym (g1 g2 : list Card) :
  sameGroupRank g1 g2 = sameGroupRank g2 g1.
Proof.
  unfold sameGroupRank.
  destruct (groupRank g1), (groupRank g2); try reflexivity.
  unfold Rank_eqb. apply Z.eqb_sym.
Qed.

Lemma findFiveCardHands_playable (hand f : list Card) :
  In f (findFiveCardHands hand) -> playable f hand.
Proof.
  intros Hin. apply (playable_perm f (sortCards hand));
    [apply Permutation_sym, sortCards_perm|].
  unfold findFiveCardHands in Hin. cbv zeta in Hin.
  apply in_app_or in Hin. destruct Hin as [Hin | Hin];
    [|apply in_app_or in Hin; destruct Hin as [Hin | Hin];
      [|apply in_app_or in Hin; destruct Hin as [Hin | Hin];
        [|apply in_app_or in Hin; destruct Hin as [Hin | Hin]]]].
  - apply in_flat_map in Hin. destruct Hin as (t & Ht & Hin).
    apply in_flat_map in Hin. destruct Hin as (p & Hp & Hin).
    apply filter_In in Ht, Hp. destruct Ht as [Ht _], Hp as [Hp _].
    destruct (sameGroupRank p t) eqn:Hs; simpl in Hin; [contradiction|].
    destruct Hin as [<- | []].
    apply fullHouse_playable; try assumption.
    now rewrite sameGroupRank_sym.
  - apply in_flat_map in Hin. destruct Hin as (q & Hq & Hin).
    apply in_flat_map in Hin. destruct Hin as (c & Hc & Hin).
    apply filter_In in Hq. destruct Hq as [Hq _].
    destruct (match groupRank q with
              | Some r => Rank_eqb (rank c) r
              | None => false
              end) eqn:Hr; simpl in Hin; [contradiction|].
    destruct Hin as [<- | []].
    now apply fourOfAKind_playable.
  - now apply straightWindows_playable.
  - apply optionToList_In in Hin.
    eapply pickRanks_playable; [|exact Hin]. NoDup_ranks.
  - apply optionToList_In in Hin.
    eapply pickRanks_playable; [|exact Hin]. NoDup_ranks.
Qed.

Lemma getAllPairs_In (l p : list Card) :
  In p (getAllPairs l) ->
  exists l1 a b l2, l = l1 ++ a :: b :: l2 /\ p = [a; b].
Proof.
  induction l as [|a l IH]; [contradiction|].
  destruct l as [|b l]; [contradiction|].
  cbn [getAllPairs]. intros Hin.
  assert (Hrest : In p (getAllPairs (b :: l)) ->
                  exists l1 a0 b0 l2,
                    a :: b :: l = l1 ++ a0 :: b0 :: l2 /\ p = [a0; b0]).
  { intros H. destruct (IH H) as (l1 & a0 & b0 & l2 & E & Hp).
    exists (a :: l1), a0, b0, l2. rewrite E. auto. }
  destruct (Rank_eqb (rank a) (rank b)); [|auto].
  destruct Hin as [<- | Hin]; [|auto].
  exists [], a, b, l. auto.
Qed.

Lemma getAllPairs_playable (hand p : list Card) :
  In p (getAllPairs (sortCards hand)) -> playable p hand.
Proof.
  intros H. apply getAllPairs_In in H.
  destruct H as (l1 & a & b & l2 & E & ->).
  apply (playable_perm _ (sortCards hand));
    [apply Permutation_sym, sortCards_perm|].
  rewrite E. apply playable_adjacent.
Qed.

Lemma findAllStraights_playable (l f : list Card) :
  In f (findAllStraights l) -> playable f l.
Proof.
  unfold findAllStraights. intros Hin.
  apply in_app_or in Hin. destruct Hin as [Hin | Hin].
  - now apply straightWindows_playable.
  - apply optionToList_In in Hin.
    eapply pickRanks_playable; [|exact Hin]. NoDup_ranks.
Qed.

Lemma findAllFiveCardHands_sound (cs : list Card) (m : CardCombination) :
  In m (findAllFiveCardHands cs) -> soundCombination cs m.
Proof.
  unfold findAllFiveCardHands. cbv zeta. unfold sortByPriority.
  rewrite sort_by_In. intros Hin.
  apply in_app_or in Hin. destruct Hin as [Hin | Hin];
    [|apply in_app_or in Hin; destruct Hin as [Hin | Hin]].
  - apply in_flat_map in Hin. destruct Hin as (q & Hq & Hin).
    apply in_flat_map in Hin. destruct Hin as (c & Hc & Hin).
    apply filter_In in Hq. destruct Hq as [Hq _].
    destruct (match groupRank q with
              | Some r => Rank_eqb (rank c) r
              | None => false
              end) eqn:Hr; simpl in Hin; [contradiction|].
    destruct (identifyHand (q ++ [c])) as [h|] eqn:Hid; [|contradiction].
    destruct (HandType_eqb (type h) FourOfAKind); [|contradiction].
    destruct Hin as [<- | []]. split; simpl; [|exact Hid].
    now apply fourOfAKind_playable.
  - apply in_flat_map in Hin. destruct Hin as (t & Ht & Hin).
    apply in_flat_map in Hin. destruct Hin as (p & Hp & Hin).
    apply filter_In in Ht, Hp. destruct Ht as [Ht _], Hp as [Hp _].
    destruct (sameGroupRank t p) eqn:Hs; cbn [negb] in Hin; [contradiction|].
    destruct (identifyHand (firstn 3 t ++ firstn 2 p)) as [h|] eqn:Hid;
      [|contradiction].
    destruct (HandType_eqb (type h) FullHouse); [|contradiction].
    destruct Hin as [<- | []]. split; simpl; [|exact Hid].
    now apply fullHouse_playable.
  - apply in_flat_map in Hin. destruct Hin as (s & Hs & Hin).
    destruct (identifyHand s) as [h|] eqn:Hid; [|contradiction].
    destruct Hin as [<- | []]. split; simpl; [|exact Hid].
    now apply findAllStraights_playable.
Qed.

Lemma evaluateHand_sound (hand : list Card) (m : CardCombination) :
  let ev := evaluateHand hand in
  In m (bombs ev ++ fiveCards ev ++ pairs ev ++ singleMoves (singles ev)) ->
  soundCombination hand m.
Proof.
  intros ev Hin.
  assert (Hperm : Permutation (sortCards hand) hand)
    by apply Permutation_sym, sortCards_perm.
  assert (Hfive : In m (findAllFiveCardHands (sortCards hand)) ->
                  soundCombination hand m).
  { intros H. apply findAllFiveCardHands_sound in H. destruct H as [Hp Hid].
    split; [|exact Hid]. eapply playable_perm; eassumption. }
  apply in_app_or in Hin. destruct Hin as [Hin | Hin];
    [|apply in_app_or in Hin; destruct Hin as [Hin | Hin];
      [|apply in_app_or in Hin; destruct Hin as [Hin | Hin]]].
  - apply filter_In in Hin. now apply Hfive.
  - apply filter_In in Hin. now apply Hfive.
  - cbn [ev evaluateHand pairs] in Hin.
    apply findAllPairs_In, adjacentPairs_In in Hin.
    destruct Hin as (l1 & a & b & l2 & E & Hc & Hid).
    split; rewrite Hc; [|exact Hid].
    apply (playable_perm _ _ _ Hperm). rewrite E. apply playable_adjacent.
  - apply singleMoves_In in Hin. destruct Hin as (c & Hc & Hcs & Hh & _).
    split; rewrite Hcs; [|now rewrite Hh].
    apply playable_single. cbn [ev evaluateHand singles] in Hc.
    apply filter_In in Hc. destruct Hc as [Hc _].
    eapply Permutation_in; eassumption.
Qed.

(** On classified hands the comparator of the look-ahead bot never accepts
    what [compareHands] rejects. *)
Lemma canBeat_compareHands (mine theirs : list Card) (my last : Hand) :
  identifyHand mine = Some my ->
  identifyHand theirs = Some last ->
  canBeat my last = true -> compareHands my last = true.
Proof.
  intros Hmy Hlast.
  apply identifyHand_card_count in Hmy, Hlast.
  unfold canBeat, compareHands, isBomb.
  destruct (HandType_eqb (type my) (type last)) eqn:Hty.
  - apply HandType_eqb_eq in Hty. rewrite Hmy, Hlast, Hty, Nat.eqb_refl.
    destruct (type last); simpl; auto.
  - destruct (type my), (type last); simpl in *; congruence.
Qed.

(** ** Passing when there is no legal move *)

Lemma bombsOf_In (fives : list (list Card)) (b : list Card) :
  In b (bombsOf fives) ->
  exists f h, In f fives /\ identifyHand f = Some h
              /\ isBomb (type h) = true /\ b = Types.cards h.
Proof.
  unfold bombsOf. rewrite in_map_iff. intros (h & <- & Hin).
  apply filter_In in Hin. destruct Hin as [Hin Hb].
  apply in_flat_map in Hin. destruct Hin as (f & Hf & Hin).
  apply optionToList_In in Hin. now exists f, h.
Qed.

Lemma lastCard_spec (l : list Card) :
  match lastCard l with
  | Some c => In c l
  | None => l = []
  end.
Proof.
  unfold lastCard. induction l as [|c l IH]; [reflexivity|].
  cbn [map last]. destruct l as [|d l]; [now left|].
  cbn [map] in *. destruct (last (Some d :: map Some l) None); [now right|].
  discriminate.
Qed.

Section NoLegalMove.
Variables (hand refCards : list Card) (reference : Hand).
Hypothesis Href : identifyHand refCards = Some reference.
Hypothesis Hnone : forall m, ~ legalMove hand reference m.

Let sorted := sortCards hand.

Lemma playable_sorted (m : list Card) : playable m sorted -> playable m hand.
Proof. apply playable_perm, Permutation_sym, sortCards_perm. Qed.

Lemma no_single_beats (c : Card) :
  type reference = Single -> In c sorted ->
  (strength reference <? getCardWeight c) = false.
Proof.
  intros Hty Hc. destruct (strength reference <? getCardWeight c) eqn:E;
    [|reflexivity].
  exfalso. apply (Hnone [c]). split.
  - apply playable_sorted, playable_single, Hc.
  - eexists. split; [apply identifyHand_one|].
    apply identifyHand_card_count in Href. rewrite Hty in Href.
    unfold compareHands; simpl. rewrite Href, Hty. exact E.
Qed.

Lemma no_five_beats (f : list Card) (h : Hand) :
  In f (findFiveCardHands sorted) -> identifyHand f = Some h ->
  compareHands h reference = false.
Proof.
  intros Hf Hid. destruct (compareHands h reference) eqn:E; [|reflexivity].
  exfalso. apply (Hnone f). split.
  - apply playable_sorted, findFiveCardHands_playable, Hf.
  - now exists h.
Qed.

Lemma no_bomb_available :
  isBomb (type reference) = false -> bombsOf (findFiveCardHands sorted) = [].
Proof.
  intros Hnb. destruct (bombsOf (findFiveCardHands sorted)) as [|b bs] eqn:E;
    [reflexivity|].
  exfalso.
  assert (Hb : In b (bombsOf (findFiveCardHands sorted)))
    by (rewrite E; now left).
  apply bombsOf_In in Hb. destruct Hb as (f & h & Hf & Hid & Hbomb & _).
  pose proof (no_five_beats f h Hf Hid) as Hc.
  unfold compareHands in Hc. rewrite Hbomb, Hnb in Hc. discriminate.
Qed.

Lemma no_valid_pair :
  type reference = Pair -> validPairsOf (getAllPairs sorted) reference = [].
Proof.
  intros Hty.
  destruct (validPairsOf (getAllPairs sorted) reference) as [|p ps] eqn:E;
    [reflexivity|].
  exfalso.
  assert (Hp : In p (validPairsOf (getAllPairs sorted) reference))
    by (rewrite E; now left).
  apply filter_In in Hp. destruct Hp as [Hp Hv].
  destruct (identifyHand p) as [h|] eqn:Hid; [|discriminate].
  apply (Hnone p). split; [now apply getAllPairs_playable|].
  exists h. split; [exact Hid|].
  pose proof (identifyHand_card_count _ _ Hid) as Hlen.
  apply getAllPairs_In in Hp. destruct Hp as (l1 & a & b & l2 & _ & ->).
  apply identifyHand_two in Hid. destruct Hid as (Hh & _ & _).
  apply identifyHand_card_count in Href.
  unfold compareHands. rewrite Hlen, Href, Hh, Hty. exact Hv.
Qed.

Lemma lookahead_passes (size : Z) (opponents : list Z) (passes : Z) :
  chooseBestMove hand (evaluateHand hand)
    {| myHandSize := size; opponentsHandSizes := opponents;
       lastPlayedHand := Some reference; consecutivePasses := passes |}
  = None.
Proof.
  unfold chooseBestMove. cbn [lastPlayedHand getAllLegalMoves].
  match goal with
  | |- match ?l with _ => _ end = _ => destruct l as [|m ms] eqn:E
  end; [reflexivity|].
  exfalso.
  assert (Hm : In m (m :: ms)) by now left.
  rewrite <- E in Hm. apply filter_In in Hm. destruct Hm as [Hm Hbeat].
  apply evaluateHand_sound in Hm. destruct Hm as [Hplay Hid].
  apply (Hnone (Evaluate.cards m)). split; [exact Hplay|].
  exists (Evaluate.hand m). split; [exact Hid|].
  eapply canBeat_compareHands; eassumption.
Qed.

(** The five-card branch: a combination found by the loop would be legal. *)
Ltac five_card_case :=
  match goal with
  | |- match find ?p ?l with _ => _ end = _ =>
      let f := fresh "f" in
      let E := fresh "E" in
      destruct (find p l) as [f|] eqn:E; [|reflexivity];
      exfalso; apply find_some in E;
      let Hf := fresh "Hf" in
      let Hc := fresh "Hc" in
      destruct E as [Hf Hc];
      let h := fresh "h" in
      let Hid := fresh "Hid" in
      destruct (identifyHand f) as [h|] eqn:Hid; [|discriminate];
      rewrite (no_five_beats f h Hf Hid) in Hc; discriminate
  end.

Lemma smart_passes (opponents : option (list Z)) (passes next : option Z) :
  hand <> [] \/ next <> Some 1 \/ type reference <> Single ->
  getSmartBotPlay hand (Some reference) false opponents passes next = Pass.
Proof.
  intros Hcond. unfold getSmartBotPlay. cbv zeta. fold sorted.
  destruct (type reference) eqn:Hty.
  - (* Single *)
    rewrite (no_bomb_available ltac:(now rewrite Hty)).
    assert (Hvalid :
      filter (fun c => strength reference <? getCardWeight c) sorted = []).
    { destruct (filter _ sorted) as [|v vs] eqn:E; [reflexivity|].
      assert (Hv : In v (v :: vs)) by now left.
      rewrite <- E in Hv. apply filter_In in Hv. destruct Hv as [Hv Hw].
      rewrite (no_single_beats v Hty Hv) in Hw. discriminate. }
    rewrite Hvalid.
    destruct (match next with Some n => n =? 1 | None => false end) eqn:Hn;
      [|reflexivity].
    pose proof (lastCard_spec sorted) as Hlast.
    destruct (lastCard sorted) as [c|].
    + now rewrite (no_single_beats c Hty Hlast).
    + exfalso. apply sort_by_nil_inv in Hlast.
      destruct Hcond as [H | [H | H]]; [contradiction | | congruence].
      destruct next as [n|]; [|discriminate]. bool_arith. congruence.
  - (* Pair *)
    rewrite (no_valid_pair Hty).
    now rewrite (no_bomb_available ltac:(now rewrite Hty)).
  - five_card_case.
  - five_card_case.
  - five_card_case.
  - five_card_case.
  - five_card_case.
  - reflexivity.
Qed.

End NoLegalMove.

Lemma playable_one (m : list Card) (c : Card) :
  playable m [c] -> m = [] \/ m = [c].
Proof.
  intros [rest H]. pose proof (Permutation_length H) as Hlen.
  rewrite length_app in Hlen. simpl in Hlen.
  destruct m as [|x [|y m]]; simpl in Hlen; [now left | | lia].
  right. destruct rest; [|simpl in Hlen; lia].
  simpl in H. apply Permutation_length_1 in H. now subst.
Qed.

(** C7 (as the code has it).  Following a reference hand, when no playable
    group of cards is classified and beats the reference, the look-ahead
    bot returns [null], and so does the smart bot unless the hand is empty,
    the next player holds one card and the reference is a Single (there it
    reads the rank of [undefined]).  In particular, with a Single
    reference, no card above it and no playable bomb, both pass. *)
Theorem bots_pass_without_legal_move
  (hand refCards : list Card) (reference : Hand)
  (Href : identifyHand refCards = Some reference) :
  let lookaheadPasses :=
    forall size opponents passes,
      chooseBestMove hand (evaluateHand hand)
        {| myHandSize := size; opponentsHandSizes := opponents;
           lastPlayedHand := Some reference; consecutivePasses := passes |}
      = None in
  let smartPasses :=
    forall opponents passes next,
      hand <> [] \/ next <> Some 1 \/ type reference <> Single ->
      getSmartBotPlay hand (Some reference) false opponents passes next
      = Pass in
  ((forall m, ~ legalMove hand reference m) ->
   lookaheadPasses /\ smartPasses)
  /\ (type reference = Single ->
      (forall c, In c hand -> getCardWeight c <= strength reference) ->
      (forall m h, playable m hand -> identifyHand m = Some h ->
                   isBomb (type h) = false) ->
      lookaheadPasses /\ smartPasses).
Proof.
  intros lookaheadPasses smartPasses.
  assert (Hmain : (forall m, ~ legalMove hand reference m) ->
                  lookaheadPasses /\ smartPasses).
  { intros Hnone. split.
    - intros size opponents passes.
      now apply (lookahead_passes hand refCards reference).
    - intros opponents passes next.
      now apply (smart_passes hand refCards reference). }
  split; [exact Hmain|].
  intros Hty Hsingles Hbombs. apply Hmain.
  intros m (Hplay & h & Hid & Hbeat).
  pose proof (Hbombs m h Hplay Hid) as Hnb.
  apply (compareHands_same_type h reference Hnb) in Hbeat.
  destruct Hbeat as [Hsame Hlt].
  pose proof (identifyHand_cards m h Hid) as (_ & Hlen & _).
  rewrite Hsame, Hty in Hlen. simpl in Hlen.
  destruct m as [|c [|d m]]; try discriminate.
  rewrite identifyHand_one in Hid. injection Hid as <-. simpl in Hlt.
  assert (Hc : In c hand).
  { destruct Hplay as [rest Hp]. eapply Permutation_in; [exact Hp|]. now left. }
  specialize (Hsingles c Hc). clear - Hsingles Hlt. lia.
Qed.

(** With an empty hand nothing is legal, and the smart bot throws when the
    next player holds one card and the reference is a Single. *)
Lemma getSmartBotPlay_empty_hand_counterexample :
  identifyHand [mkCard RA Spades] = Some handSingleAce
  /\ (forall m, ~ legalMove [] handSingleAce m)
  /\ getSmartBotPlay [] (Some handSingleAce) false (Some [13; 13; 1])
       (Some 0) (Some 1) = Throw.
Proof.
  split; [reflexivity|]. split; [|reflexivity].
  intros m ([rest Hp] & h & Hid & _).
  apply Permutation_sym, Permutation_nil, app_eq_nil in Hp.
  destruct Hp as [-> _]. discriminate.
Qed.

Lemma bots_pass_without_legal_move_witness :
  (chooseBestMove [threeOfClubs] (evaluateHand [threeOfClubs])
     {| myHandSize := 1; opponentsHandSizes := [13; 13; 1];
        lastPlayedHand := Some handSingleAce; consecutivePasses := 0 |}
   = None
   /\ getSmartBotPlay [threeOfClubs] (Some handSingleAce) false
        (Some [13; 13; 1]) (Some 0) (Some 1) = Pass)
  /\ getSmartBotPlay [threeOfClubs] (Some handPairOfAces) false
       (Some [13; 13; 13]) (Some 0) (Some 13) = Pass.
Proof.
  assert (Hone : forall m h, playable m [threeOfClubs] ->
                   identifyHand m = Some h ->
                   h = {| Types.cards := [threeOfClubs]; type := Single;
                          strength := 0 |}).
  { intros m h Hp Hid. apply playable_one in Hp. destruct Hp as [-> | ->].
    - discriminate.
    - rewrite identifyHand_one in Hid. now injection Hid as <-. }
  split.
  - destruct (proj2 (bots_pass_without_legal_move [threeOfClubs]
                       [mkCard RA Spades] handSingleAce eq_refl)) as [Hl Hs].
    + reflexivity.
    + intros c [<- | []]. apply Z.leb_le. reflexivity.
    + intros m h Hp Hid. now rewrite (Hone m h Hp Hid).
    + split; [apply Hl | apply Hs; left; discriminate].
  - destruct (proj1 (bots_pass_without_legal_move [threeOfClubs]
                       pairOfAces handPairOfAces eq_refl)) as [_ Hs].
    + intros m (Hp & h & Hid & Hbeat).
      rewrite (Hone m h Hp Hid) in Hbeat. discriminate.
    + apply Hs. left. discriminate.
Defined.

(** * Further properties of the code *)

(** ** Card weights and the deck *)

(** X1. The weight identifies rank and suit, lies between 0 and 123, and
    orders cards by rank first: a card of lower rank is lighter whatever
    the suits. *)
Theorem getCardWeight_order (a b : Card) :
  (getCardWeight a = getCardWeight b -> rank a = rank b /\ suit a = suit b)
  /\ 0 <= getCardWeight a <= 123
  /\ (RankOrder (rank a) < RankOrder (rank b) ->
      getCardWeight a < getCardWeight b).
Proof.
  unfold getCardWeight.
  pose proof (SuitOrder_range (suit a)) as Ha.
  pose proof (SuitOrder_range (suit b)) as Hb.
  pose proof (RankOrder_range (rank a)) as Ra.
  split; [|split; lia].
  intros H.
  assert (Hr : RankOrder (rank a) = RankOrder (rank b)) by lia.
  split; [now apply RankOrder_inj|].
  assert (Hs : SuitOrder (suit a) = SuitOrder (suit b)) by lia.
  destruct (suit a), (suit b); simpl in Hs; congruence.
Qed.

Lemma getCardWeight_order_witness :
  (rank (mkCard R3 Clubs) = rank threeOfClubs
   /\ suit (mkCard R3 Clubs) = suit threeOfClubs)
  /\ getCardWeight (mkCard RA Spades) < getCardWeight (mkCard R2 Clubs).
Proof.
  split.
  - apply (proj1 (getCardWeight_order (mkCard R3 Clubs) threeOfClubs)).
    reflexivity.
  - apply (proj2 (proj2 (getCardWeight_order (mkCard RA Spades)
                           (mkCard R2 Clubs)))).
    simpl. lia.
Defined.

(** A boolean test of pairwise difference, to settle [NoDup] on the
    concrete deck by computation. *)
Lemma distinctb_NoDup {A : Type} (eqb : A -> A -> bool) (l : list A) :
  (forall x y, eqb x y = true <-> x = y) ->
  (fix distinctb (l : list A) : bool :=
     match l with
     | [] => true
     | x :: t => negb (existsb (eqb x) t) && distinctb t
     end) l = true ->
  NoDup l.
Proof.
  intros Heq. induction l as [|x l IH]; intros H; [constructor|].
  apply andb_true_iff in H. destruct H as [Hx Hl].
  constructor; [|now apply IH].
  intros Hin. apply negb_true_iff in Hx.
  assert (Hex : existsb (eqb x) l = true)
    by (apply existsb_exists; exists x; split; [exact Hin | now apply Heq]).
  congruence.
Qed.

(** X2. The deck holds 52 cards, one for each rank and suit, built by
    [mkCard]; no two of them share a weight or an id. *)
Theorem createDeck_complete :
  List.length createDeck = 52%nat
  /\ (forall r s, In (mkCard r s) createDeck)
  /\ Forall (fun c => c = mkCard (rank c) (suit c)) createDeck
  /\ NoDup (map getCardWeight createDeck)
  /\ NoDup (map id createDeck).
Proof.
  split; [reflexivity|]. split; [|split; [|split]].
  - intros r s. destruct r, s; cbv;
      repeat first [left; reflexivity | right].
  - repeat constructor.
  - apply (distinctb_NoDup Z.eqb); [apply Z.eqb_eq | reflexivity].
  - apply (distinctb_NoDup String.eqb); [apply String.eqb_eq | reflexivity].
Qed.

(** ** Sorting cards *)

Lemma insert_sorted_head (x : Card) (l : list Card) :
  HdRel weight_le x l ->
  insert_by (fun a b => 0 <? getCardWeight a - getCardWeight b) x l = x :: l.
Proof.
  intros H. destruct H as [|y l Hxy]; simpl; [reflexivity|].
  unfold weight_le in Hxy.
  replace (0 <? getCardWeight x - getCardWeight y) with false; [reflexivity|].
  symmetry. apply Z.ltb_ge. lia.
Qed.

Lemma sortCards_of_sorted (l : list Card) :
  Sorted weight_le l -> sortCards l = l.
Proof.
  unfold sortCards. induction 1 as [|x l Hs IH Hhd]; simpl; [reflexivity|].
  rewrite IH. now apply insert_sorted_head.
Qed.

Lemma sortCards_idempotent (l : list Card) :
  sortCards (sortCards l) = sortCards l.
Proof. apply sortCards_of_sorted, sortCards_sorted. Qed.

Lemma insert_filter_weight (w : Z) (x : Card) (l : list Card) :
  filter (fun c => getCardWeight c =? w)
    (insert_by (fun a b => 0 <? getCardWeight a - getCardWeight b) x l)
  = filter (fun c => getCardWeight c =? w) (x :: l).
Proof.
  induction l as [|y l IH]; [reflexivity|]. cbn [insert_by].
  destruct (0 <? getCardWeight x - getCardWeight y) eqn:E; [|reflexivity].
  bool_arith. cbn [filter] in *. rewrite IH.
  destruct (getCardWeight x =? w) eqn:Ex; [|reflexivity].
  bool_arith.
  replace (getCardWeight y =? w) with false; [reflexivity|].
  symmetry. apply Z.eqb_neq. lia.
Qed.

(** X3. [sortCards] returns the same cards in ascending order of weight;
    it is stable (the cards of any one weight keep their input order), and
    sorting twice changes nothing. *)
Theorem sortCards_stable_sort (cs : list Card) :
  Permutation cs (sortCards cs)
  /\ Sorted weight_le (sortCards cs)
  /\ (forall w, filter (fun c => getCardWeight c =? w) (sortCards cs)
                = filter (fun c => getCardWeight c =? w) cs)
  /\ sortCards (sortCards cs) = sortCards cs.
Proof.
  split; [apply sortCards_perm|]. split; [apply sortCards_sorted|].
  split; [|apply sortCards_idempotent].
  intros w. unfold sortCards. induction cs as [|x cs IH]; [reflexivity|].
  cbn [sort_by]. rewrite insert_filter_weight. cbn [filter].
  now rewrite IH.
Qed.

(** ** The comparator is a strict order *)

(** X4. [compareHands] is transitive on classified hands of any kind: if
    [a] beats [b] and [b] beats [c] then [a] beats [c]. *)
Theorem compareHands_transitive (a b c : Hand) :
  compareHands a b = true -> compareHands b c = true ->
  compareHands a c = true.
Proof.
  assert (Hmixed : forall x y,
            isBomb (type x) = false -> isBomb (type y) = true ->
            compareHands x y = false).
  { intros x y Hx Hy. unfold compareHands. rewrite Hx.
    destruct (negb (List.length (Types.cards x) =? List.length (Types.cards y))%nat);
      [reflexivity|].
    destruct (HandType_eqb (type x) (type y)) eqn:E; [|reflexivity].
    apply HandType_eqb_eq in E. congruence. }
  destruct (isBomb (type a)) eqn:Ba, (isBomb (type b)) eqn:Bb,
           (isBomb (type c)) eqn:Bc;
    try (intros H1 H2; rewrite Hmixed in H1 by assumption; discriminate);
    try (intros H1 H2; rewrite Hmixed in H2 by assumption; discriminate);
    unfold compareHands; rewrite ?Ba, ?Bb, ?Bc; try reflexivity.
  - destruct (HandTypeOrder (type b) <? HandTypeOrder (type a)) eqn:E1,
             (HandTypeOrder (type c) <? HandTypeOrder (type b)) eqn:E2,
             (HandTypeOrder (type c) <? HandTypeOrder (type a)) eqn:E3,
             (HandTypeOrder (type a) =? HandTypeOrder (type b)) eqn:E4,
             (HandTypeOrder (type b) =? HandTypeOrder (type c)) eqn:E5,
             (HandTypeOrder (type a) =? HandTypeOrder (type c)) eqn:E6;
      intros H1 H2; bool_arith; try lia; try discriminate; try reflexivity.
  - destruct (List.length (Types.cards a) =? List.length (Types.cards b))%nat eqn:L1;
      [|discriminate].
    destruct (List.length (Types.cards b) =? List.length (Types.cards c))%nat eqn:L2;
      [|intros _; discriminate].
    destruct (HandType_eqb (type a) (type b)) eqn:T1; [|discriminate].
    destruct (HandType_eqb (type b) (type c)) eqn:T2; [|intros _; discriminate].
    simpl. intros H1 H2. bool_arith.
    apply HandType_eqb_eq in T1, T2.
    replace (List.length (Types.cards a) =? List.length (Types.cards c))%nat with true
      by (symmetry; apply Nat.eqb_eq; congruence).
    replace (HandType_eqb (type a) (type c)) with true
      by (symmetry; apply HandType_eqb_eq; congruence).
    simpl. apply Z.ltb_lt. lia.
Qed.

Lemma compareHands_transitive_witness :
  compareHands handStraightFlush handPairOfNines = true.
Proof.
  apply (compareHands_transitive handStraightFlush handQuad handPairOfNines);
    reflexivity.
Defined.

(** ** Shuffling *)

Lemma set_nth_perm {A : Type} (l : list A) (i : nat) (a b : A) :
  nth_error l i = Some a ->
  Permutation (a :: set_nth i b l) (b :: l).
Proof.
  revert i. induction l as [|x l IH]; intros [|i] H; simpl in *;
    try discriminate.
  - injection H as ->. apply perm_swap.
  - rewrite perm_swap. rewrite (IH i H). apply perm_swap.
Qed.

Lemma nth_error_set_nth_kept {A : Type} (l : list A) (i j : nat) (a b : A) :
  nth_error l i = Some a -> nth_error l j = Some b ->
  nth_error (set_nth j a l) i = Some a.
Proof.
  revert i j. induction l as [|x l IH]; intros [|i] [|j] Hi Hj; simpl in *;
    try discriminate; try assumption.
  - reflexivity.
  - now apply (IH i j).
Qed.

Lemma swap_perm {A : Type} (l : list A) (i j : nat) :
  Permutation l (swap l i j).
Proof.
  unfold swap.
  destruct (nth_error l i) as [a|] eqn:Hi; [|reflexivity].
  destruct (nth_error l j) as [b|] eqn:Hj; [|reflexivity].
  apply (Permutation_cons_inv (a := a)).
  rewrite (set_nth_perm (set_nth j a l) i a b)
    by (eapply nth_error_set_nth_kept; eassumption).
  symmetry. apply (set_nth_perm l j b a Hj).
Qed.

Lemma shuffleLoop_perm (draws : nat -> nat) (i : nat) (l : list Card) :
  Permutation l (shuffleLoop draws i l).
Proof.
  revert l. induction i as [|i IH]; intros l; simpl; [reflexivity|].
  rewrite <- IH. apply swap_perm.
Qed.

(** X5. Whatever the random draws (each in its range [0..i]), the shuffled
    deck is a permutation of the deck: the same cards, none lost and none
    doubled, and as many of them. *)
Theorem shuffleDeck_permutation (draws : nat -> nat) (deck : list Card)
  (Hrange : forall i, (draws i <= i)%nat) :
  Permutation deck (shuffleDeck draws deck)
  /\ List.length (shuffleDeck draws deck) = List.length deck
  /\ (NoDup deck -> NoDup (shuffleDeck draws deck)).
Proof.
  assert (Hp : Permutation deck (shuffleDeck draws deck))
    by apply shuffleLoop_perm.
  split; [exact Hp|]. split.
  - symmetry. now apply Permutation_length.
  - intros Hnd. eapply Permutation_NoDup; eassumption.
Qed.

Lemma shuffleDeck_permutation_witness :
  Permutation createDeck (shuffleDeck (fun i => Nat.div2 i) createDeck)
  /\ List.length (shuffleDeck (fun i => Nat.div2 i) createDeck) = 52%nat.
Proof.
  assert (Hrange : forall i, (Nat.div2 i <= i)%nat).
  { intros i. destruct i; [simpl; lia|].
    apply Nat.lt_le_incl, Nat.lt_div2. lia. }
  destruct (shuffleDeck_permutation (fun i => Nat.div2 i) createDeck Hrange)
    as (Hp & Hl & _).
  split; [exact Hp | exact Hl].
Defined.

(** ** More on the classifier *)

(** X6. A classified hand holds the sorted input cards, its type is never
    [None], and its type fixes the number of cards (1, 2, 5 or 13); so a
    group of any other size is invalid. *)
Theorem identifyHand_shape (cs : list Card) :
  (forall h, identifyHand cs = Some h ->
     Types.cards h = sortCards cs
     /\ List.length cs = cardsOfType (type h)
     /\ type h <> NoneType)
  /\ (List.length cs <> 1%nat -> List.length cs <> 2%nat ->
      List.length cs <> 5%nat -> List.length cs <> 13%nat ->
      identifyHand cs = None).
Proof.
  split; [intros h; apply identifyHand_cards|].
  intros H1 H2 H5 H13.
  destruct (identifyHand cs) as [h|] eqn:Hid; [|reflexivity].
  apply identifyHand_cards in Hid. destruct Hid as (_ & Hlen & Hty).
  destruct (type h); simpl in Hlen; congruence.
Qed.

Lemma identifyHand_shape_witness :
  (Types.cards handQuad = sortCards quadThrees
   /\ List.length quadThrees = cardsOfType (type handQuad)
   /\ type handQuad <> NoneType)
  /\ identifyHand [threeOfClubs; mkCard R4 Clubs; mkCard R5 Clubs] = None.
Proof.
  split.
  - apply (proj1 (identifyHand_shape quadThrees) handQuad). reflexivity.
  - apply (proj2 (identifyHand_shape
                    [threeOfClubs; mkCard R4 Clubs; mkCard R5 Clubs]));
      discriminate.
Defined.

(** X7. One card is a Single whose strength is its weight.  Two cards are a
    Pair exactly when their ranks agree, and then the strength is the
    larger of the two weights; two cards of different ranks are invalid. *)
Theorem identifyHand_single_pair (a b : Card) :
  identifyHand [a]
  = Some {| Types.cards := [a]; type := Single; strength := getCardWeight a |}
  /\ (rank a = rank b ->
      identifyHand [a; b]
      = Some {| Types.cards := sortCards [a; b]; type := Pair;
                strength := Z.max (getCardWeight a) (getCardWeight b) |})
  /\ (rank a <> rank b -> identifyHand [a; b] = None).
Proof.
  split; [reflexivity|].
  unfold identifyHand, sortCards; simpl.
  destruct (0 <? getCardWeight a - getCardWeight b); split; intros H.
  - rewrite H, Rank_eqb_refl, Z.max_comm. reflexivity.
  - replace (Rank_eqb (rank b) (rank a)) with false; [reflexivity|].
    symmetry. apply Rank_eqb_neq. congruence.
  - rewrite H, Rank_eqb_refl. reflexivity.
  - replace (Rank_eqb (rank a) (rank b)) with false; [reflexivity|].
    symmetry. now apply Rank_eqb_neq.
Qed.

Lemma identifyHand_single_pair_witness :
  identifyHand pairOfAces = Some handPairOfAces
  /\ identifyHand [mkCard RA Clubs; threeOfClubs] = None.
Proof.
  split.
  - apply (proj1 (proj2 (identifyHand_single_pair
                           (mkCard RA Clubs) (mkCard RA Spades)))).
    reflexivity.
  - apply (proj2 (proj2 (identifyHand_single_pair
                           (mkCard RA Clubs) threeOfClubs))).
    discriminate.
Defined.

(** Two sorted lists with the same cards, all of different weights, are
    the same list. *)
Lemma sorted_perm_unique (l l' : list Card) :
  Sorted weight_le l -> Sorted weight_le l' ->
  NoDup (map getCardWeight l) -> Permutation l l' -> l = l'.
Proof.
  assert (Htrans : Relations_1.Transitive weight_le).
  { intros x y z. unfold weight_le. lia. }
  intros Hs Hs'. apply (Sorted_StronglySorted Htrans) in Hs, Hs'.
  revert l' Hs'.
  induction Hs as [|x l Hs IH Hx]; intros l' Hs' Hnd Hp.
  - apply Permutation_nil in Hp. now subst.
  - destruct Hs' as [|y l' Hs' Hy].
    + apply Permutation_sym, Permutation_nil in Hp. discriminate.
    + assert (Hxy : getCardWeight x = getCardWeight y).
      { assert (Hx' : In x (y :: l'))
          by (eapply Permutation_in; [exact Hp | now left]).
        assert (Hy' : In y (x :: l))
          by (eapply Permutation_in;
              [apply Permutation_sym; exact Hp | now left]).
        rewrite Forall_forall in Hx, Hy. unfold weight_le in *.
        destruct Hx' as [-> | Hx']; [reflexivity|].
        destruct Hy' as [-> | Hy']; [reflexivity|].
        specialize (Hx y Hy'). specialize (Hy x Hx'). lia. }
      assert (Heq : x = y).
      { assert (Hy' : In y (x :: l))
          by (eapply Permutation_in;
              [apply Permutation_sym; exact Hp | now left]).
        destruct Hy' as [-> | Hy']; [reflexivity|].
        exfalso. simpl in Hnd. inversion Hnd as [|? ? Hnin _]; subst.
        apply Hnin. rewrite Hxy. now apply in_map. }
      subst y. f_equal. apply IH.
      * exact Hs'.
      * simpl in Hnd. now inversion Hnd.
      * eapply Permutation_cons_inv; exact Hp.
Qed.

Lemma distinct_ranks_perm (l l' : list Card) :
  Permutation l l' -> distinct_ranks l = distinct_ranks l'.
Proof.
  intros Hp. unfold distinct_ranks. f_equal. apply filter_ext. intros r.
  apply eq_true_iff_eq. rewrite !existsb_exists.
  split; intros (c & Hc & Hr); exists c; (split; [|exact Hr]).
  - eapply Permutation_in; eassumption.
  - eapply Permutation_in; [apply Permutation_sym|]; eassumption.
Qed.

(** X8. The classification of cards of pairwise different weights does not
    depend on the order in which they are given. *)
Theorem identifyHand_order_independent (cs cs' : list Card) :
  Permutation cs cs' -> NoDup (map getCardWeight cs) ->
  identifyHand cs = identifyHand cs'.
Proof.
  intros Hp Hnd.
  assert (Hsort : sortCards cs = sortCards cs').
  { apply sorted_perm_unique; try apply sortCards_sorted.
    - eapply Permutation_NoDup; [|exact Hnd].
      apply Permutation_map, sortCards_perm.
    - rewrite <- (sortCards_perm cs), <- (sortCards_perm cs'). exact Hp. }
  unfold identifyHand. rewrite <- Hsort.
  rewrite (Permutation_length Hp), (distinct_ranks_perm _ _ Hp). reflexivity.
Qed.

Lemma identifyHand_order_independent_witness :
  identifyHand quadThrees = identifyHand (rev quadThrees).
Proof.
  apply identifyHand_order_independent.
  - apply Permutation_rev.
  - apply (distinctb_NoDup Z.eqb); [apply Z.eqb_eq | reflexivity].
Defined.

Lemma filter_length_all {A : Type} (f : A -> bool) (l : list A) :
  List.length (filter f l) = List.length l -> forall x, In x l -> f x = true.
Proof.
  induction l as [|y l IH]; simpl; intros Hlen x Hx; [contradiction|].
  pose proof (filter_length_le f l) as Hle.
  destruct (f y) eqn:Hy; simpl in Hlen; [|lia].
  destruct Hx as [<- | Hx]; [exact Hy|]. apply IH; [lia | exact Hx].
Qed.

Lemma sorted_last_max (l : list Card) (c : Card) :
  Sorted weight_le l -> last (map Some l) None = Some c ->
  Forall (fun x => getCardWeight x <= getCardWeight c) l.
Proof.
  assert (Htrans : Relations_1.Transitive weight_le).
  { intros x y z. unfold weight_le. lia. }
  intros Hs. apply (Sorted_StronglySorted Htrans) in Hs.
  induction Hs as [|x l Hs IH Hx]; intros Hlast; [constructor|].
  destruct l as [|y l].
  - simpl in Hlast. injection Hlast as ->. repeat constructor. lia.
  - assert (Hlast' : last (map Some (y :: l)) None = Some c) by exact Hlast.
    specialize (IH Hlast'). constructor; [|exact IH].
    rewrite Forall_forall in Hx. unfold weight_le in Hx.
    inversion IH as [|? ? Hy _]; subst.
    specialize (Hx y ltac:(now left)). lia.
Qed.

(** X9. Thirteen cards are a Dragon exactly when they hold thirteen
    different ranks; the strength is then the weight of the hand's 2, the
    heaviest card, between 120 and 123.  Thirteen cards with a repeated
    rank are invalid. *)
Theorem identifyHand_dragon (cs : list Card)
  (Hlen : List.length cs = 13%nat) :
  (distinct_ranks cs = 13%nat ->
   exists h top,
     identifyHand cs = Some h /\ type h = Dragon
     /\ In top cs /\ rank top = R2 /\ strength h = getCardWeight top
     /\ Forall (fun c => getCardWeight c <= strength h) cs)
  /\ (distinct_ranks cs <> 13%nat -> identifyHand cs = None).
Proof.
  pose proof (sortCards_length cs) as Hsl. rewrite Hlen in Hsl.
  pose proof (sortCards_sorted cs) as Hsorted.
  pose proof (sortCards_perm cs) as Hperm.
  unfold identifyHand. rewrite Hlen.
  destruct (sortCards cs)
    as [|s0 [|s1 [|s2 [|s3 [|s4 [|s5 [|s6 [|s7 [|s8 [|s9 [|s10 [|s11 [|s12
        [|s13 rest]]]]]]]]]]]]]] eqn:Hs;
    try discriminate Hsl.
  cbn [Nat.eqb nth_error]. split.
  - intros Hd. rewrite Hd. cbn [Nat.eqb].
    eexists. exists s12. split; [reflexivity|]. cbn [type strength].
    assert (Hmax : Forall (fun x => getCardWeight x <= getCardWeight s12)
                     [s0; s1; s2; s3; s4; s5; s6; s7; s8; s9; s10; s11; s12]).
    { apply sorted_last_max; [exact Hsorted | reflexivity]. }
    assert (Hin : In s12 cs).
    { eapply Permutation_in; [apply Permutation_sym; exact Hperm|].
      simpl. auto 20. }
    assert (Hall : Forall (fun c => getCardWeight c <= getCardWeight s12) cs).
    { rewrite Forall_forall in *. intros c Hc. apply Hmax.
      eapply Permutation_in; eassumption. }
    repeat split; try assumption.
    assert (H2 : existsb (fun c => Rank_eqb (rank c) R2) cs = true).
    { apply (filter_length_all _ _ Hd). simpl. auto 20. }
    apply existsb_exists in H2. destruct H2 as (c2 & Hc2 & Hr2).
    apply Rank_eqb_eq in Hr2.
    rewrite Forall_forall in Hall. specialize (Hall c2 Hc2).
    apply RankOrder_inj. unfold getCardWeight in Hall. rewrite Hr2 in Hall.
    change (RankOrder R2) with 12 in *.
    pose proof (SuitOrder_range (suit c2)) as Hc.
    pose proof (SuitOrder_range (suit s12)) as Ht.
    pose proof (RankOrder_range (rank s12)) as Hr.
    clear - Hall Hc Ht Hr. lia.
  - intros Hd. destruct (distinct_ranks cs =? 13)%nat eqn:E; [|reflexivity].
    bool_arith. contradiction.
Qed.

Lemma identifyHand_dragon_witness :
  (exists h top,
     identifyHand (firstn 13 createDeck) = Some h /\ type h = Dragon
     /\ In top (firstn 13 createDeck) /\ rank top = R2
     /\ strength h = getCardWeight top
     /\ Forall (fun c => getCardWeight c <= strength h) (firstn 13 createDeck))
  /\ identifyHand (threeOfClubs :: firstn 12 createDeck) = None.
Proof.
  split.
  - apply (proj1 (identifyHand_dragon (firstn 13 createDeck) eq_refl)).
    reflexivity.
  - apply (proj2 (identifyHand_dragon (threeOfClubs :: firstn 12 createDeck)
                    eq_refl)).
    discriminate.
Defined.

(** ** The five-card groups of [findFiveCardHands] are hands *)

Lemma identifyHand_by_counts (cs : list Card) :
  List.length cs = 5%nat ->
  (forall q, countRank q cs = 4%nat ->
     exists h, identifyHand cs = Some h
               /\ type h = FourOfAKind /\ strength h = RankOrder q)
  /\ (forall t p, countRank t cs = 3%nat -> countRank p cs = 2%nat ->
        exists h, identifyHand cs = Some h
                  /\ type h = FullHouse /\ strength h = RankOrder t).
Proof.
  intros Hlen.
  destruct (sortCards_five cs Hlen)
    as (s0 & s1 & s2 & s3 & s4 & Hs & H01 & H12 & H23 & H34).
  rewrite (identifyHand_five cs _ _ _ _ _ Hs).
  split.
  - intros q Hq.
    rewrite (countRank_perm q _ _ (sortCards_perm cs)), Hs in Hq.
    unfold countRank in Hq; simpl in Hq.
    split_rank s0 q E0; split_rank s1 q E1; split_rank s2 q E2;
      split_rank s3 q E3; split_rank s4 q E4;
      simpl in Hq; try discriminate Hq;
      try (now apply identifyFive_quad_low);
      try (now apply identifyFive_quad_high);
      exfalso;
      repeat match goal with
        | H : rank _ = _ |- _ => rewrite H in *; clear H
        end;
      match goal with
      | H : rank _ <> q |- _ => apply H, RankOrder_inj; lia
      end.
  - intros t p Ht Hp.
    assert (Hne : t <> p) by (intros ->; rewrite Ht in Hp; discriminate).
    assert (Hro : RankOrder t <> RankOrder p)
      by (intros H; apply Hne, RankOrder_inj, H).
    rewrite (countRank_perm t _ _ (sortCards_perm cs)), Hs in Ht.
    rewrite (countRank_perm p _ _ (sortCards_perm cs)), Hs in Hp.
    unfold countRank in Ht, Hp; simpl in Ht, Hp.
    split_rank s0 t E0; split_rank s1 t E1; split_rank s2 t E2;
      split_rank s3 t E3; split_rank s4 t E4;
      simpl in Ht; try discriminate Ht;
      split_rank s0 p F0; split_rank s1 p F1; split_rank s2 p F2;
      split_rank s3 p F3; split_rank s4 p F4;
      simpl in Hp; try discriminate Hp; try congruence;
      try (now apply identifyFive_triple_low with (p := p));
      try (now apply identifyFive_triple_high with (p := p));
      exfalso;
      repeat match goal with
        | H : rank _ = _ |- _ => rewrite H in *; clear H
        end; lia.
Qed.

Lemma filter_rankIs_all (r : Rank) (l : list Card) :
  Forall (fun c => rank c = r) (filter (rankIs r) l).
Proof.
  apply Forall_forall. intros c Hc. apply filter_In in Hc.
  destruct Hc as [_ Hc]. now apply Rank_eqb_eq in Hc.
Qed.

Lemma countRank_app (r : Rank) (l1 l2 : list Card) :
  countRank r (l1 ++ l2) = (countRank r l1 + countRank r l2)%nat.
Proof. unfold countRank. now rewrite filter_app, length_app. Qed.

Lemma countRank_same (r : Rank) (l : list Card) :
  Forall (fun c => rank c = r) l -> countRank r l = List.length l.
Proof.
  unfold countRank. induction 1 as [|c l Hc _ IH]; simpl; [reflexivity|].
  rewrite Hc, Rank_eqb_refl. simpl. now rewrite IH.
Qed.

Lemma countRank_other (r r' : Rank) (l : list Card) :
  r <> r' -> Forall (fun c => rank c = r') l -> countRank r l = 0%nat.
Proof.
  intros Hne. unfold countRank.
  induction 1 as [|c l Hc _ IH]; simpl; [reflexivity|].
  rewrite Hc. replace (Rank_eqb r' r) with false; [exact IH|].
  symmetry. apply Rank_eqb_neq. congruence.
Qed.

Lemma Forall_firstn_of {A : Type} (P : A -> Prop) (n : nat) (l : list A) :
  Forall P l -> Forall P (firstn n l).
Proof.
  intros H. rewrite <- (firstn_skipn n l) in H.
  now apply Forall_app in H.
Qed.

Lemma fullHouse_identified (l t p : list Card) :
  In t (Object_values (groupByRank l)) ->
  In p (Object_values (groupByRank l)) ->
  (3 <= List.length t)%nat -> (2 <= List.length p)%nat ->
  sameGroupRank t p = false ->
  exists h, identifyHand (firstn 3 t ++ firstn 2 p) = Some h
            /\ type h = FullHouse.
Proof.
  intros Ht Hp Lt Lp Hs.
  apply group_In in Ht. destruct Ht as (rt & Et & Hrt).
  apply group_In in Hp. destruct Hp as (rp & Ep & Hrp).
  pose proof (sameGroupRank_false _ _ _ _ Hrt Hrp Hs) as Hne.
  assert (Ft : Forall (fun c => rank c = rt) (firstn 3 t))
    by (apply Forall_firstn_of; rewrite Et; apply filter_rankIs_all).
  assert (Fp : Forall (fun c => rank c = rp) (firstn 2 p))
    by (apply Forall_firstn_of; rewrite Ep; apply filter_rankIs_all).
  assert (L3 : List.length (firstn 3 t) = 3%nat)
    by (rewrite length_firstn; lia).
  assert (L2 : List.length (firstn 2 p) = 2%nat)
    by (rewrite length_firstn; lia).
  destruct (proj2 (identifyHand_by_counts (firstn 3 t ++ firstn 2 p)
                     ltac:(rewrite length_app; lia)) rt rp)
    as (h & Hid & Hty & _).
  - rewrite countRank_app, (countRank_same rt _ Ft),
      (countRank_other rt rp _ Hne Fp). lia.
  - rewrite countRank_app, (countRank_same rp _ Fp),
      (countRank_other rp rt _ (not_eq_sym Hne) Ft). lia.
  - now exists h.
Qed.

Lemma fourOfAKind_identified (l q : list Card) (c : Card) :
  In q (Object_values (groupByRank l)) ->
  List.length q = 4%nat ->
  match groupRank q with
  | Some r => Rank_eqb (rank c) r
  | None => false
  end = false ->
  exists h, identifyHand (q ++ [c]) = Some h /\ type h = FourOfAKind.
Proof.
  intros Hq Lq Hr.
  apply group_In in Hq. destruct Hq as (r & Eq & Hg). rewrite Hg in Hr.
  apply Rank_eqb_neq in Hr.
  assert (Fq : Forall (fun c => rank c = r) q)
    by (rewrite Eq; apply filter_rankIs_all).
  destruct (proj1 (identifyHand_by_counts (q ++ [c])
                     ltac:(rewrite length_app; simpl; lia)) r)
    as (h & Hid & Hty & _).
  - rewrite countRank_app, (countRank_same r _ Fq), Lq.
    unfold countRank; simpl.
    replace (Rank_eqb (rank c) r) with false
      by (symmetry; now apply Rank_eqb_neq).
    reflexivity.
  - now exists h.
Qed.

Lemma sortedZ_perm_unique (l l' : list Z) :
  Sorted Z.le l -> Sorted Z.le l' -> Permutation l l' -> l = l'.
Proof.
  assert (Htrans : Relations_1.Transitive Z.le) by (intros x y z; lia).
  intros Hs Hs'. apply (Sorted_StronglySorted Htrans) in Hs, Hs'.
  revert l' Hs'. induction Hs as [|x l Hs IH Hx]; intros l' Hs' Hp.
  - apply Permutation_nil in Hp. now subst.
  - destruct Hs' as [|y l' Hs' Hy].
    + apply Permutation_sym, Permutation_nil in Hp. discriminate.
    + assert (Hxy : x = y).
      { assert (Hx' : In x (y :: l'))
          by (eapply Permutation_in; [exact Hp | now left]).
        assert (Hy' : In y (x :: l))
          by (eapply Permutation_in;
              [apply Permutation_sym; exact Hp | now left]).
        rewrite Forall_forall in Hx, Hy.
        destruct Hx' as [-> | Hx']; [reflexivity|].
        destruct Hy' as [-> | Hy']; [reflexivity|].
        specialize (Hx y Hy'). specialize (Hy x Hx'). lia. }
      subst y. f_equal. apply IH; [exact Hs'|].
      eapply Permutation_cons_inv; exact Hp.
Qed.

Lemma sorted_rank_orders (l : list Card) :
  Sorted weight_le l -> Sorted Z.le (map (fun c => RankOrder (rank c)) l).
Proof.
  induction 1 as [|x l Hs IH Hhd]; simpl; constructor; [exact IH|].
  destruct Hhd as [|y l Hxy]; simpl; constructor. now apply weight_le_rank.
Qed.

Lemma rank_orders_inj (l : list Card) (rs : list Rank) :
  map (fun c => RankOrder (rank c)) l = map RankOrder rs -> map rank l = rs.
Proof.
  revert rs. induction l as [|c l IH]; intros [|r rs] H; simpl in *;
    try discriminate; [reflexivity|].
  injection H as Hc Hl. f_equal; [now apply RankOrder_inj | now apply IH].
Qed.

Lemma straightWindow_sorted (rs : list Rank) :
  In rs straightWindowRanks ->
  exists so, In so sortedStraightRanks
             /\ Permutation (map RankOrder rs) (map RankOrder so)
             /\ Sorted Z.le (map RankOrder so).
Proof.
  assert (Hsorted : forall so, In so sortedStraightRanks ->
                      Sorted Z.le (map RankOrder so)).
  { intros so H. simpl in H.
    repeat (destruct H as [<- | H];
            [simpl; repeat constructor; discriminate|]).
    contradiction. }
  intros H. simpl in H.
  do 9 (destruct H as [<- | H];
        [eexists; split; [|split; [reflexivity|]];
         [simpl; auto 20 | apply Hsorted; simpl; auto 20]|]).
  destruct H as [<- | [<- | []]].
  - exists [R3; R4; R5; RA; R2]. split; [simpl; auto 20|].
    split; [|apply Hsorted; simpl; auto 20].
    apply (Permutation_app_comm [11; 12] [0; 1; 2]).
  - exists [R3; R4; R5; R6; R2]. split; [simpl; auto 20|].
    split; [|apply Hsorted; simpl; auto 20].
    apply (Permutation_app_comm [12] [0; 1; 2; 3]).
Qed.

Lemma identifyFive_sortedStraight (s0 s1 s2 s3 s4 : Card) :
  In (map rank [s0; s1; s2; s3; s4]) sortedStraightRanks ->
  exists h, identifyFive s0 s1 s2 s3 s4 = Some h
            /\ (type h = Straight \/ type h = StraightFlush).
Proof.
  destruct s0 as [u0 r0 i0], s1 as [u1 r1 i1], s2 as [u2 r2 i2],
           s3 as [u3 r3 i3], s4 as [u4 r4 i4].
  cbn [map rank sortedStraightRanks In]. intros H.
  repeat (destruct H as [H | H];
          [injection H as <- <- <- <- <-;
           unfold identifyFive, hasRank, Rank_eqb;
           cbn -[Suit_eqb SuitOrder];
           match goal with
           | |- context [if ?b then _ else _] => destruct b
           end; eexists; split; try reflexivity; auto|]).
  contradiction.
Qed.

Lemma pickRanks_identified (l : list Card) (rs : list Rank) (f : list Card) :
  pickRanks l rs = Some f -> In rs straightWindowRanks ->
  exists h, identifyHand f = Some h
            /\ (type h = Straight \/ type h = StraightFlush).
Proof.
  intros Hpick Hrs. apply pickRanks_spec in Hpick. destruct Hpick as [Hr _].
  destruct (straightWindow_sorted rs Hrs) as (so & Hso & Hperm & Hsorted).
  assert (Hlen : List.length f = 5%nat).
  { rewrite <- (length_map rank), Hr. unfold straightWindowRanks in Hrs.
    simpl in Hrs. repeat (destruct Hrs as [<- | Hrs]; [reflexivity|]).
    contradiction. }
  destruct (sortCards_five f Hlen) as (s0 & s1 & s2 & s3 & s4 & Hs & _).
  rewrite (identifyHand_five f _ _ _ _ _ Hs).
  apply identifyFive_sortedStraight.
  assert (Hmap : map rank (sortCards f) = so).
  { apply rank_orders_inj. apply sortedZ_perm_unique.
    - apply sorted_rank_orders, sortCards_sorted.
    - exact Hsorted.
    - rewrite <- Hperm, <- Hr, map_map.
      apply Permutation_map, Permutation_sym, sortCards_perm. }
  rewrite Hs in Hmap. now rewrite Hmap.
Qed.

Lemma window_In (i : nat) :
  In i (seq 0 9) -> In (firstn 5 (skipn i allRanks)) straightWindowRanks.
Proof.
  simpl. intros H.
  repeat (destruct H as [<- | H]; [simpl; auto 20|]). contradiction.
Qed.

Lemma findFiveCardHands_identified (hand f : list Card) :
  In f (findFiveCardHands hand) ->
  exists h, identifyHand f = Some h
            /\ (type h = FullHouse \/ type h = FourOfAKind
                \/ type h = Straight \/ type h = StraightFlush).
Proof.
  intros Hin. unfold findFiveCardHands in Hin. cbv zeta in Hin.
  apply in_app_or in Hin. destruct Hin as [Hin | Hin];
    [|apply in_app_or in Hin; destruct Hin as [Hin | Hin];
      [|apply in_app_or in Hin; destruct Hin as [Hin | Hin];
        [|apply in_app_or in Hin; destruct Hin as [Hin | Hin]]]].
  - apply in_flat_map in Hin. destruct Hin as (t & Ht & Hin).
    apply in_flat_map in Hin. destruct Hin as (p & Hp & Hin).
    apply filter_In in Ht, Hp. destruct Ht as [Ht Lt], Hp as [Hp Lp].
    destruct (sameGroupRank p t) eqn:Hs; cbn [negb] in Hin; [contradiction|].
    destruct Hin as [<- | []]. bool_arith.
    rewrite sameGroupRank_sym in Hs.
    destruct (fullHouse_identified _ t p Ht Hp Lt Lp Hs) as (h & Hid & Hty).
    exists h. auto.
  - apply in_flat_map in Hin. destruct Hin as (q & Hq & Hin).
    apply in_flat_map in Hin. destruct Hin as (c & Hc & Hin).
    apply filter_In in Hq. destruct Hq as [Hq Lq].
    destruct (match groupRank q with
              | Some r => Rank_eqb (rank c) r
              | None => false
              end) eqn:Hr; cbn [negb] in Hin; [contradiction|].
    destruct Hin as [<- | []]. bool_arith.
    destruct (fourOfAKind_identified _ q c Hq Lq Hr) as (h & Hid & Hty).
    exists h. auto.
  - unfold straightWindows in Hin. apply in_flat_map in Hin.
    destruct Hin as (i & Hi & Hin).
    destruct (pickRanks _ _) as [p|] eqn:Hp; [|contradiction].
    destruct Hin as [<- | []].
    destruct (pickRanks_identified _ _ _ Hp (window_In i Hi)) as (h & Hid & Hty).
    exists h. tauto.
  - apply optionToList_In in Hin.
    destruct (pickRanks_identified _ _ _ Hin) as (h & Hid & Hty);
      [simpl; auto 20|]. exists h. tauto.
  - apply optionToList_In in Hin.
    destruct (pickRanks_identified _ _ _ Hin) as (h & Hid & Hty);
      [simpl; auto 20|]. exists h. tauto.
Qed.

(** X10. Every group enumerated by [findFiveCardHands] is made of five
    cards that can be played from the hand, and [identifyHand] classifies
    it as a FullHouse, FourOfAKind, Straight or StraightFlush. *)
Theorem findFiveCardHands_are_hands (hand f : list Card) :
  In f (findFiveCardHands hand) ->
  List.length f = 5%nat
  /\ playable f hand
  /\ exists h, identifyHand f = Some h
               /\ (type h = FullHouse \/ type h = FourOfAKind
                   \/ type h = Straight \/ type h = StraightFlush).
Proof.
  intros Hin.
  destruct (findFiveCardHands_identified hand f Hin) as (h & Hid & Hty).
  split; [|split; [now apply findFiveCardHands_playable | now exists h]].
  apply identifyHand_cards in Hid. destruct Hid as (_ & -> & _).
  destruct Hty as [-> | [-> | [-> | ->]]]; reflexivity.
Qed.

Lemma findFiveCardHands_are_hands_witness :
  List.length [mkCard R3 Clubs; mkCard R3 Diamonds; mkCard R3 Hearts;
               mkCard R3 Spades; mkCard R9 Clubs] = 5%nat
  /\ playable [mkCard R3 Clubs; mkCard R3 Diamonds; mkCard R3 Hearts;
               mkCard R3 Spades; mkCard R9 Clubs] handWithQuad.
Proof.
  destruct (findFiveCardHands_are_hands handWithQuad
              [mkCard R3 Clubs; mkCard R3 Diamonds; mkCard R3 Hearts;
               mkCard R3 Spades; mkCard R9 Clubs]) as (Hl & Hp & _).
  - cbv. auto.
  - split; assumption.
Defined.

(** ** The lists of an evaluation *)

Lemma insert_priority_sorted (x : CardCombination) (l : list CardCombination) :
  Sorted priority_ge l ->
  Sorted priority_ge
    (insert_by (fun a b => 0 <? priority b - priority a) x l).
Proof.
  induction 1 as [|y l Hs IH Hhd]; simpl.
  - repeat constructor.
  - destruct (0 <? priority y - priority x) eqn:Hc; bool_arith.
    + constructor; [exact IH|].
      destruct Hhd as [|z l Hyz]; simpl.
      * constructor. unfold priority_ge. lia.
      * destruct (0 <? priority z - priority x);
          constructor; unfold priority_ge in *; lia.
    + constructor; [now constructor|]. constructor. unfold priority_ge. lia.
Qed.

Lemma sortByPriority_sorted (l : list CardCombination) :
  Sorted priority_ge (sortByPriority l).
Proof.
  unfold sortByPriority. induction l as [|x l IH]; simpl; [constructor|].
  now apply insert_priority_sorted.
Qed.

Lemma filter_priority_sorted (f : CardCombination -> bool)
  (l : list CardCombination) :
  Sorted priority_ge l -> Sorted priority_ge (filter f l).
Proof.
  assert (Htrans : Relations_1.Transitive priority_ge).
  { intros x y z. unfold priority_ge. lia. }
  intros Hs. apply (Sorted_StronglySorted Htrans) in Hs.
  apply StronglySorted_Sorted.
  induction Hs as [|x l Hs IH Hx]; simpl; [constructor|].
  destruct (f x); [|exact IH]. constructor; [exact IH|].
  rewrite Forall_forall in *. intros y Hy. apply Hx.
  now apply filter_In in Hy.
Qed.

Lemma findAllFiveCardHands_kind (cs : list Card) (m : CardCombination) :
  In m (findAllFiveCardHands cs) -> fiveCardKind m.
Proof.
  unfold findAllFiveCardHands. cbv zeta. unfold sortByPriority.
  rewrite sort_by_In. intros Hin.
  apply in_app_or in Hin. destruct Hin as [Hin | Hin];
    [|apply in_app_or in Hin; destruct Hin as [Hin | Hin]].
  - apply in_flat_map in Hin. destruct Hin as (q & Hq & Hin).
    apply in_flat_map in Hin. destruct Hin as (c & Hc & Hin).
    destruct (negb _); [|contradiction].
    destruct (identifyHand (q ++ [c])) as [h|]; [|contradiction].
    destruct (HandType_eqb (type h) FourOfAKind) eqn:E; [|contradiction].
    destruct Hin as [<- | []]. apply HandType_eqb_eq in E.
    left. simpl. rewrite E. repeat split.
  - apply in_flat_map in Hin. destruct Hin as (t & Ht & Hin).
    apply in_flat_map in Hin. destruct Hin as (p & Hp & Hin).
    destruct (negb _); [|contradiction].
    destruct (identifyHand (firstn 3 t ++ firstn 2 p)) as [h|];
      [|contradiction].
    destruct (HandType_eqb (type h) FullHouse) eqn:E; [|contradiction].
    destruct Hin as [<- | []]. apply HandType_eqb_eq in E.
    right. simpl. repeat split. now left.
  - apply in_flat_map in Hin. destruct Hin as (s & Hs & Hin).
    destruct (identifyHand s) as [h|] eqn:Hid; [|contradiction].
    destruct Hin as [<- | []].
    assert (Hty : type h = Straight \/ type h = StraightFlush).
    { unfold findAllStraights in Hs. apply in_app_or in Hs.
      destruct Hs as [Hs | Hs].
      - apply in_flat_map in Hs. destruct Hs as (i & Hi & Hs).
        destruct (pickRanks _ _) as [p|] eqn:Hp; [|contradiction].
        destruct Hs as [<- | []].
        destruct (pickRanks_identified _ _ _ Hp (window_In i Hi))
          as (h' & Hid' & Hty). congruence.
      - apply optionToList_In in Hs.
        destruct (pickRanks_identified _ _ _ Hs) as (h' & Hid' & Hty);
          [simpl; auto 20|]. congruence. }
    destruct Hty as [Hty | Hty]; simpl; rewrite Hty; simpl.
    + right. repeat split. now right.
    + left. repeat split. simpl. now rewrite Hty.
Qed.

(** X11. In an evaluation every bomb, five-card combination and pair can
    be played from the hand and carries the hand [identifyHand] gives its
    cards.  The bombs are the FourOfAKind and StraightFlush combinations
    (category bomb, priority strength + 10000), the five-card list holds
    the FullHouse and Straight ones (category five, priority strength),
    the pairs are Pairs (category pair, priority strength); each list is
    in descending order of priority. *)
Theorem evaluateHand_structure (cs : list Card) :
  let ev := evaluateHand cs in
  Forall (fun m => soundCombination cs m
                   /\ isBomb (type (Evaluate.hand m)) = true
                   /\ category m = bomb
                   /\ priority m = strength (Evaluate.hand m) + 10000)
         (bombs ev)
  /\ Forall (fun m => soundCombination cs m
                      /\ (type (Evaluate.hand m) = FullHouse
                          \/ type (Evaluate.hand m) = Straight)
                      /\ category m = five
                      /\ priority m = strength (Evaluate.hand m))
            (fiveCards ev)
  /\ Forall (fun m => soundCombination cs m
                      /\ type (Evaluate.hand m) = Pair
                      /\ category m = pair
                      /\ priority m = strength (Evaluate.hand m))
            (pairs ev)
  /\ Sorted priority_ge (bombs ev)
  /\ Sorted priority_ge (fiveCards ev)
  /\ Sorted priority_ge (pairs ev).
Proof.
  intros ev.
  assert (Hsound : forall m, In m (bombs ev ++ fiveCards ev ++ pairs ev) ->
                     soundCombination cs m).
  { intros m Hm. apply evaluateHand_sound. fold ev.
    rewrite !app_assoc in *. apply in_or_app. now left. }
  split; [|split; [|split; [|split; [|split]]]].
  - apply Forall_forall. intros m Hm.
    split; [apply Hsound, in_or_app; now left|].
    cbn [ev evaluateHand bombs] in Hm. apply filter_In in Hm.
    destruct Hm as [Hm Hb]. apply findAllFiveCardHands_kind in Hm.
    fold (isBomb (type (Evaluate.hand m))) in Hb.
    destruct Hm as [Hk | ([Ht | Ht] & _)]; [tauto | |];
      rewrite Ht in Hb; discriminate.
  - apply Forall_forall. intros m Hm.
    split; [apply Hsound, in_or_app; right; apply in_or_app; now left|].
    cbn [ev evaluateHand fiveCards] in Hm. apply filter_In in Hm.
    destruct Hm as [Hm Hb]. apply findAllFiveCardHands_kind in Hm.
    destruct Hm as [(Hk & _) | Hk]; [|tauto].
    unfold isBomb in Hk. bool_arith. rewrite H, H0 in Hk. discriminate.
  - apply Forall_forall. intros m Hm.
    split; [apply Hsound, in_or_app; right; apply in_or_app; now right|].
    cbn [ev evaluateHand pairs] in Hm.
    apply findAllPairs_In in Hm.
    revert Hm. generalize (sortCards cs). intros l.
    induction l as [|a l IH]; [contradiction|].
    destruct l as [|b l]; [contradiction|]. cbn [adjacentPairs].
    destruct (Rank_eqb (rank a) (rank b)); [|exact IH].
    destruct (identifyHand [a; b]) as [h|] eqn:Hid; [|exact IH].
    intros [<- | Hm]; [|now apply IH]. simpl.
    apply identifyHand_two in Hid. tauto.
  - apply filter_priority_sorted, sortByPriority_sorted.
  - apply filter_priority_sorted, sortByPriority_sorted.
  - apply sortByPriority_sorted.
Qed.

(** ** What the bots play is legal *)

Lemma identifyHand_sorted (f : list Card) :
  identifyHand (sortCards f) = identifyHand f.
Proof.
  unfold identifyHand.
  rewrite sortCards_idempotent, sortCards_length.
  now rewrite <- (distinct_ranks_perm _ _ (sortCards_perm f)).
Qed.

Lemma playable_perm_left (m m' l : list Card) :
  Permutation m m' -> playable m l -> playable m' l.
Proof.
  intros Hp [rest Hr]. exists rest. rewrite <- Hr.
  now apply Permutation_app_tail, Permutation_sym.
Qed.

Lemma bomb_legal (hand : list Card) (reference : Hand)
  (fives : list (list Card)) (b : list Card) :
  (forall f, In f fives -> playable f hand) ->
  isBomb (type reference) = false ->
  In b (bombsOf fives) -> legalMove hand reference b.
Proof.
  intros Hplay Hnb Hb. apply bombsOf_In in Hb.
  destruct Hb as (f & h & Hf & Hid & Hbomb & ->).
  pose proof (identifyHand_cards f h Hid) as (Hc & _).
  split.
  - rewrite Hc. eapply playable_perm_left; [apply sortCards_perm|].
    now apply Hplay.
  - exists h. split; [rewrite Hc, identifyHand_sorted; exact Hid|].
    unfold compareHands. now rewrite Hbomb, Hnb.
Qed.

Lemma single_legal (hand : list Card) (refCards : list Card)
  (reference : Hand) (c : Card) :
  identifyHand refCards = Some reference -> type reference = Single ->
  In c hand -> (strength reference <? getCardWeight c) = true ->
  legalMove hand reference [c].
Proof.
  intros Href Hty Hc Hw. split; [now apply playable_single|].
  eexists. split; [apply identifyHand_one|].
  apply identifyHand_card_count in Href. rewrite Hty in Href.
  unfold compareHands; simpl. rewrite Href, Hty. exact Hw.
Qed.

Lemma pair_legal (hand : list Card) (refCards : list Card)
  (reference h : Hand) (a b : Card) :
  identifyHand refCards = Some reference -> type reference = Pair ->
  playable [a; b] hand -> identifyHand [a; b] = Some h ->
  (strength reference <? strength h) = true ->
  legalMove hand reference [a; b].
Proof.
  intros Href Hty Hp Hid Hw. split; [exact Hp|].
  exists h. split; [exact Hid|].
  pose proof (identifyHand_card_count _ _ Hid) as Hlen.
  apply identifyHand_two in Hid. destruct Hid as (Hh & _ & _).
  apply identifyHand_card_count in Href.
  unfold compareHands. rewrite Hlen, Href, Hh, Hty. exact Hw.
Qed.

Lemma sorted_In (hand : list Card) (c : Card) :
  In c (sortCards hand) <-> In c hand.
Proof. apply sort_by_In. Qed.

Lemma findFiveCardHands_sorted_playable (hand f : list Card) :
  In f (findFiveCardHands (sortCards hand)) -> playable f hand.
Proof.
  intros H. apply findFiveCardHands_playable in H.
  eapply playable_perm; [apply Permutation_sym, sortCards_perm | exact H].
Qed.

(** X12. When following a classified reference hand (not on the first
    turn), whatever the smart bot plays is a legal move: cards playable
    from its hand that [identifyHand] classifies and that beat the
    reference under [compareHands].  It never returns [[undefined]], and it
    throws only on an empty hand against a Single when the next player
    holds one card. *)
Theorem getSmartBotPlay_follow_legal
  (hand refCards : list Card) (reference : Hand)
  (opponents : option (list Z)) (passes next : option Z)
  (Href : identifyHand refCards = Some reference) :
  let play :=
    getSmartBotPlay hand (Some reference) false opponents passes next in
  (forall m, play = Play m -> legalMove hand reference m)
  /\ play <> PlayUndefined
  /\ (play = Throw ->
      hand = [] /\ type reference = Single /\ next = Some 1).
Proof.
  intros play. subst play.
  pose (T := fun r : BotPlay =>
          (forall m, r = Play m -> legalMove hand reference m)
          /\ r <> PlayUndefined
          /\ (r = Throw ->
              hand = [] /\ type reference = Single /\ next = Some 1)).
  change (T (getSmartBotPlay hand (Some reference) false opponents passes next)).
  assert (Tplay : forall x, legalMove hand reference x -> T (Play x)).
  { intros x Hx. split; [|split]; try discriminate. now intros m [= <-]. }
  assert (Tpass : T Pass) by (split; [|split]; discriminate).
  unfold getSmartBotPlay. cbv zeta.
  set (sorted := sortCards hand).
  set (myFives := findFiveCardHands sorted).
  assert (Hfives : forall f, In f myFives -> playable f hand)
    by (intros f; apply findFiveCardHands_sorted_playable).
  assert (Hbomb : isBomb (type reference) = false ->
                  forall b bs, bombsOf myFives = b :: bs ->
                               legalMove hand reference b).
  { intros Hnb b bs E. apply (bomb_legal hand reference myFives);
      [exact Hfives | exact Hnb | rewrite E; now left]. }
  assert (Hfive :
    T match find (fun f => match identifyHand f with
                           | Some h => compareHands h reference
                           | None => false
                           end) myFives with
      | Some f => Play f
      | None => Pass
      end).
  { destruct (find _ myFives) as [f|] eqn:E; [|exact Tpass].
    apply find_some in E. destruct E as [Hf Hc].
    destruct (identifyHand f) as [h|] eqn:Hid; [|discriminate].
    apply Tplay. split; [now apply Hfives | now exists h]. }
  destruct (type reference) eqn:Hty; try exact Hfive; try exact Tpass.
  - (* Single *)
    assert (Hb := Hbomb eq_refl).
    assert (Hsingle : forall c, In c sorted ->
              (strength reference <? getCardWeight c) = true ->
              legalMove hand reference [c]).
    { intros c Hc Hw. eapply single_legal; try eassumption.
      now apply sorted_In. }
    destruct (match next with Some n => n =? 1 | None => false end) eqn:Hn.
    + pose proof (lastCard_spec sorted) as Hlast.
      destruct (lastCard sorted) as [c|].
      * destruct (strength reference <? getCardWeight c) eqn:Hw.
        -- apply Tplay. now apply Hsingle.
        -- destruct (bombsOf myFives) as [|b bs] eqn:E; [exact Tpass|].
           apply Tplay. eapply Hb. reflexivity.
      * split; [|split]; try discriminate. intros _.
        split; [now apply sort_by_nil_inv in Hlast|]. split; [reflexivity|].
        destruct next as [n|]; [|discriminate]. bool_arith. congruence.
    + destruct (filter _ sorted) as [|v vs] eqn:Ev.
      * destruct (bombsOf myFives) as [|b bs] eqn:E; [exact Tpass|].
        destruct (someAtMost3 opponents || (List.length hand <=? 5)%nat);
          [|exact Tpass].
        apply Tplay. eapply Hb. reflexivity.
      * assert (Hvalid : forall c, In c (v :: vs) ->
                           legalMove hand reference [c]).
        { intros c Hc. rewrite <- Ev in Hc. apply filter_In in Hc.
          destruct Hc as [Hc Hw]. now apply Hsingle. }
        destruct (filter _ (v :: vs)) as [|n ns] eqn:En; apply Tplay.
        -- apply Hvalid. now left.
        -- apply Hvalid.
           assert (Hin : In n (n :: ns)) by now left.
           rewrite <- En in Hin. now apply filter_In in Hin.
  - (* Pair *)
    assert (Hb := Hbomb eq_refl).
    destruct (validPairsOf (getAllPairs sorted) reference) as [|p ps] eqn:Ep.
    + destruct (bombsOf myFives) as [|b bs] eqn:E; [exact Tpass|].
      apply Tplay. eapply Hb. reflexivity.
    + assert (Hp : In p (validPairsOf (getAllPairs sorted) reference))
        by (rewrite Ep; now left).
      apply filter_In in Hp. destruct Hp as [Hp Hv].
      destruct (identifyHand p) as [h|] eqn:Hid; [|discriminate].
      pose proof (getAllPairs_playable hand p Hp) as Hplay.
      apply getAllPairs_In in Hp. destruct Hp as (l1 & a & b & l2 & _ & ->).
      destruct (_ && _ && _); [exact Tpass|].
      apply Tplay. eapply pair_legal; eassumption.
Qed.

Lemma getSmartBotPlay_follow_legal_witness :
  legalMove handWithKings handPairOfNines [mkCard RK Hearts; mkCard RK Spades].
Proof.
  apply (proj1 (getSmartBotPlay_follow_legal handWithKings pairOfNines
                  handPairOfNines (Some [13; 13; 13]) None (Some 13) eq_refl)).
  reflexivity.
Defined.

(** ** Which single the bots play *)

Lemma weight_sorted_strong (l : list Card) :
  Sorted weight_le l -> StronglySorted weight_le l.
Proof.
  apply Sorted_StronglySorted. intros x y z. unfold weight_le. lia.
Qed.

Lemma filter_weight_sorted (f : Card -> bool) (l : list Card) :
  Sorted weight_le l -> Sorted weight_le (filter f l).
Proof.
  intros Hs. apply weight_sorted_strong in Hs. apply StronglySorted_Sorted.
  induction Hs as [|x l Hs IH Hx]; simpl; [constructor|].
  destruct (f x); [|exact IH]. constructor; [exact IH|].
  rewrite Forall_forall in *. intros y Hy. apply Hx.
  now apply filter_In in Hy.
Qed.

Lemma sorted_head_min (v : Card) (vs : list Card) :
  Sorted weight_le (v :: vs) ->
  forall c, In c (v :: vs) -> getCardWeight v <= getCardWeight c.
Proof.
  intros Hs c Hc. apply weight_sorted_strong in Hs.
  inversion Hs as [|? ? _ Hall]; subst.
  destruct Hc as [<- | Hc]; [lia|].
  rewrite Forall_forall in Hall. now apply Hall.
Qed.

(** The first element of a filter of the sorted hand is the lightest card
    of the hand that passes the filter. *)
Lemma lightest_passing (hand : list Card) (f : Card -> bool)
  (v : Card) (vs : list Card) :
  filter f (sortCards hand) = v :: vs ->
  In v hand /\ f v = true
  /\ forall c, In c hand -> f c = true -> getCardWeight v <= getCardWeight c.
Proof.
  intros E.
  assert (Hv : In v (filter f (sortCards hand))) by (rewrite E; now left).
  apply filter_In in Hv. destruct Hv as [Hv Hf].
  split; [now apply sorted_In|]. split; [exact Hf|].
  intros c Hc Hfc.
  apply (sorted_head_min v vs).
  - rewrite <- E. apply filter_weight_sorted, sortCards_sorted.
  - rewrite <- E. apply filter_In. split; [now apply sorted_In | exact Hfc].
Qed.

Lemma find_filter_head {A : Type} (f : A -> bool) (l : list A) :
  find f l = hd_error (filter f l).
Proof.
  induction l as [|x l IH]; simpl; [reflexivity|].
  destruct (f x); [reflexivity | exact IH].
Qed.

(** X13. Against a Single that some card of the hand beats, the smart bot
    plays one card.  If the next player holds exactly one card it is the
    heaviest card of the hand; otherwise it is the lightest card that
    beats the reference (setting the 2s aside never changes this, since
    every 2 is heavier than every other card). *)
Theorem getSmartBotPlay_single
  (hand : list Card) (reference : Hand)
  (opponents : option (list Z)) (passes next : option Z) (c0 : Card)
  (Hty : type reference = Single)
  (Hc0 : In c0 hand) (Hbeats : strength reference < getCardWeight c0) :
  let play :=
    getSmartBotPlay hand (Some reference) false opponents passes next in
  (next = Some 1 ->
   exists v, play = Play [v] /\ In v hand
             /\ forall c, In c hand -> getCardWeight c <= getCardWeight v)
  /\ (next <> Some 1 ->
      exists v, play = Play [v] /\ In v hand
                /\ strength reference < getCardWeight v
                /\ forall c, In c hand ->
                             strength reference < getCardWeight c ->
                             getCardWeight v <= getCardWeight c).
Proof.
  intros play. subst play. unfold getSmartBotPlay. cbv zeta. rewrite Hty.
  set (sorted := sortCards hand).
  split.
  - intros ->. cbn [Z.eqb Pos.eqb].
    pose proof (lastCard_spec sorted) as Hlast.
    destruct (lastCard sorted) as [v|] eqn:El.
    + assert (Hmax : forall c, In c hand -> getCardWeight c <= getCardWeight v).
      { intros c Hc.
        pose proof (sorted_last_max sorted v (sortCards_sorted hand) El) as Hm.
        rewrite Forall_forall in Hm. apply Hm. now apply sorted_In. }
      exists v.
      replace (strength reference <? getCardWeight v) with true.
      * split; [reflexivity|]. split; [now apply sorted_In | exact Hmax].
      * symmetry. apply Z.ltb_lt. specialize (Hmax c0 Hc0). lia.
    + exfalso. apply sort_by_nil_inv in Hlast. subst hand. contradiction.
  - intros Hnext.
    replace (match next with Some n => n =? 1 | None => false end) with false.
    2:{ destruct next as [n|]; [|reflexivity]. symmetry. apply Z.eqb_neq.
        congruence. }
    destruct (filter (fun c => strength reference <? getCardWeight c) sorted)
      as [|v vs] eqn:Ev.
    + exfalso.
      assert (Hin : In c0 (filter
                (fun c => strength reference <? getCardWeight c) sorted)).
      { apply filter_In. split; [now apply sorted_In | now apply Z.ltb_lt]. }
      rewrite Ev in Hin. contradiction.
    + destruct (lightest_passing hand _ v vs Ev) as (Hv & Hw & Hmin).
      apply Z.ltb_lt in Hw.
      assert (Hmin' : forall c, In c hand ->
                 strength reference < getCardWeight c ->
                 getCardWeight v <= getCardWeight c).
      { intros c Hc Hlt. apply Hmin; [exact Hc | now apply Z.ltb_lt]. }
      destruct (filter (fun c => negb (Rank_eqb (rank c) R2)) (v :: vs))
        as [|n ns] eqn:En.
      * exists v. auto.
      * exists n.
        assert (Hn : In n (filter (fun c => negb (Rank_eqb (rank c) R2))
                             (v :: vs))) by (rewrite En; now left).
        apply filter_In in Hn. destruct Hn as [Hn Hr].
        rewrite <- Ev in Hn. apply filter_In in Hn. destruct Hn as [Hn Hwn].
        apply Z.ltb_lt in Hwn.
        split; [reflexivity|]. split; [now apply sorted_In|].
        split; [exact Hwn|]. intros c Hc Hlt.
        assert (Hvn : getCardWeight v <= getCardWeight n)
          by (apply Hmin'; [now apply sorted_In | exact Hwn]).
        destruct (Rank_eqb (rank c) R2) eqn:Ec.
        -- apply Rank_eqb_eq in Ec. apply negb_true_iff, Rank_eqb_neq in Hr.
           assert (Hro : RankOrder (rank n) <> 12)
             by (intros H; apply Hr, RankOrder_inj; exact H).
           pose proof (RankOrder_range (rank n)).
           pose proof (SuitOrder_range (suit n)).
           pose proof (SuitOrder_range (suit c)).
           unfold getCardWeight. rewrite Ec.
           change (RankOrder R2) with 12. lia.
        -- apply (sorted_head_min n ns).
           ++ rewrite <- En. apply filter_weight_sorted. rewrite <- Ev.
              apply filter_weight_sorted, sortCards_sorted.
           ++ rewrite <- En. apply filter_In. split; [|now rewrite Ec].
              rewrite <- Ev. apply filter_In.
              split; [now apply sorted_In | now apply Z.ltb_lt].
Qed.

Lemma getSmartBotPlay_single_witness :
  (exists v,
     getSmartBotPlay handWithTwos (Some handSingleAce) false
       (Some [13; 13; 1]) None (Some 1) = Play [v]
     /\ In v handWithTwos
     /\ forall c, In c handWithTwos -> getCardWeight c <= getCardWeight v)
  /\ (exists v,
        getSmartBotPlay handWithTwos (Some handSingleAce) false
          (Some [13; 13; 13]) None (Some 13) = Play [v]
        /\ In v handWithTwos
        /\ strength handSingleAce < getCardWeight v
        /\ forall c, In c handWithTwos ->
                     strength handSingleAce < getCardWeight c ->
                     getCardWeight v <= getCardWeight c).
Proof.
  assert (Hin : In (mkCard R2 Spades) handWithTwos) by (simpl; auto 10).
  assert (Hlt : strength handSingleAce < getCardWeight (mkCard R2 Spades))
    by reflexivity.
  split.
  - apply (proj1 (getSmartBotPlay_single handWithTwos handSingleAce
                    (Some [13; 13; 1]) None (Some 1) (mkCard R2 Spades)
                    eq_refl Hin Hlt)).
    reflexivity.
  - apply (proj2 (getSmartBotPlay_single handWithTwos handSingleAce
                    (Some [13; 13; 13]) None (Some 13) (mkCard R2 Spades)
                    eq_refl Hin Hlt)).
    discriminate.
Defined.

(** ** The first turn and the lead *)

Lemma firstPair_spec (accept : Card -> Card -> bool) (l p : list Card) :
  firstPair accept l = Some p ->
  exists l1 a b l2,
    l = l1 ++ a :: b :: l2 /\ p = [a; b]
    /\ rank a = rank b /\ accept a b = true.
Proof.
  induction l as [|a l IH]; [discriminate|].
  destruct l as [|b l]; [discriminate|]. cbn [firstPair].
  destruct (Rank_eqb (rank a) (rank b) && accept a b) eqn:E.
  - intros [= <-]. apply andb_true_iff in E. destruct E as [Er Ea].
    apply Rank_eqb_eq in Er. exists [], a, b, l. auto.
  - intros H. destruct (IH H) as (l1 & a0 & b0 & l2 & El & Hp & Hr & Ha).
    exists (a :: l1), a0, b0, l2. rewrite El. auto.
Qed.

Lemma getAllPairs_rank (l p : list Card) :
  In p (getAllPairs l) -> exists a b, p = [a; b] /\ rank a = rank b.
Proof.
  induction l as [|a l IH]; [contradiction|].
  destruct l as [|b l]; [contradiction|]. cbn [getAllPairs].
  destruct (Rank_eqb (rank a) (rank b)) eqn:E; [|exact IH].
  intros [<- | H]; [|now apply IH].
  apply Rank_eqb_eq in E. now exists a, b.
Qed.

Lemma identifyHand_pair_some (a b : Card) :
  rank a = rank b -> exists h, identifyHand [a; b] = Some h.
Proof.
  intros H. unfold identifyHand, sortCards; simpl.
  destruct (0 <? getCardWeight a - getCardWeight b);
    rewrite H, Rank_eqb_refl; eexists; reflexivity.
Qed.

Lemma playable_in_sorted (hand : list Card) (a b : Card) (l1 l2 : list Card) :
  sortCards hand = l1 ++ a :: b :: l2 -> playable [a; b] hand.
Proof.
  intros E. eapply playable_perm; [apply Permutation_sym, sortCards_perm|].
  rewrite E. apply playable_adjacent.
Qed.

Lemma playFirst_lightest (hand : list Card) :
  hand <> [] ->
  exists v, playFirst (sortCards hand) = Play [v] /\ In v hand
            /\ forall c, In c hand -> getCardWeight v <= getCardWeight c.
Proof.
  intros Hne. destruct (sortCards hand) as [|v vs] eqn:E.
  - apply sort_by_nil_inv in E. contradiction.
  - exists v. split; [reflexivity|].
    split; [apply sorted_In; rewrite E; now left|].
    intros c Hc. apply (sorted_head_min v vs).
    + rewrite <- E. apply sortCards_sorted.
    + rewrite <- E. now apply sorted_In.
Qed.

Lemma find_isClub3 (hand : list Card) (c : Card) :
  In c hand -> isClub3 c = true ->
  exists club3, find isClub3 (sortCards hand) = Some club3
                /\ In club3 hand /\ isClub3 club3 = true.
Proof.
  intros Hc H3. destruct (find isClub3 (sortCards hand)) as [club3|] eqn:E.
  - apply find_some in E. destruct E as [Hin H]. exists club3.
    split; [reflexivity|]. split; [now apply sorted_In | exact H].
  - exfalso. rewrite (find_none _ _ E c) in H3; [discriminate|].
    now apply sorted_In.
Qed.

Lemma find_isClub3_none (hand : list Card) :
  (forall c, In c hand -> isClub3 c = false) ->
  find isClub3 (sortCards hand) = None.
Proof.
  intros H. destruct (find isClub3 (sortCards hand)) as [c|] eqn:E;
    [|reflexivity].
  apply find_some in E. destruct E as [Hin H3].
  apply (proj1 (sorted_In hand c)) in Hin.
  rewrite (H c Hin) in H3. discriminate.
Qed.

(** X14. On the first turn, a bot that holds the three of clubs plays it:
    the rule-following bot plays it alone, and the plays of the smart bot
    and of [findValidHand] are playable from the hand and contain a card
    with its id.  A non-empty hand without it makes all three play the
    lightest card. *)
Theorem first_turn_plays_club3
  (hand : list Card) (lastPlayed : option Hand)
  (opponents : option (list Z)) (passes next : option Z) :
  (forall c, In c hand -> isClub3 c = true ->
     exists club3,
       In club3 hand /\ isClub3 club3 = true
       /\ getDumbBotPlay hand lastPlayed true = Play [club3]
       /\ (exists m,
             getSmartBotPlay hand lastPlayed true opponents passes next
             = Play m
             /\ playable m hand /\ exists x, In x m /\ id x = id club3)
       /\ (exists m,
             findValidHand hand lastPlayed true = Play m
             /\ playable m hand /\ exists x, In x m /\ id x = id club3))
  /\ (hand <> [] -> (forall c, In c hand -> isClub3 c = false) ->
      exists v,
        In v hand
        /\ (forall c, In c hand -> getCardWeight v <= getCardWeight c)
        /\ getDumbBotPlay hand lastPlayed true = Play [v]
        /\ getSmartBotPlay hand lastPlayed true opponents passes next
           = Play [v]
        /\ findValidHand hand lastPlayed true = Play [v]).
Proof.
  split.
  - intros c Hc H3.
    destruct (find_isClub3 hand c Hc H3) as (club3 & Ef & Hin & Hclub).
    exists club3. split; [exact Hin|]. split; [exact Hclub|].
    assert (Hself : exists x, In x [club3] /\ id x = id club3)
      by (exists club3; split; [now left | reflexivity]).
    assert (Hhas : forall m,
              existsb (fun c => String.eqb (id c) (id club3)) m = true ->
              exists x, In x m /\ id x = id club3).
    { intros m H. apply existsb_exists in H. destruct H as (x & Hx & E).
      apply String.eqb_eq in E. now exists x. }
    split; [|split].
    + unfold getDumbBotPlay. cbv zeta. now rewrite Ef.
    + unfold getSmartBotPlay. cbv zeta. fold isClub3. rewrite Ef.
      destruct (filter _ (findFiveCardHands (sortCards hand)))
        as [|f fs] eqn:E5.
      * destruct (filter _ (getAllPairs (sortCards hand))) as [|p ps] eqn:E2.
        -- exists [club3]. split; [reflexivity|].
           split; [now apply playable_single | exact Hself].
        -- assert (Hp : In p (p :: ps)) by now left.
           rewrite <- E2 in Hp. apply filter_In in Hp. destruct Hp as [Hp Hh].
           exists p. split; [reflexivity|].
           split; [now apply getAllPairs_playable | now apply Hhas].
      * assert (Hf : In f (f :: fs)) by now left.
        rewrite <- E5 in Hf. apply filter_In in Hf. destruct Hf as [Hf Hh].
        exists f. split; [reflexivity|].
        split; [now apply findFiveCardHands_sorted_playable | now apply Hhas].
    + unfold findValidHand. cbv zeta. rewrite Ef.
      destruct (filter _ (findFiveCardHands hand)) as [|f fs] eqn:E5.
      * destruct (firstPair _ (sortCards hand)) as [p|] eqn:E2.
        -- apply firstPair_spec in E2.
           destruct E2 as (l1 & a & b & l2 & El & -> & _ & Hacc).
           exists [a; b]. split; [reflexivity|].
           split; [eapply playable_in_sorted; exact El|].
           apply orb_true_iff in Hacc.
           destruct Hacc as [E | E]; apply String.eqb_eq in E;
             [exists a | exists b]; simpl; auto.
        -- exists [club3]. split; [reflexivity|].
           split; [now apply playable_single | exact Hself].
      * assert (Hf : In f (f :: fs)) by now left.
        rewrite <- E5 in Hf. apply filter_In in Hf. destruct Hf as [Hf Hh].
        exists f. split; [reflexivity|].
        split; [now apply findFiveCardHands_playable | now apply Hhas].
  - intros Hne Hno.
    destruct (playFirst_lightest hand Hne) as (v & Ev & Hv & Hmin).
    exists v. split; [exact Hv|]. split; [exact Hmin|].
    pose proof (find_isClub3_none hand Hno) as Ef.
    unfold getDumbBotPlay, getSmartBotPlay, findValidHand. cbv zeta.
    fold isClub3. rewrite Ef. auto.
Qed.

Lemma first_turn_plays_club3_witness :
  (exists club3,
     In club3 handWithQuad /\ isClub3 club3 = true
     /\ getDumbBotPlay handWithQuad None true = Play [club3]
     /\ (exists m,
           getSmartBotPlay handWithQuad None true (Some [13; 13; 13])
             None (Some 13) = Play m
           /\ playable m handWithQuad
           /\ exists x, In x m /\ id x = id club3)
     /\ (exists m,
           findValidHand handWithQuad None true = Play m
           /\ playable m handWithQuad
           /\ exists x, In x m /\ id x = id club3))
  /\ (exists v,
        In v pairOfAces
        /\ (forall c, In c pairOfAces -> getCardWeight v <= getCardWeight c)
        /\ getDumbBotPlay pairOfAces None true = Play [v]
        /\ getSmartBotPlay pairOfAces None true (Some [13; 13; 13])
             None (Some 13) = Play [v]
        /\ findValidHand pairOfAces None true = Play [v]).
Proof.
  split.
  - apply (proj1 (first_turn_plays_club3 handWithQuad None
                    (Some [13; 13; 13]) None (Some 13)) threeOfClubs).
    + now left.
    + reflexivity.
  - apply (proj2 (first_turn_plays_club3 pairOfAces None
                    (Some [13; 13; 13]) None (Some 13))).
    + discriminate.
    + intros c [<- | [<- | []]]; reflexivity.
Defined.

(** X15. Leading with a non-empty hand (no reference, not the first
    turn), no bot passes: the smart bot and [findValidHand] play cards that
    are playable from the hand and classified by [identifyHand], and the
    rule-following bot plays its lightest card. *)
Theorem lead_always_plays
  (hand : list Card) (opponents : option (list Z)) (passes next : option Z)
  (Hne : hand <> []) :
  (exists m h,
     getSmartBotPlay hand None false opponents passes next = Play m
     /\ playable m hand /\ identifyHand m = Some h)
  /\ (exists m h,
        findValidHand hand None false = Play m
        /\ playable m hand /\ identifyHand m = Some h)
  /\ (exists v,
        getDumbBotPlay hand None false = Play [v] /\ In v hand
        /\ forall c, In c hand -> getCardWeight v <= getCardWeight c).
Proof.
  pose (P := fun r : BotPlay =>
          exists m h, r = Play m /\ playable m hand /\ identifyHand m = Some h).
  assert (Pfive : forall f, In f (findFiveCardHands (sortCards hand)) ->
                    P (Play f)).
  { intros f Hf. destruct (findFiveCardHands_identified _ f Hf) as (h & Hid & _).
    exists f, h. split; [reflexivity|].
    split; [now apply findFiveCardHands_sorted_playable | exact Hid]. }
  assert (Pfive' : forall f, In f (findFiveCardHands hand) -> P (Play f)).
  { intros f Hf. destruct (findFiveCardHands_identified _ f Hf) as (h & Hid & _).
    exists f, h. split; [reflexivity|].
    split; [now apply findFiveCardHands_playable | exact Hid]. }
  assert (Psingle : forall c, In c hand -> P (Play [c])).
  { intros c Hc. exists [c]. eexists. split; [reflexivity|].
    split; [now apply playable_single | apply identifyHand_one]. }
  assert (Pfirst : P (playFirst (sortCards hand))).
  { destruct (playFirst_lightest hand Hne) as (v & -> & Hv & _).
    now apply Psingle. }
  assert (Ppair : forall p, In p (getAllPairs (sortCards hand)) -> P (Play p)).
  { intros p Hp. pose proof (getAllPairs_playable hand p Hp) as Hplay.
    apply getAllPairs_rank in Hp. destruct Hp as (a & b & -> & Hr).
    destruct (identifyHand_pair_some a b Hr) as [h Hid].
    now exists [a; b], h. }
  split; [|split].
  - change (P (getSmartBotPlay hand None false opponents passes next)).
    unfold getSmartBotPlay. cbv zeta.
    assert (Pafter :
      P match getAllPairs (sortCards hand) with
        | p :: _ => Play p
        | [] =>
            match filter (fun c => RankOrder (rank c) <? 8) (sortCards hand) with
            | c :: _ => Play [c]
            | [] => playFirst (sortCards hand)
            end
        end).
    { destruct (getAllPairs (sortCards hand)) as [|p ps] eqn:Ep.
      - destruct (filter _ (sortCards hand)) as [|c cs] eqn:Ec;
          [exact Pfirst|].
        apply Psingle. apply (proj1 (sorted_In hand c)).
        assert (Hc : In c (c :: cs)) by now left.
        rewrite <- Ec in Hc. now apply filter_In in Hc.
      - apply Ppair. now left. }
    destruct (findFiveCardHands (sortCards hand)) as [|f fs] eqn:E5;
      [exact Pafter|].
    assert (Hf : P (Play f)) by (apply Pfive; now left).
    destruct (List.length hand =? 5)%nat; [exact Hf|].
    destruct (negb (List.length hand <=? 5)%nat); [|exact Hf].
    destruct (filter _ (f :: fs)) as [|nb nbs] eqn:En; [exact Pafter|].
    apply Pfive.
    assert (Hnb : In nb (nb :: nbs)) by now left.
    rewrite <- En in Hnb. now apply filter_In in Hnb.
  - change (P (findValidHand hand None false)).
    unfold findValidHand. cbv zeta.
    destruct (findFiveCardHands hand) as [|f fs] eqn:E5.
    + destruct (firstPair _ (sortCards hand)) as [p|] eqn:E2; [|exact Pfirst].
      apply firstPair_spec in E2.
      destruct E2 as (l1 & a & b & l2 & El & -> & Hr & _).
      destruct (identifyHand_pair_some a b Hr) as [h Hid].
      exists [a; b], h. split; [reflexivity|].
      split; [eapply playable_in_sorted; exact El | exact Hid].
    + apply Pfive'. now left.
  - unfold getDumbBotPlay. cbv zeta. now apply playFirst_lightest.
Qed.

Lemma lead_always_plays_witness :
  exists v,
    getDumbBotPlay lowHand None false = Play [v] /\ In v lowHand
    /\ forall c, In c lowHand -> getCardWeight v <= getCardWeight c.
Proof.
  apply (proj2 (proj2 (lead_always_plays lowHand (Some [13; 13; 13]) None
                         (Some 13) ltac:(discriminate)))).
Defined.

(** X16. Following a reference, the rule-following bot answers only a
    Single: it plays the lightest card of its hand that beats the
    reference when there is one, and passes otherwise; on any other type
    it passes. *)
Theorem getDumbBotPlay_follow (hand : list Card) (lastPlayed : Hand) :
  (type lastPlayed <> Single ->
   getDumbBotPlay hand (Some lastPlayed) false = Pass)
  /\ (type lastPlayed = Single ->
      (forall c, In c hand -> getCardWeight c <= strength lastPlayed) ->
      getDumbBotPlay hand (Some lastPlayed) false = Pass)
  /\ (type lastPlayed = Single ->
      forall c0, In c0 hand -> strength lastPlayed < getCardWeight c0 ->
      exists v,
        getDumbBotPlay hand (Some lastPlayed) false = Play [v]
        /\ In v hand /\ strength lastPlayed < getCardWeight v
        /\ forall c, In c hand -> strength lastPlayed < getCardWeight c ->
                     getCardWeight v <= getCardWeight c).
Proof.
  unfold getDumbBotPlay. cbv zeta. split; [|split].
  - intros Hty. destruct (type lastPlayed); try reflexivity. contradiction.
  - intros -> Hall. rewrite find_filter_head.
    destruct (filter _ (sortCards hand)) as [|v vs] eqn:E; [reflexivity|].
    destruct (lightest_passing hand _ v vs E) as (Hv & Hw & _).
    apply Z.ltb_lt in Hw. specialize (Hall v Hv). lia.
  - intros -> c0 Hc0 Hlt. rewrite find_filter_head.
    destruct (filter _ (sortCards hand)) as [|v vs] eqn:E.
    + exfalso.
      assert (Hin : In c0 (filter
                (fun c => strength lastPlayed <? getCardWeight c)
                (sortCards hand))).
      { apply filter_In. split; [now apply sorted_In | now apply Z.ltb_lt]. }
      rewrite E in Hin. contradiction.
    + destruct (lightest_passing hand _ v vs E) as (Hv & Hw & Hmin).
      exists v. split; [reflexivity|]. split; [exact Hv|].
      split; [now apply Z.ltb_lt|].
      intros c Hc Hc'. apply Hmin; [exact Hc | now apply Z.ltb_lt].
Qed.

Lemma getDumbBotPlay_follow_witness :
  getDumbBotPlay handWithTwos (Some handPairOfAces) false = Pass
  /\ getDumbBotPlay lowHand (Some handSingleAce) false = Pass
  /\ exists v,
       getDumbBotPlay handWithTwos (Some handSingleAce) false = Play [v]
       /\ In v handWithTwos /\ strength handSingleAce < getCardWeight v
       /\ forall c, In c handWithTwos ->
                    strength handSingleAce < getCardWeight c ->
                    getCardWeight v <= getCardWeight c.
Proof.
  split; [|split].
  - apply (proj1 (getDumbBotPlay_follow handWithTwos handPairOfAces)).
    discriminate.
  - apply (proj1 (proj2 (getDumbBotPlay_follow lowHand handSingleAce)));
      [reflexivity|].
    intros c Hc. simpl in Hc.
    repeat (destruct Hc as [<- | Hc]; [apply Z.leb_le; reflexivity|]).
    contradiction.
  - apply (proj2 (proj2 (getDumbBotPlay_follow handWithTwos handSingleAce))
             eq_refl (mkCard R2 Spades)); [simpl; auto 10 | reflexivity].
Defined.

(** X17. When following a classified reference hand (not on the first
    turn), whatever [findValidHand] returns is a legal move, and it
    neither throws nor returns [[undefined]]. *)
Theorem findValidHand_follow_legal
  (hand refCards : list Card) (prevHand : Hand)
  (Href : identifyHand refCards = Some prevHand) :
  (forall m, findValidHand hand (Some prevHand) false = Play m ->
             legalMove hand prevHand m)
  /\ findValidHand hand (Some prevHand) false <> Throw
  /\ findValidHand hand (Some prevHand) false <> PlayUndefined.
Proof.
  pose (T := fun r : BotPlay =>
          (forall m, r = Play m -> legalMove hand prevHand m)
          /\ r <> Throw /\ r <> PlayUndefined).
  change (T (findValidHand hand (Some prevHand) false)).
  assert (Tplay : forall x, legalMove hand prevHand x -> T (Play x)).
  { intros x Hx. split; [|split]; try discriminate. now intros m [= <-]. }
  assert (Tpass : T Pass) by (split; [|split]; discriminate).
  unfold findValidHand. cbv zeta.
  set (fives := findFiveCardHands hand).
  assert (Hfives : forall f, In f fives -> playable f hand)
    by (intros f; apply findFiveCardHands_playable).
  assert (Hfive :
    T (if (List.length (Types.cards prevHand) =? 5)%nat then
         match find (fun f => match identifyHand f with
                              | Some h => compareHands h prevHand
                              | None => false
                              end) fives with
         | Some f => Play f
         | None => Pass
         end
       else Pass)).
  { destruct (_ =? 5)%nat; [|exact Tpass].
    destruct (find _ fives) as [f|] eqn:E; [|exact Tpass].
    apply find_some in E. destruct E as [Hf Hc].
    destruct (identifyHand f) as [h|] eqn:Hid; [|discriminate].
    apply Tplay. split; [now apply Hfives | now exists h]. }
  assert (Hbomb : isBomb (type prevHand) = false ->
                  forall b bs, bombsOf fives = b :: bs ->
                               legalMove hand prevHand b).
  { intros Hnb b bs E. apply (bomb_legal hand prevHand fives);
      [exact Hfives | exact Hnb | rewrite E; now left]. }
  destruct (type prevHand) eqn:Hty; try exact Hfive.
  - rewrite find_filter_head.
    destruct (filter _ (sortCards hand)) as [|v vs] eqn:Ev; cbn [hd_error].
    + destruct (bombsOf fives) as [|b bs] eqn:E; [exact Tpass|].
      apply Tplay. eapply Hbomb; reflexivity.
    + destruct (lightest_passing hand _ v vs Ev) as (Hv & Hw & _).
      apply Tplay. eapply single_legal; eassumption.
  - destruct (firstPair _ (sortCards hand)) as [p|] eqn:Ep.
    + apply firstPair_spec in Ep.
      destruct Ep as (l1 & a & b & l2 & El & -> & _ & Hacc).
      destruct (identifyHand [a; b]) as [h|] eqn:Hid; [|discriminate].
      apply Tplay. split; [eapply playable_in_sorted; exact El|].
      now exists h.
    + destruct (bombsOf fives) as [|b bs] eqn:E; [exact Hfive|].
      apply Tplay. eapply Hbomb; reflexivity.
Qed.

Lemma findValidHand_follow_legal_witness :
  legalMove handWithKings handPairOfNines [mkCard RK Hearts; mkCard RK Spades].
Proof.
  apply (proj1 (findValidHand_follow_legal handWithKings pairOfNines
                  handPairOfNines eq_refl)).
  reflexivity.
Defined.

(** ** The look-ahead bot *)

Lemma getAllLegalMoves_sound (hand : list Card) (last : option Hand)
  (m : CardCombination) :
  In m (getAllLegalMoves hand (evaluateHand hand) last) ->
  soundCombination hand m
  /\ (forall ref, last = Some ref -> canBeat (Evaluate.hand m) ref = true).
Proof.
  destruct last as [ref|]; cbn [getAllLegalMoves]; intros Hm.
  - apply filter_In in Hm. destruct Hm as [Hm Hbeat].
    split; [now apply evaluateHand_sound|].
    now intros ref' [= <-].
  - split; [|discriminate].
    apply evaluateHand_sound. apply in_or_app. now right.
Qed.

Lemma chooseBestMove_from_candidates (hand : list Card) (ev : HandEvaluation)
  (context : Context) (cs : list Card) :
  chooseBestMove hand ev context = Some cs ->
  exists m, In m (getAllLegalMoves hand ev (lastPlayedHand context))
            /\ cs = Evaluate.cards m.
Proof.
  unfold chooseBestMove.
  destruct (getAllLegalMoves hand ev (lastPlayedHand context)) as [|m0 ms];
    [discriminate|].
  set (scored := map _ (m0 :: ms)).
  destruct (sort_by _ scored) as [|best rest] eqn:E; [discriminate|].
  intros [= <-].
  assert (Hb : In best (sort_by (fun a b => score_ltb (snd a) (snd b)) scored))
    by (rewrite E; now left).
  apply sort_by_In in Hb. subst scored. apply in_map_iff in Hb.
  destruct Hb as (m & <- & Hm). exists m. split; [exact Hm | reflexivity].
Qed.

(** X18. The look-ahead bot, given the evaluation of its hand, returns
    [null] exactly when it has no candidate move; otherwise it returns the
    cards of a candidate: playable from the hand, classified by
    [identifyHand], and, when it follows a classified reference hand,
    beating that hand under [compareHands]. *)
Theorem chooseBestMove_sound (hand : list Card) (context : Context) :
  (chooseBestMove hand (evaluateHand hand) context = None <->
   getAllLegalMoves hand (evaluateHand hand) (lastPlayedHand context) = [])
  /\ (forall cs,
        chooseBestMove hand (evaluateHand hand) context = Some cs ->
        playable cs hand
        /\ exists h,
             identifyHand cs = Some h
             /\ forall ref refCards,
                  lastPlayedHand context = Some ref ->
                  identifyHand refCards = Some ref ->
                  compareHands h ref = true).
Proof.
  split.
  - unfold chooseBestMove.
    destruct (getAllLegalMoves _ _ _) as [|m0 ms] eqn:E; [tauto|].
    set (scored := map _ (m0 :: ms)).
    destruct (sort_by _ scored) as [|best rest] eqn:Es.
    + apply sort_by_nil_inv in Es. discriminate.
    + split; discriminate.
  - intros cs Hcs.
    apply chooseBestMove_from_candidates in Hcs. destruct Hcs as (m & Hm & ->).
    apply getAllLegalMoves_sound in Hm. destruct Hm as [[Hplay Hid] Hbeat].
    split; [exact Hplay|]. exists (Evaluate.hand m). split; [exact Hid|].
    intros ref refCards Hlast Href.
    eapply canBeat_compareHands; [exact Hid | exact Href | now apply Hbeat].
Qed.

Lemma chooseBestMove_sound_witness :
  playable [mkCard R2 Hearts; mkCard R2 Spades] handWithKings.
Proof.
  apply (proj2 (chooseBestMove_sound handWithKings
                  {| myHandSize := 7; opponentsHandSizes := [13; 13; 13];
                     lastPlayedHand := Some handPairOfNines;
                     consecutivePasses := 0 |})
           [mkCard R2 Hearts; mkCard R2 Spades]).
  reflexivity.
Defined.

(** ** Removing played cards *)

Lemma NoDup_app_apart {A : Type} (l1 l2 : list A) (x : A) :
  NoDup (l1 ++ l2) -> In x l1 -> In x l2 -> False.
Proof.
  induction l1 as [|a l1 IH]; simpl; intros Hnd H1 H2; [contradiction|].
  inversion Hnd as [|? ? Hnin Hnd']; subst.
  destruct H1 as [-> | H1]; [|now apply IH].
  apply Hnin, in_or_app. now right.
Qed.

(** X19. [removeCards] keeps, in order, exactly the cards whose id is not
    among the ids of the cards played.  When the ids of the hand are
    pairwise different and the cards played come from the hand, the cards
    played and the cards kept together are the hand again, so the hand
    shrinks by the number of cards played. *)
Theorem removeCards_remaining (all used : list Card) :
  (forall c, In c (removeCards all used) <->
             In c all /\ ~ In (id c) (map id used))
  /\ (NoDup (map id all) -> playable used all ->
      Permutation (used ++ removeCards all used) all
      /\ List.length (removeCards all used)
         = (List.length all - List.length used)%nat).
Proof.
  split.
  - intros c. unfold removeCards. rewrite filter_In, negb_true_iff.
    rewrite <- not_true_iff_false, hasId_In. tauto.
  - intros Hnd [rest Hperm].
    assert (Hrem : Permutation (removeCards all used) rest).
    { unfold removeCards.
      rewrite <- (filter_perm _ _ _ Hperm), filter_app.
      assert (Hnd' : NoDup (map id (used ++ rest))).
      { eapply Permutation_NoDup; [|exact Hnd].
        apply Permutation_map, Permutation_sym, Hperm. }
      rewrite map_app in Hnd'.
      replace (filter _ used) with (@nil Card).
      - simpl. rewrite forallb_filter_id; [reflexivity|].
        apply forallb_forall. intros c Hc. apply negb_true_iff.
        apply not_true_iff_false. rewrite hasId_In. intros Hin.
        apply (NoDup_app_apart _ _ (id c) Hnd' Hin). now apply in_map.
      - symmetry.
        assert (Hall : forall l, incl l used ->
                  filter (fun c => negb (hasId (map id used) (id c))) l = []).
        { induction l as [|c l IH]; intros Hl; [reflexivity|]. simpl.
          replace (hasId (map id used) (id c)) with true.
          - apply IH. intros x Hx. apply Hl. now right.
          - symmetry. apply hasId_In, in_map, Hl. now left. }
        apply Hall, incl_refl. }
    split.
    + rewrite Hrem. exact Hperm.
    + rewrite (Permutation_length Hrem), <- (Permutation_length Hperm).
      rewrite length_app. lia.
Qed.

Lemma removeCards_remaining_witness :
  Permutation
    ([mkCard RK Hearts; mkCard RK Spades]
     ++ removeCards handWithKings [mkCard RK Hearts; mkCard RK Spades])
    handWithKings
  /\ List.length (removeCards handWithKings
                    [mkCard RK Hearts; mkCard RK Spades])
     = (List.length handWithKings - 2)%nat.
Proof.
  apply (proj2 (removeCards_remaining handWithKings
                  [mkCard RK Hearts; mkCard RK Spades])).
  - apply (distinctb_NoDup String.eqb); [apply String.eqb_eq | reflexivity].
  - apply (playable_adjacent (mkCard RK Hearts) (mkCard RK Spades)
             [mkCard R3 Clubs; mkCard R4 Diamonds]
             [mkCard R9 Clubs; mkCard R2 Hearts; mkCard R2 Spades]).
Defined.

(** ** No pair is missed *)

Lemma getAllPairs_cons (a : Card) (l : list Card) :
  getAllPairs l <> [] -> getAllPairs (a :: l) <> [].
Proof.
  destruct l as [|b l]; [intros H; now contradiction H|].
  intros H. cbn [getAllPairs].
  destruct (Rank_eqb (rank a) (rank b)); [discriminate | exact H].
Qed.

Lemma countRank_pos (r : Rank) (l : list Card) :
  (1 <= countRank r l)%nat -> exists x, In x l /\ rank x = r.
Proof.
  unfold countRank. intros H.
  destruct (filter _ l) as [|x xs] eqn:E; [simpl in H; lia|].
  assert (Hx : In x (filter (fun c => Rank_eqb (rank c) r) l))
    by (rewrite E; now left).
  apply filter_In in Hx. destruct Hx as [Hx Hr]. apply Rank_eqb_eq in Hr.
  now exists x.
Qed.

Lemma sorted_pair_found (r : Rank) (l : list Card) :
  Sorted weight_le l -> (2 <= countRank r l)%nat -> getAllPairs l <> [].
Proof.
  intros Hs. apply weight_sorted_strong in Hs.
  induction Hs as [|a l Hs IH Ha]; intros Hc.
  - unfold countRank in Hc. simpl in Hc. lia.
  - unfold countRank in Hc. cbn [filter] in Hc.
    destruct (Rank_eqb (rank a) r) eqn:Ea.
    + apply Rank_eqb_eq in Ea. cbn [List.length] in Hc.
      destruct (countRank_pos r l ltac:(unfold countRank; lia))
        as (x & Hx & Hrx).
      destruct l as [|b l]; [contradiction|]. cbn [getAllPairs].
      replace (Rank_eqb (rank a) (rank b)) with true; [discriminate|].
      symmetry. apply Rank_eqb_eq, RankOrder_inj.
      rewrite Forall_forall in Ha.
      pose proof (weight_le_rank a b (Ha b ltac:(now left))) as Hab.
      assert (Hbx : RankOrder (rank b) <= RankOrder (rank x)).
      { destruct Hx as [<- | Hx]; [lia|].
        inversion Hs as [|? ? _ Hb]; subst. rewrite Forall_forall in Hb.
        apply weight_le_rank. now apply Hb. }
      rewrite Hrx, <- Ea in Hbx. lia.
    + apply getAllPairs_cons, IH. exact Hc.
Qed.

Lemma adjacentPairs_getAllPairs (l : list Card) :
  map Evaluate.cards (adjacentPairs l) = getAllPairs l.
Proof.
  induction l as [|a l IH]; [reflexivity|].
  destruct l as [|b l]; [reflexivity|].
  change (adjacentPairs (a :: b :: l))
    with (if Rank_eqb (rank a) (rank b) then
            match identifyHand [a; b] with
            | Some h =>
                {| Evaluate.cards := [a; b]; hand := h;
                   priority := strength h; category := pair |}
                  :: adjacentPairs (b :: l)
            | None => adjacentPairs (b :: l)
            end
          else adjacentPairs (b :: l)).
  change (getAllPairs (a :: b :: l))
    with (if Rank_eqb (rank a) (rank b)
          then [a; b] :: getAllPairs (b :: l)
          else getAllPairs (b :: l)).
  destruct (Rank_eqb (rank a) (rank b)) eqn:E; [|exact IH].
  apply Rank_eqb_eq in E.
  destruct (identifyHand_pair_some a b E) as [h ->].
  rewrite map_cons, IH. reflexivity.
Qed.

(** X20. The pair enumerators miss no pair: the adjacent pairs of the
    sorted hand found by [getAllPairs], and the [pairs] of an evaluation
    (the same pairs, reordered by priority), are non-empty exactly when two
    cards of the hand share a rank. *)
Theorem pairs_found_iff (hand : list Card) :
  ((exists r, (2 <= countRank r hand)%nat) <->
   getAllPairs (sortCards hand) <> [])
  /\ Permutation (map Evaluate.cards (pairs (evaluateHand hand)))
       (getAllPairs (sortCards hand))
  /\ ((exists r, (2 <= countRank r hand)%nat) <->
      pairs (evaluateHand hand) <> []).
Proof.
  assert (H1 : (exists r, (2 <= countRank r hand)%nat) <->
               getAllPairs (sortCards hand) <> []).
  { split.
    - intros [r Hr]. apply (sorted_pair_found r); [apply sortCards_sorted|].
      now rewrite <- (countRank_perm r _ _ (sortCards_perm hand)).
    - intros Hne. destruct (getAllPairs (sortCards hand)) as [|p ps] eqn:E;
        [now contradiction Hne|].
      assert (Hp : In p (getAllPairs (sortCards hand)))
        by (rewrite E; now left).
      pose proof (getAllPairs_rank _ _ Hp) as (a & b & -> & Hr).
      apply getAllPairs_In in Hp.
      destruct Hp as (l1 & a' & b' & l2 & El & [= <- <-]).
      exists (rank a).
      rewrite (countRank_perm _ _ _ (sortCards_perm hand)), El.
      rewrite countRank_app. unfold countRank at 2. cbn [filter].
      rewrite <- Hr, Rank_eqb_refl. simpl. lia. }
  assert (H2 : Permutation (map Evaluate.cards (pairs (evaluateHand hand)))
                 (getAllPairs (sortCards hand))).
  { cbn [evaluateHand pairs]. unfold findAllPairs, sortByPriority.
    rewrite <- adjacentPairs_getAllPairs.
    apply Permutation_map, Permutation_sym, sort_by_perm. }
  split; [exact H1|]. split; [exact H2|].
  rewrite H1. split; intros H E.
  - rewrite E in H2. apply Permutation_nil in H2. contradiction.
  - rewrite E in H2. apply Permutation_sym, Permutation_nil in H2.
    apply map_eq_nil in H2. contradiction.
Qed.

Lemma pairs_found_iff_witness :
  getAllPairs (sortCards handWithTwos) <> []
  /\ pairs (evaluateHand handWithTwos) <> [].
Proof.
  assert (H : exists r, (2 <= countRank r handWithTwos)%nat)
    by (exists R2; cbv; lia).
  split.
  - apply (proj1 (proj1 (pairs_found_iff handWithTwos)) H).
  - apply (proj1 (proj2 (proj2 (pairs_found_iff handWithTwos))) H).
Defined.

(** ** Which five cards are a straight, a four of a kind, a full house *)

Lemma Suit_eqb_eq (a b : Suit) : Suit_eqb a b = true <-> a = b.
Proof. destruct a, b; simpl; split; congruence. Qed.

Lemma consecutive_window (r0 r1 r2 r3 r4 : Rank) :
  consecutive (map RankOrder [r0; r1; r2; r3; r4]) = true ->
  In [r0; r1; r2; r3; r4] sortedStraightRanks.
Proof.
  intros H.
  destruct r0; destruct r1; simpl in H; try discriminate H;
    destruct r2; simpl in H; try discriminate H;
    destruct r3; simpl in H; try discriminate H;
    destruct r4; simpl in H; try discriminate H;
    simpl; auto 20.
Qed.

Lemma StraightShape_ranks (s0 s1 s2 s3 s4 : Card) (s : Z) :
  StraightShape s0 s1 s2 s3 s4 s ->
  In (map rank [s0; s1; s2; s3; s4]) sortedStraightRanks.
Proof.
  intros [H | H | H].
  - rewrite H. simpl. auto 20.
  - rewrite H. simpl. auto 20.
  - apply consecutive_window. exact H.
Qed.

Lemma identifyFive_flush (s0 s1 s2 s3 s4 : Card) (h : Hand) :
  identifyFive s0 s1 s2 s3 s4 = Some h ->
  type h = Straight \/ type h = StraightFlush ->
  (type h = StraightFlush <->
   forallb (fun c => Suit_eqb (suit c) (suit s0)) [s0; s1; s2; s3; s4] = true).
Proof.
  unfold identifyFive. cbv zeta.
  destruct (forallb _ [s0; s1; s2; s3; s4]) eqn:Ef;
    repeat match goal with
      | |- context [if ?b then _ else _] => destruct b
      | |- context [match find ?f ?l with _ => _ end] => destruct (find f l)
      end;
    intros [= <-]; cbn [type]; intros [H | H]; try discriminate H;
    split; congruence.
Qed.

Lemma same_suit_forallb (cs sorted : list Card) (s0 : Card) :
  Permutation cs sorted -> In s0 sorted ->
  (forallb (fun c => Suit_eqb (suit c) (suit s0)) sorted = true <->
   forall a b, In a cs -> In b cs -> suit a = suit b).
Proof.
  intros Hp H0. rewrite forallb_forall. split.
  - intros H a b Ha Hb.
    apply (Permutation_in _ Hp) in Ha, Hb.
    apply H, Suit_eqb_eq in Ha. apply H, Suit_eqb_eq in Hb. congruence.
  - intros H c Hc. apply Suit_eqb_eq.
    apply Permutation_sym in Hp.
    apply H; eapply Permutation_in; eauto.
Qed.

(** X21. Five cards are a straight exactly when their ranks, sorted by
    weight, are one of eleven lists: the nine runs from 3-4-5-6-7 up to
    J-Q-K-A-2, and 3-4-5-A-2 and 3-4-5-6-2 (A-2-3-4-5 and 2-3-4-5-6 once
    sorted).  Such a group is a StraightFlush exactly when all its cards
    have one suit, and a Straight otherwise. *)
Theorem identifyHand_straight_iff (cs : list Card)
  (Hlen : List.length cs = 5%nat) :
  (In (map rank (sortCards cs)) sortedStraightRanks <->
   exists h, identifyHand cs = Some h
             /\ (type h = Straight \/ type h = StraightFlush))
  /\ (forall h, identifyHand cs = Some h ->
        type h = Straight \/ type h = StraightFlush ->
        (type h = StraightFlush <->
         forall a b, In a cs -> In b cs -> suit a = suit b)).
Proof.
  destruct (sortCards_five cs Hlen)
    as (s0 & s1 & s2 & s3 & s4 & Hs & H01 & H12 & H23 & H34).
  rewrite (identifyHand_five cs _ _ _ _ _ Hs), Hs.
  split; [split|].
  - apply identifyFive_sortedStraight.
  - intros (h & Hid & Hty).
    eapply StraightShape_ranks, identifyFive_straight; eauto.
  - intros h Hid Hty.
    rewrite (identifyFive_flush _ _ _ _ _ h Hid Hty).
    apply same_suit_forallb; [|now left].
    rewrite <- Hs. apply sortCards_perm.
Qed.

Lemma identifyHand_straight_iff_witness :
  (exists h, identifyHand straightJQKA2 = Some h
             /\ (type h = Straight \/ type h = StraightFlush))
  /\ (type handStraightFlush = StraightFlush <->
      forall a b, In a straightFlush34567 -> In b straightFlush34567 ->
                  suit a = suit b).
Proof.
  split.
  - apply (proj1 (proj1 (identifyHand_straight_iff straightJQKA2 eq_refl))).
    simpl. auto 20.
  - apply (proj2 (identifyHand_straight_iff straightFlush34567 eq_refl)
             handStraightFlush); [reflexivity | now right].
Defined.

Lemma identifyFive_sets (s0 s1 s2 s3 s4 : Card) (h : Hand) :
  RankOrder (rank s0) <= RankOrder (rank s1) ->
  RankOrder (rank s1) <= RankOrder (rank s2) ->
  RankOrder (rank s2) <= RankOrder (rank s3) ->
  RankOrder (rank s3) <= RankOrder (rank s4) ->
  identifyFive s0 s1 s2 s3 s4 = Some h ->
  (type h = FourOfAKind ->
   (4 <= countRank (rank s2) [s0; s1; s2; s3; s4])%nat
   /\ strength h = RankOrder (rank s2))
  /\ (type h = FullHouse ->
      exists p, countRank (rank s2) [s0; s1; s2; s3; s4] = 3%nat
                /\ countRank p [s0; s1; s2; s3; s4] = 2%nat
                /\ strength h = RankOrder (rank s2)).
Proof.
  intros H01 H12 H23 H34.
  unfold identifyFive. cbv zeta.
  set (c4 := Rank_eqb (rank s0) (rank s3) || Rank_eqb (rank s1) (rank s4)).
  set (cf := (Rank_eqb (rank s0) (rank s2) && Rank_eqb (rank s3) (rank s4))
             || (Rank_eqb (rank s0) (rank s1) && Rank_eqb (rank s2) (rank s4))).
  destruct c4 eqn:E4; destruct cf eqn:Ef; subst c4 cf;
    repeat match goal with
      | |- context [if ?b then _ else _] => destruct b
      | |- context [match find ?f ?l with _ => _ end] => destruct (find f l)
      end;
    intros [= <-]; cbn [type strength]; (split; intros Ht; try discriminate Ht);
    clear Ht.
  all: try (apply orb_true_iff in E4;
            split; [|reflexivity];
            unfold countRank; cbn [filter]; rewrite Rank_eqb_refl;
            destruct E4 as [E | E]; apply Rank_eqb_eq in E;
            [ assert (E0 : rank s0 = rank s2) by (apply RankOrder_inj; rewrite E in *; lia);
              assert (E1 : rank s1 = rank s2) by (apply RankOrder_inj; rewrite E in *; lia);
              assert (E3 : rank s3 = rank s2) by (apply RankOrder_inj; rewrite E in *; lia);
              rewrite E0, E1, E3, !Rank_eqb_refl;
              destruct (Rank_eqb (rank s4) (rank s2)); simpl; lia
            | assert (E1 : rank s1 = rank s2) by (apply RankOrder_inj; rewrite E in *; lia);
              assert (E3 : rank s3 = rank s2) by (apply RankOrder_inj; rewrite E in *; lia);
              assert (E4' : rank s4 = rank s2) by (apply RankOrder_inj; rewrite E in *; lia);
              rewrite E1, E3, E4', !Rank_eqb_refl;
              destruct (Rank_eqb (rank s0) (rank s2)); simpl; lia ]).
  all: apply orb_false_iff in E4; destruct E4 as [N03 N14];
    apply Rank_eqb_neq in N03, N14;
    apply orb_true_iff in Ef;
    destruct Ef as [E | E]; apply andb_true_iff in E; destruct E as [Ea Eb];
    apply Rank_eqb_eq in Ea, Eb.
  all: [> exists (rank s4) | exists (rank s0) ].
  all: unfold countRank; cbn [filter]; rewrite ?Rank_eqb_refl.
  1: assert (E1 : rank s1 = rank s2)
         by (apply RankOrder_inj; rewrite Ea in *; lia);
       assert (N : rank s2 <> rank s4) by congruence;
       assert (N' : rank s4 <> rank s2) by congruence;
       rewrite Ea, E1, Eb, !Rank_eqb_refl,
         !(proj2 (Rank_eqb_neq _ _) N), !(proj2 (Rank_eqb_neq _ _) N');
       repeat split.
  all: assert (E3 : rank s3 = rank s2)
         by (apply RankOrder_inj; rewrite Eb in *; lia);
       assert (N : rank s2 <> rank s0) by congruence;
       assert (N' : rank s0 <> rank s2) by congruence;
       rewrite <- Ea, E3, <- Eb, !Rank_eqb_refl,
         !(proj2 (Rank_eqb_neq _ _) N), !(proj2 (Rank_eqb_neq _ _) N');
       repeat split.
Qed.

Lemma identifyFive_five_equal (s0 s1 s2 s3 s4 : Card) (q : Rank) :
  rank s0 = q -> rank s1 = q -> rank s2 = q -> rank s3 = q -> rank s4 = q ->
  exists h, identifyFive s0 s1 s2 s3 s4 = Some h
            /\ type h = FourOfAKind /\ strength h = RankOrder q.
Proof.
  destruct s0 as [u0 r0 i0], s1 as [u1 r1 i1], s2 as [u2 r2 i2],
           s3 as [u3 r3 i3], s4 as [u4 r4 i4]; simpl.
  intros -> -> -> -> ->.
  destruct q; identifyFive_compute.
Qed.

Lemma five_card_types (cs : list Card) (h : Hand) :
  List.length cs = 5%nat -> identifyHand cs = Some h ->
  type h = Straight \/ type h = StraightFlush
  \/ type h = FourOfAKind \/ type h = FullHouse.
Proof.
  intros Hlen Hid. apply identifyHand_cards in Hid.
  destruct Hid as (_ & Hl & _). rewrite Hlen in Hl.
  destruct (type h); simpl in Hl; try discriminate Hl; auto.
Qed.

(** X22. Among five cards, a FourOfAKind of strength [RankOrder q] is
    found exactly when at least four of them have rank [q], and a FullHouse
    of strength [RankOrder t] exactly when three have rank [t] and the two
    others share a rank.  Five cards are invalid exactly when they are
    none of these and not a straight. *)
Theorem identifyHand_sets_iff (cs : list Card)
  (Hlen : List.length cs = 5%nat) :
  (forall q, (4 <= countRank q cs)%nat <->
     exists h, identifyHand cs = Some h
               /\ type h = FourOfAKind /\ strength h = RankOrder q)
  /\ (forall t, (exists p, countRank t cs = 3%nat /\ countRank p cs = 2%nat) <->
        exists h, identifyHand cs = Some h
                  /\ type h = FullHouse /\ strength h = RankOrder t)
  /\ (identifyHand cs = None <->
      ~ In (map rank (sortCards cs)) sortedStraightRanks
      /\ (forall q, (countRank q cs < 4)%nat)
      /\ (forall t p, countRank t cs = 3%nat -> countRank p cs <> 2%nat)).
Proof.
  destruct (sortCards_five cs Hlen)
    as (s0 & s1 & s2 & s3 & s4 & Hs & H01 & H12 & H23 & H34).
  pose proof (identifyHand_five cs _ _ _ _ _ Hs) as Hfive.
  assert (Hcount : forall r, countRank r cs = countRank r [s0; s1; s2; s3; s4]).
  { intros r. rewrite <- Hs. apply countRank_perm, sortCards_perm. }
  assert (Hquad : forall q, (4 <= countRank q cs)%nat <->
            exists h, identifyHand cs = Some h
                      /\ type h = FourOfAKind /\ strength h = RankOrder q).
  { intros q. split.
    - intros Hq.
      assert (Hle : (countRank q cs <= 5)%nat).
      { rewrite <- Hlen. unfold countRank. apply filter_length_le. }
      destruct (Nat.eq_dec (countRank q cs) 4) as [E | E].
      + now apply (proj1 (identifyHand_by_counts cs Hlen)).
      + assert (Hall : forall x, In x [s0; s1; s2; s3; s4] ->
                                 Rank_eqb (rank x) q = true).
        { apply filter_length_all. fold (countRank q [s0; s1; s2; s3; s4]).
          rewrite <- Hcount. simpl. lia. }
        rewrite Hfive.
        apply identifyFive_five_equal; apply Rank_eqb_eq, Hall; simpl; auto 10.
    - intros (h & Hid & Hty & Hst). rewrite Hfive in Hid.
      destruct (identifyFive_sets _ _ _ _ _ h H01 H12 H23 H34 Hid) as [H4 _].
      destruct (H4 Hty) as [Hc Hs2].
      assert (q = rank s2) by (apply RankOrder_inj; congruence). subst q.
      now rewrite Hcount. }
  assert (Hfull : forall t,
            (exists p, countRank t cs = 3%nat /\ countRank p cs = 2%nat) <->
            exists h, identifyHand cs = Some h
                      /\ type h = FullHouse /\ strength h = RankOrder t).
  { intros t. split.
    - intros (p & Ht & Hp).
      now apply (proj2 (identifyHand_by_counts cs Hlen) t p).
    - intros (h & Hid & Hty & Hst). rewrite Hfive in Hid.
      destruct (identifyFive_sets _ _ _ _ _ h H01 H12 H23 H34 Hid) as [_ H3].
      destruct (H3 Hty) as (p & Hc3 & Hc2 & Hs2).
      assert (t = rank s2) by (apply RankOrder_inj; congruence). subst t.
      exists p. now rewrite !Hcount. }
  split; [exact Hquad|]. split; [exact Hfull|].
  split.
  - intros Hnone. split; [|split].
    + intros Hin. rewrite Hs in Hin.
      apply identifyFive_sortedStraight in Hin.
      destruct Hin as (h & Hid & _). congruence.
    + intros q. destruct (le_lt_dec 4 (countRank q cs)) as [Hq | Hq];
        [|exact Hq].
      apply Hquad in Hq. destruct Hq as (h & Hid & _). congruence.
    + intros t p Ht Hp.
      destruct (proj1 (Hfull t) (ex_intro _ p (conj Ht Hp))) as (h & Hid & _).
      congruence.
  - intros (Hns & Hnq & Hnf). rewrite Hfive.
    destruct (identifyFive s0 s1 s2 s3 s4) as [h|] eqn:Hid;
      [exfalso | reflexivity].
    destruct (five_card_types cs h Hlen Hfive) as [Ht | [Ht | [Ht | Ht]]].
    + apply Hns. rewrite Hs.
      eapply StraightShape_ranks, identifyFive_straight; eauto.
    + apply Hns. rewrite Hs.
      eapply StraightShape_ranks, identifyFive_straight; eauto.
    + destruct (identifyFive_sets _ _ _ _ _ h H01 H12 H23 H34 Hid) as [H4 _].
      destruct (H4 Ht) as [Hc _]. rewrite <- Hcount in Hc.
      specialize (Hnq (rank s2)). lia.
    + destruct (identifyFive_sets _ _ _ _ _ h H01 H12 H23 H34 Hid) as [_ H3].
      destruct (H3 Ht) as (p & Hc3 & Hc2 & _).
      rewrite <- Hcount in Hc3, Hc2. exact (Hnf _ _ Hc3 Hc2).
Qed.

Lemma identifyHand_sets_iff_witness :
  (exists h, identifyHand quadThrees = Some h
             /\ type h = FourOfAKind /\ strength h = RankOrder R3)
  /\ (exists p, countRank R7 sevensOverThrees = 3%nat
                /\ countRank p sevensOverThrees = 2%nat).
Proof.
  split.
  - apply (proj1 (proj1 (identifyHand_sets_iff quadThrees eq_refl) R3)).
    apply Nat.leb_le. reflexivity.
  - apply (proj2 (proj1 (proj2 (identifyHand_sets_iff sevensOverThrees eq_refl))
                    R7)).
    exists handFullHouse. repeat split.
Defined.

(** ** The enumerators miss no five-card hand *)

Lemma pickRanks_complete (l : list Card) (rs : list Rank) :
  (forall r, In r rs -> exists c, In c l /\ rank c = r) ->
  exists f, pickRanks l rs = Some f.
Proof.
  induction rs as [|r rs IH]; intros H; simpl; [now exists []|].
  destruct (find (fun x => Rank_eqb (rank x) r) l) as [c|] eqn:Hf.
  - destruct IH as [f ->]; [intros r' Hr'; apply H; now right|].
    now exists (c :: f).
  - destruct (H r (or_introl eq_refl)) as (c & Hc & Hr).
    pose proof (find_none _ _ Hf c Hc) as Hn. simpl in Hn.
    rewrite Hr, Rank_eqb_refl in Hn. discriminate Hn.
Qed.

Lemma Object_values_of (m : list (Rank * list Card)) (r : Rank)
  (g : list Card) :
  In (r, g) m -> In g (Object_values m).
Proof.
  intros H. unfold Object_values. apply in_map_iff. exists (r, g).
  split; [reflexivity|]. apply in_or_app.
  destruct (isIntegerKey r) eqn:E.
  - left. apply sort_by_In, filter_In. now split.
  - right. apply filter_In. split; [exact H|]. simpl. now rewrite E.
Qed.

Lemma group_present (l : list Card) (r : Rank) :
  (1 <= countRank r l)%nat ->
  In (filter (rankIs r) l) (Object_values (groupByRank l))
  /\ groupRank (filter (rankIs r) l) = Some r.
Proof.
  intros H. destruct (countRank_pos r l H) as (x & Hx & Hr).
  destruct (groupsOf_groupByRank l) as (_ & Hcards & Hall).
  specialize (Hall x Hx). rewrite Hr in Hall.
  apply in_map_iff in Hall. destruct Hall as ([r' g] & Hfst & Hin).
  simpl in Hfst. subst r'.
  destruct (Hcards r g Hin) as [Hg Hne]. subst g.
  split; [now apply (Object_values_of _ r)|].
  destruct (filter (rankIs r) l) as [|c g] eqn:E; [contradiction|].
  assert (Hc : In c (filter (rankIs r) l)) by (rewrite E; now left).
  apply filter_In in Hc. destruct Hc as [_ Hc]. apply Rank_eqb_eq in Hc.
  unfold groupRank. simpl. now rewrite Hc.
Qed.

Lemma countRank_firstn_group (r : Rank) (n : nat) (l : list Card) :
  (n <= countRank r l)%nat ->
  countRank r (firstn n (filter (rankIs r) l)) = n.
Proof.
  intros H. rewrite countRank_same.
  - apply firstn_length_le. exact H.
  - apply Forall_firstn_of, filter_rankIs_all.
Qed.

Lemma window_at (rs : list Rank) :
  In rs straightWindowRanks ->
  (exists i, In i (seq 0 9) /\ firstn 5 (skipn i allRanks) = rs)
  \/ rs = [RA; R2; R3; R4; R5] \/ rs = [R2; R3; R4; R5; R6].
Proof.
  intros H. simpl in H.
  destruct H as [<- | H]; [left; exists 0%nat; simpl; auto 20|].
  destruct H as [<- | H]; [left; exists 1%nat; simpl; auto 20|].
  destruct H as [<- | H]; [left; exists 2%nat; simpl; auto 20|].
  destruct H as [<- | H]; [left; exists 3%nat; simpl; auto 20|].
  destruct H as [<- | H]; [left; exists 4%nat; simpl; auto 20|].
  destruct H as [<- | H]; [left; exists 5%nat; simpl; auto 20|].
  destruct H as [<- | H]; [left; exists 6%nat; simpl; auto 20|].
  destruct H as [<- | H]; [left; exists 7%nat; simpl; auto 20|].
  destruct H as [<- | H]; [left; exists 8%nat; simpl; auto 20|].
  destruct H as [<- | [<- | []]]; auto.
Qed.

Lemma ranks_present (hand : list Card) (rs : list Rank) :
  (forall r, In r rs -> hasRankIn hand r = true) ->
  forall r, In r rs -> exists c, In c (sortCards hand) /\ rank c = r.
Proof.
  intros H r Hr. specialize (H r Hr). unfold hasRankIn in H.
  apply existsb_exists in H. destruct H as (c & Hc & E).
  apply Rank_eqb_eq in E. exists c. split; [now apply sorted_In | exact E].
Qed.

(** X23. [findFiveCardHands] misses nothing it looks for: it lists a
    straight for each of the eleven rank windows (3-4-5-6-7 up to
    J-Q-K-A-2, A-2-3-4-5 and 2-3-4-5-6) whose five ranks are all in the
    hand, a full house for every rank held three times with another rank
    held twice, and, for every rank held exactly four times, that quad with
    each card of another rank. *)
Theorem findFiveCardHands_complete (hand : list Card) :
  (forall rs, In rs straightWindowRanks ->
     (forall r, In r rs -> hasRankIn hand r = true) ->
     exists f, In f (findFiveCardHands hand) /\ map rank f = rs)
  /\ (forall t p, t <> p ->
        (3 <= countRank t hand)%nat -> (2 <= countRank p hand)%nat ->
        exists f, In f (findFiveCardHands hand)
                  /\ countRank t f = 3%nat /\ countRank p f = 2%nat)
  /\ (forall q c, countRank q hand = 4%nat -> In c hand -> rank c <> q ->
        exists f, In f (findFiveCardHands hand)
                  /\ countRank q f = 4%nat /\ In c f).
Proof.
  assert (Hcount : forall r, countRank r (sortCards hand) = countRank r hand).
  { intros r. symmetry. apply countRank_perm, sortCards_perm. }
  split; [|split].
  - intros rs Hrs Hall.
    destruct (pickRanks_complete (sortCards hand) rs
                (ranks_present hand rs Hall)) as [f Hf].
    exists f. split; [|now apply pickRanks_spec in Hf].
    unfold findFiveCardHands. cbv zeta. rewrite !in_app_iff.
    destruct (window_at rs Hrs) as [(i & Hi & <-) | [-> | ->]].
    + right. right. left. unfold straightWindows. apply in_flat_map.
      exists i. split; [exact Hi|]. rewrite Hf. now left.
    + right. right. right. left. rewrite Hf. now left.
    + right. right. right. right. rewrite Hf. now left.
  - intros t p Hne Ht Hp. rewrite <- Hcount in Ht, Hp.
    destruct (group_present (sortCards hand) t ltac:(lia)) as [Gt Rt].
    destruct (group_present (sortCards hand) p ltac:(lia)) as [Gp Rp].
    exists (firstn 3 (filter (rankIs t) (sortCards hand))
            ++ firstn 2 (filter (rankIs p) (sortCards hand))).
    split; [|split].
    + unfold findFiveCardHands. cbv zeta. rewrite !in_app_iff. left.
      apply in_flat_map. eexists. split.
      { apply filter_In. split; [exact Gt|]. now apply Nat.leb_le. }
      apply in_flat_map. eexists. split.
      { apply filter_In. split; [exact Gp|]. now apply Nat.leb_le. }
      unfold sameGroupRank. rewrite Rt, Rp.
      rewrite (proj2 (Rank_eqb_neq p t)) by congruence. now left.
    + rewrite countRank_app, countRank_firstn_group by exact Ht.
      rewrite (countRank_other t p) by
        (try exact Hne; apply Forall_firstn_of, filter_rankIs_all).
      lia.
    + rewrite countRank_app, (countRank_firstn_group p) by exact Hp.
      rewrite (countRank_other p t) by
        (try congruence; apply Forall_firstn_of, filter_rankIs_all).
      lia.
  - intros q c Hq Hc Hne. rewrite <- Hcount in Hq.
    destruct (group_present (sortCards hand) q ltac:(lia)) as [Gq Rq].
    exists (filter (rankIs q) (sortCards hand) ++ [c]).
    split; [|split].
    + unfold findFiveCardHands. cbv zeta. rewrite !in_app_iff. right. left.
      apply in_flat_map. eexists. split.
      { apply filter_In. split; [exact Gq|]. now apply Nat.eqb_eq. }
      apply in_flat_map. exists c. split; [now apply sorted_In|].
      rewrite Rq, (proj2 (Rank_eqb_neq (rank c) q)) by exact Hne. now left.
    + rewrite countRank_app, countRank_same by apply filter_rankIs_all.
      change (List.length (filter (rankIs q) (sortCards hand)))
        with (countRank q (sortCards hand)). rewrite Hq.
      unfold countRank. simpl.
      rewrite (proj2 (Rank_eqb_neq (rank c) q)) by exact Hne. reflexivity.
    + apply in_or_app. right. now left.
Qed.

Lemma findFiveCardHands_complete_witness :
  (exists f, In f (findFiveCardHands straight23456)
             /\ map rank f = [R2; R3; R4; R5; R6])
  /\ (exists f, In f (findFiveCardHands sevensOverThrees)
                /\ countRank R7 f = 3%nat /\ countRank R3 f = 2%nat)
  /\ (exists f, In f (findFiveCardHands handWithQuad)
                /\ countRank R3 f = 4%nat /\ In (mkCard R9 Clubs) f).
Proof.
  split; [|split].
  - apply (proj1 (findFiveCardHands_complete straight23456)).
    + simpl. auto 20.
    + intros r Hr. simpl in Hr.
      repeat (destruct Hr as [<- | Hr]; [reflexivity|]). contradiction.
  - apply (proj1 (proj2 (findFiveCardHands_complete sevensOverThrees))).
    + discriminate.
    + apply Nat.leb_le. reflexivity.
    + apply Nat.leb_le. reflexivity.
  - apply (proj2 (proj2 (findFiveCardHands_complete handWithQuad))).
    + reflexivity.
    + cbv. auto 20.
    + discriminate.
Defined.

(** ** What the evaluation finds, and the straight it does not look for *)

Lemma evaluateHand_fives (hand : list Card) (m : CardCombination) :
  In m (findAllFiveCardHands (sortCards hand)) <->
  In m (bombs (evaluateHand hand) ++ fiveCards (evaluateHand hand)).
Proof.
  cbn [evaluateHand bombs fiveCards]. rewrite in_app_iff, !filter_In.
  destruct (HandType_eqb (type (Evaluate.hand m)) FourOfAKind);
    destruct (HandType_eqb (type (Evaluate.hand m)) StraightFlush);
    simpl; intuition discriminate.
Qed.

Lemma findAllStraights_complete (l : list Card) (rs : list Rank) :
  In rs straightWindowRanks -> rs <> [R2; R3; R4; R5; R6] ->
  (forall r, In r rs -> exists c, In c l /\ rank c = r) ->
  exists f, In f (findAllStraights l) /\ map rank f = rs.
Proof.
  intros Hrs Hne Hall.
  destruct (pickRanks_complete l rs Hall) as [f Hf].
  exists f. split; [|now apply pickRanks_spec in Hf].
  unfold findAllStraights. apply in_or_app.
  destruct (window_at rs Hrs) as [(i & Hi & <-) | [-> | ->]].
  - left. apply in_flat_map. exists i. split; [exact Hi|].
    change RANK_ORDER with allRanks. rewrite Hf. now left.
  - right. rewrite Hf. now left.
  - now contradiction Hne.
Qed.

Lemma findAllStraights_window (l f : list Card) :
  In f (findAllStraights l) ->
  In (map rank f) straightWindowRanks /\ map rank f <> [R2; R3; R4; R5; R6].
Proof.
  unfold findAllStraights. intros H. apply in_app_or in H.
  destruct H as [H | H].
  - apply in_flat_map in H. destruct H as (i & Hi & H).
    destruct (pickRanks _ _) as [p|] eqn:Hp; [|contradiction].
    destruct H as [<- | []]. apply pickRanks_spec in Hp.
    destruct Hp as [-> _]. split; [now apply window_In|].
    simpl in Hi.
    repeat (destruct Hi as [<- | Hi]; [discriminate|]). contradiction.
  - apply optionToList_In in H. apply pickRanks_spec in H.
    destruct H as [-> _]. split; [simpl; auto 20 | discriminate].
Qed.

Lemma findAllFiveCardHands_origin (cs : list Card) (m : CardCombination) :
  In m (findAllFiveCardHands cs) ->
  type (Evaluate.hand m) = FourOfAKind
  \/ type (Evaluate.hand m) = FullHouse
  \/ In (Evaluate.cards m) (findAllStraights cs).
Proof.
  unfold findAllFiveCardHands. cbv zeta. unfold sortByPriority.
  rewrite sort_by_In. intros Hin.
  apply in_app_or in Hin. destruct Hin as [Hin | Hin];
    [|apply in_app_or in Hin; destruct Hin as [Hin | Hin]].
  - apply in_flat_map in Hin. destruct Hin as (q & Hq & Hin).
    apply in_flat_map in Hin. destruct Hin as (c & Hc & Hin).
    destruct (negb _); [|contradiction].
    destruct (identifyHand (q ++ [c])) as [h|]; [|contradiction].
    destruct (HandType_eqb (type h) FourOfAKind) eqn:E; [|contradiction].
    destruct Hin as [<- | []]. apply HandType_eqb_eq in E. now left.
  - apply in_flat_map in Hin. destruct Hin as (t & Ht & Hin).
    apply in_flat_map in Hin. destruct Hin as (p & Hp & Hin).
    destruct (negb _); [|contradiction].
    destruct (identifyHand (firstn 3 t ++ firstn 2 p)) as [h|];
      [|contradiction].
    destruct (HandType_eqb (type h) FullHouse) eqn:E; [|contradiction].
    destruct Hin as [<- | []]. apply HandType_eqb_eq in E. right. now left.
  - apply in_flat_map in Hin. destruct Hin as (s & Hs & Hin).
    destruct (identifyHand s) as [h|] eqn:Hid; [|contradiction].
    destruct Hin as [<- | []]. right. right. exact Hs.
Qed.

Lemma window_not_23456 (rs : list Rank) :
  In rs straightWindowRanks -> rs <> [R2; R3; R4; R5; R6] ->
  exists r, In r rs /\ ~ In r [R3; R4; R5; R6; R2].
Proof.
  intros H Hne. simpl in H.
  do 5 (destruct H as [<- | H];
        [exists R7; split; [simpl; auto 10 | simpl; intuition discriminate]|]).
  destruct H as [<- | H];
    [exists R8; split; [simpl; auto 10 | simpl; intuition discriminate]|].
  destruct H as [<- | H];
    [exists R9; split; [simpl; auto 10 | simpl; intuition discriminate]|].
  destruct H as [<- | H];
    [exists R10; split; [simpl; auto 10 | simpl; intuition discriminate]|].
  destruct H as [<- | H];
    [exists RJ; split; [simpl; auto 10 | simpl; intuition discriminate]|].
  destruct H as [<- | H];
    [exists RA; split; [simpl; auto 10 | simpl; intuition discriminate]|].
  destruct H as [<- | []]. now contradiction Hne.
Qed.

Lemma identifyHand_sortedStraight (cs : list Card) :
  List.length cs = 5%nat ->
  In (map rank (sortCards cs)) sortedStraightRanks ->
  exists h, identifyHand cs = Some h
            /\ (type h = Straight \/ type h = StraightFlush).
Proof.
  intros Hlen.
  destruct (sortCards_five cs Hlen) as (s0 & s1 & s2 & s3 & s4 & Hs & _).
  rewrite (identifyHand_five cs _ _ _ _ _ Hs), Hs.
  apply identifyFive_sortedStraight.
Qed.

(** X24. The evaluation lists a combination for each straight window other
    than 2-3-4-5-6 whose ranks are all in the hand, a FullHouse for every
    rank held three times with another held twice, and a bomb for every
    rank held exactly four times with each card of another rank.  It never
    lists a 2-3-4-5-6 straight, which [identifyHand] accepts. *)
Theorem evaluateHand_complete (hand : list Card) :
  let ev := evaluateHand hand in
  (forall rs, In rs straightWindowRanks -> rs <> [R2; R3; R4; R5; R6] ->
     (forall r, In r rs -> hasRankIn hand r = true) ->
     exists m, In m (bombs ev ++ fiveCards ev)
               /\ map rank (Evaluate.cards m) = rs)
  /\ (forall t p, t <> p ->
        (3 <= countRank t hand)%nat -> (2 <= countRank p hand)%nat ->
        exists m, In m (fiveCards ev)
                  /\ type (Evaluate.hand m) = FullHouse
                  /\ countRank t (Evaluate.cards m) = 3%nat
                  /\ countRank p (Evaluate.cards m) = 2%nat)
  /\ (forall q c, countRank q hand = 4%nat -> In c hand -> rank c <> q ->
        exists m, In m (bombs ev)
                  /\ type (Evaluate.hand m) = FourOfAKind
                  /\ countRank q (Evaluate.cards m) = 4%nat
                  /\ In c (Evaluate.cards m))
  /\ (forall m, In m (bombs ev ++ fiveCards ev) ->
        map rank (sortCards (Evaluate.cards m)) <> [R3; R4; R5; R6; R2]).
Proof.
  intros ev.
  assert (Hcount : forall r, countRank r (sortCards hand) = countRank r hand).
  { intros r. symmetry. apply countRank_perm, sortCards_perm. }
  split; [|split; [|split]].
  - intros rs Hrs Hne Hall.
    destruct (findAllStraights_complete (sortCards hand) rs Hrs Hne
                (ranks_present hand rs Hall)) as (f & Hf & Hr).
    assert (Hid : exists h, identifyHand f = Some h).
    { destruct (findAllStraights_window _ _ Hf) as [Hw _].
      unfold findAllStraights in Hf. apply in_app_or in Hf.
      destruct Hf as [Hf | Hf].
      - apply in_flat_map in Hf. destruct Hf as (i & Hi & Hf).
        destruct (pickRanks _ _) as [p|] eqn:Hp; [|contradiction].
        destruct Hf as [<- | []].
        destruct (pickRanks_identified _ _ _ Hp (window_In i Hi))
          as (h & Hh & _). now exists h.
      - apply optionToList_In in Hf.
        destruct (pickRanks_identified _ _ _ Hf) as (h & Hh & _);
          [simpl; auto 20 | now exists h]. }
    destruct Hid as [h Hid].
    eexists. split.
    + apply evaluateHand_fives. unfold findAllFiveCardHands. cbv zeta.
      unfold sortByPriority. rewrite sort_by_In, !in_app_iff.
      right. right. apply in_flat_map. exists f. split; [exact Hf|].
      rewrite Hid. left. reflexivity.
    + exact Hr.
  - intros t p Hne Ht Hp. rewrite <- Hcount in Ht, Hp.
    destruct (group_present (sortCards hand) t ltac:(lia)) as [Gt Rt].
    destruct (group_present (sortCards hand) p ltac:(lia)) as [Gp Rp].
    assert (Hs : sameGroupRank (filter (rankIs t) (sortCards hand))
                   (filter (rankIs p) (sortCards hand)) = false).
    { unfold sameGroupRank. rewrite Rt, Rp. now apply Rank_eqb_neq. }
    destruct (fullHouse_identified _ _ _ Gt Gp Ht Hp Hs) as (h & Hid & Hty).
    eexists. split; [|split; [|split]].
    + cbn [ev evaluateHand fiveCards]. apply filter_In. split.
      * unfold findAllFiveCardHands. cbv zeta.
        unfold sortByPriority. rewrite sort_by_In, !in_app_iff.
        right. left. apply in_flat_map. eexists. split.
        { apply filter_In. split; [exact Gt|]. now apply Nat.leb_le. }
        apply in_flat_map. eexists. split.
        { apply filter_In. split; [exact Gp|]. now apply Nat.leb_le. }
        rewrite Hs. cbn [negb]. cbv zeta. rewrite Hid, Hty. left. reflexivity.
      * cbn [Evaluate.hand]. now rewrite Hty.
    + exact Hty.
    + cbn [Evaluate.cards].
      rewrite countRank_app, countRank_firstn_group by exact Ht.
      rewrite (countRank_other t p) by
        (try exact Hne; apply Forall_firstn_of, filter_rankIs_all).
      lia.
    + cbn [Evaluate.cards].
      rewrite countRank_app, (countRank_firstn_group p) by exact Hp.
      rewrite (countRank_other p t) by
        (try congruence; apply Forall_firstn_of, filter_rankIs_all).
      lia.
  - intros q c Hq Hc Hne. rewrite <- Hcount in Hq.
    destruct (group_present (sortCards hand) q ltac:(lia)) as [Gq Rq].
    assert (Hk : match groupRank (filter (rankIs q) (sortCards hand)) with
                 | Some r => Rank_eqb (rank c) r
                 | None => false
                 end = false).
    { rewrite Rq. now apply Rank_eqb_neq. }
    destruct (fourOfAKind_identified _ _ c Gq Hq Hk) as (h & Hid & Hty).
    eexists. split; [|split; [|split]].
    + cbn [ev evaluateHand bombs]. apply filter_In. split.
      * unfold findAllFiveCardHands. cbv zeta.
        unfold sortByPriority. rewrite sort_by_In, !in_app_iff.
        left. apply in_flat_map. eexists. split.
        { apply filter_In. split; [exact Gq|]. now apply Nat.eqb_eq. }
        apply in_flat_map. exists c. split; [now apply sorted_In|].
        rewrite Hk. cbn [negb]. cbv zeta. rewrite Hid, Hty. left. reflexivity.
      * cbn [Evaluate.hand]. now rewrite Hty.
    + exact Hty.
    + cbn [Evaluate.cards].
      rewrite countRank_app, countRank_same by apply filter_rankIs_all.
      change (List.length (filter (rankIs q) (sortCards hand)))
        with (countRank q (sortCards hand)). rewrite Hq.
      unfold countRank. simpl.
      rewrite (proj2 (Rank_eqb_neq (rank c) q)) by exact Hne. reflexivity.
    + cbn [Evaluate.cards]. apply in_or_app. right. now left.
  - intros m Hm Hranks. apply evaluateHand_fives in Hm.
    pose proof (findAllFiveCardHands_sound _ _ Hm) as [_ Hid].
    assert (Hlen : List.length (Evaluate.cards m) = 5%nat).
    { rewrite <- (sortCards_length (Evaluate.cards m)),
        <- (length_map rank), Hranks. reflexivity. }
    assert (Hty : type (Evaluate.hand m) = Straight
                  \/ type (Evaluate.hand m) = StraightFlush).
    { destruct (identifyHand_sortedStraight (Evaluate.cards m) Hlen)
        as (h & Hh & Hty); [rewrite Hranks; simpl; auto 20|].
      congruence. }
    destruct (findAllFiveCardHands_origin _ _ Hm) as [E | [E | Hs]];
      [destruct Hty; congruence | destruct Hty; congruence |].
    apply findAllStraights_window in Hs. destruct Hs as [Hw Hne].
    destruct (window_not_23456 _ Hw Hne) as (r & Hr & Hnot).
    apply Hnot. rewrite <- Hranks.
    eapply Permutation_in; [|exact Hr].
    apply Permutation_map, sortCards_perm.
Qed.

Lemma evaluateHand_complete_witness :
  (exists m, In m (bombs (evaluateHand straightJQKA2)
                   ++ fiveCards (evaluateHand straightJQKA2))
             /\ map rank (Evaluate.cards m) = [RJ; RQ; RK; RA; R2])
  /\ (exists m, In m (fiveCards (evaluateHand sevensOverThrees))
                /\ type (Evaluate.hand m) = FullHouse
                /\ countRank R7 (Evaluate.cards m) = 3%nat
                /\ countRank R3 (Evaluate.cards m) = 2%nat)
  /\ (exists m, In m (bombs (evaluateHand handWithQuad))
                /\ type (Evaluate.hand m) = FourOfAKind
                /\ countRank R3 (Evaluate.cards m) = 4%nat
                /\ In (mkCard R9 Clubs) (Evaluate.cards m))
  /\ map rank (sortCards straightFlush34567) <> [R3; R4; R5; R6; R2].
Proof.
  split; [|split; [|split]].
  - apply (proj1 (evaluateHand_complete straightJQKA2)).
    + simpl. auto 20.
    + discriminate.
    + intros r Hr. simpl in Hr.
      repeat (destruct Hr as [<- | Hr]; [reflexivity|]). contradiction.
  - apply (proj1 (proj2 (evaluateHand_complete sevensOverThrees))).
    + discriminate.
    + apply Nat.leb_le. reflexivity.
    + apply Nat.leb_le. reflexivity.
  - apply (proj1 (proj2 (proj2 (evaluateHand_complete handWithQuad)))).
    + reflexivity.
    + cbv. auto 20.
    + discriminate.
  - apply (proj2 (proj2 (proj2 (evaluateHand_complete straightFlush34567)))
             {| Evaluate.cards := straightFlush34567;
                hand := handStraightFlush;
                priority := 10020; category := bomb |}).
    apply in_or_app. left. vm_compute. left. reflexivity.
Defined.

(** ** A hand that is exactly one straight flush *)

Lemma weight_rank (a b : Card) :
  getCardWeight a = getCardWeight b -> rank a = rank b.
Proof.
  unfold getCardWeight. intros H. apply RankOrder_inj.
  pose proof (SuitOrder_range (suit a)). pose proof (SuitOrder_range (suit b)).
  lia.
Qed.

Lemma NoDup_rank_weight (l : list Card) :
  NoDup (map rank l) -> NoDup (map getCardWeight l).
Proof.
  induction l as [|c l IH]; simpl; intros H; [constructor|].
  inversion H as [|? ? Hnin Hnd]; subst. constructor; [|now apply IH].
  intros Hin. apply Hnin. apply in_map_iff in Hin.
  destruct Hin as (x & Hw & Hx). apply in_map_iff. exists x.
  split; [now apply weight_rank | exact Hx].
Qed.

Lemma identifyHand_perm (cs cs' : list Card) :
  Permutation cs cs' -> NoDup (map getCardWeight cs) ->
  identifyHand cs = identifyHand cs'.
Proof.
  intros Hp Hnd.
  assert (Hsort : sortCards cs = sortCards cs').
  { apply sorted_perm_unique; try apply sortCards_sorted.
    - eapply Permutation_NoDup; [|exact Hnd].
      apply Permutation_map, sortCards_perm.
    - rewrite <- (sortCards_perm cs), <- (sortCards_perm cs'). exact Hp. }
  unfold identifyHand. rewrite <- Hsort.
  rewrite (Permutation_length Hp), (distinct_ranks_perm _ _ Hp). reflexivity.
Qed.

Lemma playable_all (m l : list Card) :
  playable m l -> List.length m = List.length l -> Permutation m l.
Proof.
  intros [rest H] Hlen. pose proof (Permutation_length H) as Hl.
  rewrite length_app in Hl. destruct rest; [|simpl in Hl; lia].
  now rewrite app_nil_r in H.
Qed.

Lemma getAllPairs_distinct (l : list Card) :
  NoDup (map rank l) -> getAllPairs l = [].
Proof.
  induction l as [|a l IH]; [reflexivity|].
  destruct l as [|b l]; [reflexivity|].
  intros H. inversion H as [|? ? Hnin Hnd]; subst.
  change (getAllPairs (a :: b :: l))
    with (if Rank_eqb (rank a) (rank b)
          then [a; b] :: getAllPairs (b :: l)
          else getAllPairs (b :: l)).
  destruct (Rank_eqb (rank a) (rank b)) eqn:E; [|now apply IH].
  apply Rank_eqb_eq in E. exfalso. apply Hnin. left. now symmetry.
Qed.

Lemma sortedStraight_NoDup (so : list Rank) :
  In so sortedStraightRanks -> NoDup so.
Proof.
  intros H. simpl in H.
  repeat (destruct H as [<- | H];
          [apply (distinctb_NoDup Rank_eqb);
           [apply Rank_eqb_eq | reflexivity]|]).
  contradiction.
Qed.

Lemma sortedStraight_window (so : list Rank) :
  In so sortedStraightRanks -> so <> [R3; R4; R5; R6; R2] ->
  exists rs, In rs straightWindowRanks /\ rs <> [R2; R3; R4; R5; R6]
             /\ forall r, In r rs -> In r so.
Proof.
  intros H Hne. simpl in H.
  do 9 (destruct H as [<- | H];
        [eexists; split; [|split; [|intros r Hr; exact Hr]];
         [simpl; auto 20 | discriminate]|]).
  destruct H as [<- | [<- | []]]; [|now contradiction Hne].
  exists [RA; R2; R3; R4; R5]. split; [simpl; auto 20|].
  split; [discriminate|]. simpl. intuition.
Qed.

(** X25. When the whole hand is one straight flush other than 2-3-4-5-6,
    the evaluation holds it as a bomb and nothing else: no five-card
    combination, no pair, no single.  So on the lead the look-ahead bot has
    no candidate and returns [null], and the look-ahead value of such a
    hand is [-Infinity] at any positive depth. *)
Theorem straight_flush_hand_is_never_led (cs : list Card) (h : Hand)
  (Hid : identifyHand cs = Some h) (Hty : type h = StraightFlush)
  (Hnot : map rank (sortCards cs) <> [R3; R4; R5; R6; R2]) :
  let ev := evaluateHand cs in
  bombs ev <> [] /\ fiveCards ev = [] /\ pairs ev = [] /\ singles ev = []
  /\ (forall size opponents passes,
        chooseBestMove cs ev
          {| myHandSize := size; opponentsHandSizes := opponents;
             lastPlayedHand := None; consecutivePasses := passes |} = None)
  /\ (forall depth, simulateFuture cs (S depth) = NegInfinity).
Proof.
  intros ev.
  assert (Hlen : List.length cs = 5%nat).
  { apply identifyHand_cards in Hid. destruct Hid as (_ & -> & _).
    now rewrite Hty. }
  assert (Hso : In (map rank (sortCards cs)) sortedStraightRanks).
  { destruct (sortCards_five cs Hlen)
      as (s0 & s1 & s2 & s3 & s4 & Hs & H01 & H12 & H23 & H34).
    rewrite Hs. rewrite (identifyHand_five cs _ _ _ _ _ Hs) in Hid.
    eapply StraightShape_ranks, identifyFive_straight; eauto. }
  assert (Hnd : NoDup (map rank cs)).
  { eapply Permutation_NoDup; [|apply (sortedStraight_NoDup _ Hso)].
    apply Permutation_sym, Permutation_map, sortCards_perm. }
  assert (Hwhole : forall m,
            In m (findAllFiveCardHands (sortCards cs)) ->
            Permutation (Evaluate.cards m) cs /\ Evaluate.hand m = h).
  { intros m Hm. pose proof (findAllFiveCardHands_kind _ _ Hm) as Hk.
    apply findAllFiveCardHands_sound in Hm.
    destruct Hm as [Hplay Hidm].
    assert (Hp : Permutation (Evaluate.cards m) cs).
    { apply playable_all.
      - eapply playable_perm; [|exact Hplay].
        apply Permutation_sym, sortCards_perm.
      - apply identifyHand_cards in Hidm. destruct Hidm as (_ & Hl & _).
        rewrite Hl, Hlen.
        destruct Hk as [(Hb & _) | ([Ht | Ht] & _)].
        + apply isBomb_spec in Hb. destruct Hb as [-> | ->]; reflexivity.
        + now rewrite Ht.
        + now rewrite Ht. }
    split; [exact Hp|].
    rewrite (identifyHand_perm cs (Evaluate.cards m)) in Hid.
    - congruence.
    - now apply Permutation_sym.
    - now apply NoDup_rank_weight. }
  assert (Hfive : fiveCards ev = []).
  { destruct (fiveCards ev) as [|m l] eqn:E; [reflexivity|exfalso].
    assert (Hm : In m (fiveCards ev)) by (rewrite E; now left).
    cbn [ev evaluateHand fiveCards] in Hm. apply filter_In in Hm.
    destruct Hm as [Hm Hf]. destruct (Hwhole m Hm) as [_ Hh].
    rewrite Hh, Hty in Hf. discriminate Hf. }
  assert (Hbomb : exists m, In m (bombs ev) /\ Permutation (Evaluate.cards m) cs).
  { destruct (sortedStraight_window _ Hso Hnot) as (rs & Hrs & Hne & Hin).
    destruct (findAllStraights_complete (sortCards cs) rs Hrs Hne)
      as (f & Hf & Hr).
    { intros r Hr. apply Hin, in_map_iff in Hr.
      destruct Hr as (c & E & Hc). now exists c. }
    assert (Hidf : exists hf, identifyHand f = Some hf).
    { unfold findAllStraights in Hf. apply in_app_or in Hf.
      destruct Hf as [Hf | Hf].
      - apply in_flat_map in Hf. destruct Hf as (i & Hi & Hf).
        destruct (pickRanks _ _) as [p|] eqn:Hp; [|contradiction].
        destruct Hf as [<- | []].
        destruct (pickRanks_identified _ _ _ Hp (window_In i Hi))
          as (hf & Hh & _). now exists hf.
      - apply optionToList_In in Hf.
        destruct (pickRanks_identified _ _ _ Hf) as (hf & Hh & _);
          [simpl; auto 20 | now exists hf]. }
    destruct Hidf as [hf Hidf].
    assert (Hm : In {| Evaluate.cards := f; hand := hf;
                       priority := if HandType_eqb (type hf) StraightFlush
                                   then strength hf + 10000 else strength hf;
                       category := if HandType_eqb (type hf) StraightFlush
                                   then bomb else five |}
                    (findAllFiveCardHands (sortCards cs))).
    { unfold findAllFiveCardHands. cbv zeta.
      unfold sortByPriority. rewrite sort_by_In, !in_app_iff.
      right. right. apply in_flat_map. exists f. split; [exact Hf|].
      rewrite Hidf. left. reflexivity. }
    eexists. split; [|exact (proj1 (Hwhole _ Hm))].
    pose proof (proj1 (evaluateHand_fives cs _) Hm) as Hin'.
    fold ev in Hin'. rewrite Hfive, app_nil_r in Hin'. exact Hin'. }
  assert (Hpairs : pairs ev = []).
  { cbn [ev evaluateHand pairs]. unfold findAllPairs.
    assert (E : adjacentPairs (sortCards cs) = []).
    { apply (map_eq_nil Evaluate.cards). rewrite adjacentPairs_getAllPairs.
      apply getAllPairs_distinct.
      eapply Permutation_NoDup; [|exact Hnd].
      apply Permutation_map, sortCards_perm. }
    now rewrite E. }
  assert (Hsingles : singles ev = []).
  { destruct Hbomb as (m & Hm & Hp).
    destruct (singles ev) as [|c l] eqn:E; [reflexivity|exfalso].
    assert (Hc : In c (singles ev)) by (rewrite E; now left).
    cbn [ev evaluateHand singles] in Hc. apply filter_In in Hc.
    destruct Hc as [Hc Hused]. apply negb_true_iff in Hused.
    apply not_true_iff_false in Hused. apply Hused, hasId_In, idsOf_In.
    exists m, c. split; [apply in_or_app; now left|].
    split; [|reflexivity].
    eapply Permutation_in; [apply Permutation_sym; exact Hp|].
    now apply sorted_In. }
  split; [|split; [exact Hfive|split; [exact Hpairs|split; [exact Hsingles|]]]].
  - destruct Hbomb as (m & Hm & _). intros E. now rewrite E in Hm.
  - split.
    + intros size opponents passes. unfold chooseBestMove.
      cbn [lastPlayedHand getAllLegalMoves].
      now rewrite Hfive, Hpairs, Hsingles.
    + intros depth. destruct cs as [|c cs']; [discriminate Hlen|].
      cbn [simulateFuture]. cbv zeta. fold ev.
      now rewrite Hfive, Hpairs, Hsingles.
Qed.

Lemma straight_flush_hand_is_never_led_witness :
  bombs (evaluateHand straightFlush34567) <> []
  /\ simulateFuture straightFlush34567 2 = NegInfinity.
Proof.
  destruct (straight_flush_hand_is_never_led straightFlush34567
              handStraightFlush) as (Hb & _ & _ & _ & _ & Hs).
  - reflexivity.
  - reflexivity.
  - discriminate.
  - split; [exact Hb | exact (Hs 1%nat)].
Defined.

(** ** The scores of the look-ahead *)

Lemma penalty_fold (l : list Card) (s : Z) :
  fold_left (fun score c => if 40 <=? getCardWeight c then score - 5 else score)
            l s
  = s - 5 * Z.of_nat
            (List.length (filter (fun c => 4 <=? RankOrder (rank c)) l)).
Proof.
  revert s. induction l as [|c l IH]; intros s; [simpl; lia|].
  cbn [fold_left filter]. rewrite IH.
  assert (E : (40 <=? getCardWeight c) = (4 <=? RankOrder (rank c))).
  { unfold getCardWeight. pose proof (SuitOrder_range (suit c)).
    destruct (4 <=? RankOrder (rank c)) eqn:E4.
    - apply Z.leb_le in E4. apply Z.leb_le. lia.
    - apply Z.leb_gt in E4. apply Z.leb_gt. lia. }
  rewrite E. destruct (4 <=? RankOrder (rank c)); [|reflexivity].
  cbn [List.length]. rewrite Nat2Z.inj_succ. lia.
Qed.

Lemma fold_left_ge (f : Z -> Card -> Z) (l : list Card) (s : Z) :
  (forall x c, x <= f x c) -> s <= fold_left f l s.
Proof.
  intros Hf. revert s. induction l as [|c l IH]; intros s; simpl; [lia|].
  specialize (IH (f s c)). specialize (Hf s c). lia.
Qed.

Lemma moveCost_nonneg (m : CardCombination) (ev : HandEvaluation) :
  0 <= moveCost m ev.
Proof.
  unfold moveCost. cbv zeta.
  match goal with
  | |- context [fold_left ?f ?l ?s] =>
      assert (H : s <= fold_left f l s)
        by (apply fold_left_ge; intros x c;
            destruct (_ && _); lia);
      assert (H0 : 0 <= s)
        by (destruct (Category_eqb (category m) single),
                     (Category_eqb (category m) pair); lia)
  end.
  destruct (Category_eqb (category m) bomb); lia.
Qed.

(** X26. The end-state value of a hand is minus ten per card and minus
    five more per card of rank 7 or higher (weight 40 and up), and the
    total strength of an evaluation is 1000 per bomb, 200 per five-card
    combination and 30 per pair, minus five per single of rank 7 or higher.
    A move never has a negative cost, and the look-ahead value of a hand is
    [-Infinity] or at most zero, at every depth. *)
Theorem lookahead_scores (cs : list Card) :
  evaluateEndState cs
  = - 10 * Z.of_nat (List.length cs)
    - 5 * Z.of_nat
          (List.length (filter (fun c => 4 <=? RankOrder (rank c)) cs))
  /\ totalStrength (evaluateHand cs)
     = 1000 * Z.of_nat (List.length (bombs (evaluateHand cs)))
       + 200 * Z.of_nat (List.length (fiveCards (evaluateHand cs)))
       + 30 * Z.of_nat (List.length (pairs (evaluateHand cs)))
       - 5 * Z.of_nat
             (List.length (filter (fun c => 4 <=? RankOrder (rank c))
                                  (singles (evaluateHand cs))))
  /\ (forall m ev, 0 <= moveCost m ev)
  /\ (forall depth,
        match simulateFuture cs depth with
        | NegInfinity => True
        | Finite z => z <= 0
        end).
Proof.
  assert (Hend : forall l,
            evaluateEndState l
            = - 10 * Z.of_nat (List.length l)
              - 5 * Z.of_nat
                    (List.length
                       (filter (fun c => 4 <=? RankOrder (rank c)) l))).
  { intros l. unfold evaluateEndState. rewrite penalty_fold. lia. }
  split; [apply Hend|]. split.
  { unfold evaluateHand. cbv zeta.
    cbn [totalStrength bombs fiveCards pairs singles].
    unfold calculateStrength. cbv zeta. rewrite penalty_fold. lia. }
  split; [apply moveCost_nonneg|].
  intros depth. revert cs. induction depth as [|d IH]; intros cs.
  - cbn [simulateFuture]. rewrite Hend. lia.
  - destruct cs as [|c cs]; [cbn [simulateFuture]; rewrite Hend; simpl; lia|].
    cbn [simulateFuture]. cbv zeta.
    match goal with
    | |- match fold_left ?f ?l ?s with _ => _ end =>
        assert (H : forall l0 s0,
                  match s0 with NegInfinity => True | Finite z => z <= 0 end ->
                  match fold_left f l0 s0 with
                  | NegInfinity => True
                  | Finite z => z <= 0
                  end)
    end.
    { induction l0 as [|m l0 IHl]; intros s0 Hs0; simpl; [exact Hs0|].
      apply IHl.
      specialize (IH (removeCards (c :: cs) (Evaluate.cards m))).
      pose proof (moveCost_nonneg m (evaluateHand (c :: cs))) as Hc.
      destruct (simulateFuture _ d) as [|z]; destruct s0 as [|z0]; simpl;
        try exact I; lia. }
    apply H. exact I.
Qed.

(** * The smart bot answering a pair *)

(** ** Pairs of the hand and the pairs the bot lists *)

Lemma someAtMost3_spec (opponents : option (list Z)) :
  someAtMost3 opponents = true <->
  exists sizes s, opponents = Some sizes /\ In s sizes /\ s <= 3.
Proof.
  unfold someAtMost3. rewrite existsb_exists. split.
  - intros (s & Hs & E). destruct opponents as [sizes|]; [|contradiction].
    exists sizes, s. split; [reflexivity|]. split; [exact Hs|].
    now apply Z.leb_le.
  - intros (sizes & s & -> & Hs & E). exists s.
    split; [exact Hs | now apply Z.leb_le].
Qed.

Lemma pair_ranks (a b : Card) (h : Hand) :
  identifyHand [a; b] = Some h -> rank a = rank b.
Proof.
  unfold identifyHand, sortCards; simpl.
  destruct (0 <? getCardWeight a - getCardWeight b).
  - destruct (Rank_eqb (rank b) (rank a)) eqn:E; [|discriminate].
    intros _. symmetry. now apply Rank_eqb_eq.
  - destruct (Rank_eqb (rank a) (rank b)) eqn:E; [|discriminate].
    intros _. now apply Rank_eqb_eq.
Qed.

Lemma beatingPair_cards (hand refCards : list Card) (reference : Hand)
  (m : list Card) :
  identifyHand refCards = Some reference -> type reference = Pair ->
  beatingPair hand reference m ->
  exists a b h,
    m = [a; b] /\ playable [a; b] hand /\ rank a = rank b
    /\ identifyHand [a; b] = Some h
    /\ strength h = Z.max (getCardWeight a) (getCardWeight b)
    /\ strength reference < strength h.
Proof.
  intros Href Hpair (Hlen & Hplay & h & Hid & Hbeat).
  destruct m as [|a [|b [|c m]]]; try discriminate Hlen.
  exists a, b, h. split; [reflexivity|]. split; [exact Hplay|].
  split; [exact (pair_ranks a b h Hid)|]. split; [exact Hid|].
  pose proof (identifyHand_two a b h Hid) as (Hty & _ & Hst).
  split; [exact Hst|].
  apply compareHands_same_type in Hbeat; [tauto | now rewrite Hty].
Qed.

Lemma beatingPair_intro (hand refCards : list Card) (reference h : Hand)
  (a b : Card) :
  identifyHand refCards = Some reference -> type reference = Pair ->
  playable [a; b] hand -> identifyHand [a; b] = Some h ->
  strength reference < strength h ->
  beatingPair hand reference [a; b].
Proof.
  intros Href Hpair Hplay Hid Hlt. split; [reflexivity|].
  eapply pair_legal; eauto. now apply Z.ltb_lt.
Qed.

Lemma validPairs_beating (hand refCards : list Card) (reference : Hand)
  (p : list Card) :
  identifyHand refCards = Some reference -> type reference = Pair ->
  In p (validPairsOf (getAllPairs (sortCards hand)) reference) ->
  beatingPair hand reference p.
Proof.
  intros Href Hpair Hp. apply filter_In in Hp. destruct Hp as [Hp Hv].
  destruct (identifyHand p) as [h|] eqn:Hid; [|discriminate].
  pose proof (getAllPairs_playable hand p Hp) as Hplay.
  apply getAllPairs_In in Hp. destruct Hp as (l1 & a & b & l2 & _ & ->).
  eapply beatingPair_intro; eauto. now apply Z.ltb_lt.
Qed.

Lemma getAllPairs_tail (x : Card) (l p : list Card) :
  In p (getAllPairs l) -> In p (getAllPairs (x :: l)).
Proof.
  destruct l as [|y l]; [intros []|]. intros H.
  change (getAllPairs (x :: y :: l))
    with (if Rank_eqb (rank x) (rank y)
          then [x; y] :: getAllPairs (y :: l)
          else getAllPairs (y :: l)).
  destruct (Rank_eqb (rank x) (rank y)); [now right | exact H].
Qed.

Lemma adjacent_pair_listed (l1 l2 : list Card) (u v : Card) :
  rank u = rank v -> In [u; v] (getAllPairs (l1 ++ u :: v :: l2)).
Proof.
  intros E. induction l1 as [|x l1 IH]; cbn [app].
  - change (getAllPairs (u :: v :: l2))
      with (if Rank_eqb (rank u) (rank v)
            then [u; v] :: getAllPairs (v :: l2)
            else getAllPairs (v :: l2)).
    rewrite E, Rank_eqb_refl. now left.
  - apply getAllPairs_tail, IH.
Qed.

Lemma two_positions (a b : Card) (rest l : list Card) :
  Permutation (a :: b :: rest) l ->
  exists p q s, l = p ++ a :: q ++ b :: s \/ l = p ++ b :: q ++ a :: s.
Proof.
  intros H.
  assert (Ha : In a l) by (eapply Permutation_in; [exact H | now left]).
  apply in_split in Ha. destruct Ha as (l1 & l2 & ->).
  apply Permutation_cons_app_inv in H.
  assert (Hb : In b (l1 ++ l2))
    by (eapply Permutation_in; [exact H | now left]).
  apply in_app_or in Hb.
  destruct Hb as [Hb | Hb]; apply in_split in Hb; destruct Hb as (p & q & ->).
  - exists p, q, l2. right. now rewrite <- app_assoc.
  - exists l1, p, q. now left.
Qed.

Lemma strong_app (l1 l2 : list Card) :
  StronglySorted weight_le (l1 ++ l2) ->
  StronglySorted weight_le l2
  /\ forall x y, In x l1 -> In y l2 -> weight_le x y.
Proof.
  induction l1 as [|c l1 IH]; cbn [app]; intros H.
  - split; [exact H | intros x y []].
  - inversion H as [|? ? Hs Hall]; subst.
    destruct (IH Hs) as [H2 Hle]. split; [exact H2|].
    intros x y [<- | Hx] Hy.
    + rewrite Forall_forall in Hall. apply Hall, in_or_app. now right.
    + now apply Hle.
Qed.

Lemma same_rank_between (x z y : Card) :
  weight_le x z -> weight_le z y -> rank x = rank y -> rank z = rank x.
Proof.
  unfold weight_le, getCardWeight. intros H1 H2 E. apply RankOrder_inj.
  rewrite E in *.
  pose proof (SuitOrder_range (suit x)). pose proof (SuitOrder_range (suit y)).
  pose proof (SuitOrder_range (suit z)). lia.
Qed.

(** Between two cards of one rank the sorted hand holds only that rank, so
    the heavier one closes an adjacent pair. *)
Lemma sorted_pair_between (p q s : list Card) (x y : Card) :
  StronglySorted weight_le (p ++ x :: q ++ y :: s) -> rank x = rank y ->
  exists z,
    In [z; y] (getAllPairs (p ++ x :: q ++ y :: s)) /\ rank z = rank y
    /\ Z.max (getCardWeight z) (getCardWeight y)
       = Z.max (getCardWeight x) (getCardWeight y).
Proof.
  intros Hs E.
  destruct (exists_last (l := x :: q) ltac:(discriminate)) as (q' & z & Eq).
  assert (Hz : In z (x :: q))
    by (rewrite Eq; apply in_or_app; right; now left).
  assert (Hl : p ++ x :: q ++ y :: s = (p ++ q') ++ z :: y :: s).
  { change (x :: q ++ y :: s) with ((x :: q) ++ y :: s).
    rewrite Eq, <- !app_assoc. reflexivity. }
  destruct (strong_app p (x :: q ++ y :: s) Hs) as [Hs' _].
  assert (Hxz : weight_le x z).
  { destruct Hz as [<- | Hz]; [unfold weight_le; lia|].
    inversion Hs' as [|? ? _ Hall]; subst. rewrite Forall_forall in Hall.
    apply Hall, in_or_app. now left. }
  assert (Hzy : weight_le z y).
  { change (x :: q ++ y :: s) with ((x :: q) ++ y :: s) in Hs'.
    apply (proj2 (strong_app _ _ Hs')); [exact Hz | now left]. }
  assert (Hr : rank z = rank x) by (eapply same_rank_between; eauto).
  exists z. split; [rewrite Hl; apply adjacent_pair_listed; congruence|].
  split; [congruence|]. unfold weight_le in *. lia.
Qed.

Lemma playable_pair_listed (l : list Card) (a b : Card) :
  StronglySorted weight_le l -> playable [a; b] l -> rank a = rank b ->
  exists u v,
    In [u; v] (getAllPairs l) /\ rank u = rank v
    /\ Z.max (getCardWeight u) (getCardWeight v)
       = Z.max (getCardWeight a) (getCardWeight b).
Proof.
  intros Hs [rest Hp] E. cbn [app] in Hp.
  destruct (two_positions a b rest l Hp) as (p & q & s & [-> | ->]).
  - destruct (sorted_pair_between p q s a b Hs E) as (z & Hin & Hr & Hm).
    exists z, b. auto.
  - destruct (sorted_pair_between p q s b a Hs (eq_sym E))
      as (z & Hin & Hr & Hm).
    exists z, a. split; [exact Hin|]. split; [exact Hr|].
    rewrite Hm. apply Z.max_comm.
Qed.

(** The first listed pair that passes a test is the lightest that does. *)
Lemma first_valid_pair_min (f : list Card -> bool) (l bp : list Card)
  (rest : list (list Card)) :
  StronglySorted weight_le l ->
  filter f (getAllPairs l) = bp :: rest ->
  exists x y,
    bp = [x; y]
    /\ forall u v, In [u; v] (getAllPairs l) -> f [u; v] = true ->
         Z.max (getCardWeight x) (getCardWeight y)
         <= Z.max (getCardWeight u) (getCardWeight v).
Proof.
  intros Hs. induction Hs as [|a l Hs IH Ha]; [discriminate|].
  destruct l as [|b l]; [discriminate|].
  assert (Hlater : forall u v, In [u; v] (getAllPairs (b :: l)) ->
                     weight_le b v).
  { intros u v H. apply getAllPairs_In in H.
    destruct H as (l1 & u' & v' & l2 & El & [= <- <-]).
    assert (Hv : In v (b :: l))
      by (rewrite El; apply in_or_app; right; right; now left).
    destruct Hv as [<- | Hv]; [unfold weight_le; lia|].
    inversion Hs as [|? ? _ Hall]; subst. rewrite Forall_forall in Hall.
    now apply Hall. }
  change (getAllPairs (a :: b :: l))
    with (if Rank_eqb (rank a) (rank b)
          then [a; b] :: getAllPairs (b :: l)
          else getAllPairs (b :: l)).
  destruct (Rank_eqb (rank a) (rank b)); [|exact IH].
  cbn [filter]. destruct (f [a; b]) eqn:Ef.
  - intros [= <- _]. exists a, b. split; [reflexivity|].
    intros u v [[= <- <-] | Hin] _; [lia|].
    specialize (Hlater u v Hin). rewrite Forall_forall in Ha.
    specialize (Ha b (or_introl eq_refl)). unfold weight_le in *. lia.
  - intros E. destruct (IH E) as (x & y & -> & Hmin).
    exists x, y. split; [reflexivity|].
    intros u v [[= <- <-] | Hin] Hf; [congruence|]. now apply Hmin.
Qed.

(** ** The bombs the bot can see *)

Lemma SuitOrder_inj (a b : Suit) : SuitOrder a = SuitOrder b -> a = b.
Proof. destruct a, b; simpl; intros H; try reflexivity; discriminate H. Qed.

Lemma find_lowest (hand : list Card) (r : Rank) (c : Card) :
  find (fun x => Rank_eqb (rank x) r) (sortCards hand) = Some c ->
  lowestOfRank hand r c.
Proof.
  intros Hf. rewrite find_filter_head in Hf.
  destruct (filter (fun x => Rank_eqb (rank x) r) (sortCards hand))
    as [|v vs] eqn:E; [discriminate|].
  cbn [hd_error] in Hf. injection Hf as ->.
  destruct (lightest_passing hand _ c vs E) as (Hin & Hr & Hmin).
  split; [exact Hin|]. split; [now apply Rank_eqb_eq|].
  intros c' Hc' Hr'. apply Hmin; [exact Hc' | now apply Rank_eqb_eq].
Qed.

Lemma lowestOfRank_suit (hand : list Card) (r : Rank) (c c' : Card) :
  lowestOfRank hand r c -> lowestOfRank hand r c' -> suit c = suit c'.
Proof.
  intros (Hc & Hr & Hmin) (Hc' & Hr' & Hmin').
  pose proof (Hmin c' Hc' Hr') as H1. pose proof (Hmin' c Hc Hr) as H2.
  apply SuitOrder_inj. unfold getCardWeight in H1, H2.
  rewrite Hr, Hr' in *. lia.
Qed.

Lemma pickRanks_by_rank (l : list Card) (rs : list Rank) (f : list Card) :
  pickRanks l rs = Some f ->
  forall r, In r rs ->
    exists c, In c f /\ find (fun x => Rank_eqb (rank x) r) l = Some c.
Proof.
  revert f. induction rs as [|r0 rs IH]; intros f H r Hr; [contradiction|].
  cbn [pickRanks] in H.
  destruct (find (fun x => Rank_eqb (rank x) r0) l) as [c0|] eqn:Hf;
    [|discriminate].
  destruct (pickRanks l rs) as [p|]; [|discriminate].
  injection H as <-. destruct Hr as [<- | Hr].
  - exists c0. split; [now left | exact Hf].
  - destruct (IH p eq_refl r Hr) as (c & Hc & Hfc).
    exists c. split; [now right | exact Hfc].
Qed.

Lemma pickRanks_by_card (l : list Card) (rs : list Rank) (f : list Card) :
  pickRanks l rs = Some f ->
  forall c, In c f ->
    exists r, In r rs /\ find (fun x => Rank_eqb (rank x) r) l = Some c.
Proof.
  revert f. induction rs as [|r0 rs IH]; intros f H c Hc.
  - injection H as <-. contradiction.
  - cbn [pickRanks] in H.
    destruct (find (fun x => Rank_eqb (rank x) r0) l) as [c0|] eqn:Hf;
      [|discriminate].
    destruct (pickRanks l rs) as [p|]; [|discriminate].
    injection H as <-. destruct Hc as [<- | Hc].
    + exists r0. split; [now left | exact Hf].
    + destruct (IH p eq_refl c Hc) as (r & Hr & Hfr).
      exists r. split; [now right | exact Hfr].
Qed.

Lemma identifyHand_flush (cs : list Card) (h : Hand) :
  identifyHand cs = Some h ->
  type h = Straight \/ type h = StraightFlush ->
  (type h = StraightFlush <->
   forall a b, In a cs -> In b cs -> suit a = suit b).
Proof.
  intros Hid Hty.
  assert (Hlen : List.length cs = 5%nat).
  { pose proof (identifyHand_cards cs h Hid) as (_ & -> & _).
    destruct Hty as [-> | ->]; reflexivity. }
  destruct (sortCards_five cs Hlen) as (s0 & s1 & s2 & s3 & s4 & Hs & _).
  rewrite (identifyHand_five cs _ _ _ _ _ Hs) in Hid.
  rewrite (identifyFive_flush _ _ _ _ _ h Hid Hty).
  apply same_suit_forallb; [rewrite <- Hs; apply sortCards_perm | now left].
Qed.

Lemma bombsOf_intro (fives : list (list Card)) (f : list Card) (h : Hand) :
  In f fives -> identifyHand f = Some h -> isBomb (type h) = true ->
  In (Types.cards h) (bombsOf fives).
Proof.
  intros Hf Hid Hb. unfold bombsOf. apply in_map, filter_In.
  split; [|exact Hb]. apply in_flat_map. exists f.
  split; [exact Hf|]. rewrite Hid. now left.
Qed.

Lemma window_bomb_lowest (hand : list Card) (rs : list Rank) (f : list Card)
  (h : Hand) :
  pickRanks (sortCards hand) rs = Some f -> In rs straightWindowRanks ->
  identifyHand f = Some h -> isBomb (type h) = true ->
  lowestFlush hand.
Proof.
  intros Hpick Hrs Hid Hb.
  destruct (pickRanks_identified _ _ _ Hpick Hrs) as (h' & Hid' & Hty).
  assert (h' = h) by congruence. subst h'.
  apply isBomb_spec in Hb.
  assert (Hsf : type h = StraightFlush)
    by (destruct Hb as [Hb | Hb], Hty as [Hty | Hty]; congruence).
  pose proof (proj1 (identifyHand_flush f h Hid Hty) Hsf) as Hsuit.
  destruct f as [|c0 f']; [discriminate Hid|].
  exists rs, (suit c0). split; [exact Hrs|].
  intros r Hr.
  destruct (pickRanks_by_rank _ _ _ Hpick r Hr) as (c & Hc & Hfind).
  exists c. split; [now apply find_lowest|].
  apply Hsuit; [exact Hc | now left].
Qed.

Lemma findFiveCardHands_bomb_origin (hand f : list Card) (h : Hand) :
  In f (findFiveCardHands hand) -> identifyHand f = Some h ->
  isBomb (type h) = true ->
  quadWithKicker hand \/ lowestFlush hand.
Proof.
  intros Hin Hid Hb. unfold findFiveCardHands in Hin. cbv zeta in Hin.
  apply in_app_or in Hin. destruct Hin as [Hin | Hin];
    [|apply in_app_or in Hin; destruct Hin as [Hin | Hin];
      [|apply in_app_or in Hin; destruct Hin as [Hin | Hin];
        [|apply in_app_or in Hin; destruct Hin as [Hin | Hin]]]].
  - exfalso.
    apply in_flat_map in Hin. destruct Hin as (t & Ht & Hin).
    apply in_flat_map in Hin. destruct Hin as (p & Hp & Hin).
    apply filter_In in Ht, Hp. destruct Ht as [Ht Lt], Hp as [Hp Lp].
    destruct (sameGroupRank p t) eqn:Hs; cbn [negb] in Hin; [contradiction|].
    destruct Hin as [<- | []].
    rewrite sameGroupRank_sym in Hs.
    apply Nat.leb_le in Lt, Lp.
    destruct (fullHouse_identified _ _ _ Ht Hp Lt Lp Hs) as (h' & Hid' & Hty).
    assert (h' = h) by congruence. subst h'.
    rewrite Hty in Hb. discriminate Hb.
  - left.
    apply in_flat_map in Hin. destruct Hin as (q & Hq & Hin).
    apply in_flat_map in Hin. destruct Hin as (c & Hc & Hin).
    apply filter_In in Hq. destruct Hq as [Hq Lq]. apply Nat.eqb_eq in Lq.
    apply group_In in Hq. destruct Hq as (r & Eq & Hr). rewrite Hr in Hin.
    destruct (Rank_eqb (rank c) r) eqn:E; cbn [negb] in Hin; [contradiction|].
    exists r, c. split; [|split].
    + rewrite (countRank_perm r _ _ (sortCards_perm hand)).
      rewrite Eq in Lq. exact Lq.
    + now apply sorted_In.
    + now apply Rank_eqb_neq.
  - right. unfold straightWindows in Hin.
    apply in_flat_map in Hin. destruct Hin as (i & Hi & Hin).
    destruct (pickRanks _ _) as [p|] eqn:Hp; [|contradiction].
    destruct Hin as [<- | []].
    exact (window_bomb_lowest hand _ _ h Hp (window_In i Hi) Hid Hb).
  - right. apply optionToList_In in Hin.
    apply (window_bomb_lowest hand _ _ h Hin); [simpl; auto 20 | exact Hid | exact Hb].
  - right. apply optionToList_In in Hin.
    apply (window_bomb_lowest hand _ _ h Hin); [simpl; auto 20 | exact Hid | exact Hb].
Qed.

Lemma quad_bomb_listed (hand : list Card) :
  quadWithKicker hand ->
  exists f h, In f (findFiveCardHands hand) /\ identifyHand f = Some h
              /\ isBomb (type h) = true.
Proof.
  intros (q & c & Hq & Hc & Hne).
  rewrite (countRank_perm q _ _ (sortCards_perm hand)) in Hq.
  destruct (group_present (sortCards hand) q ltac:(lia)) as [Gq Rq].
  assert (Hk : match groupRank (filter (rankIs q) (sortCards hand)) with
               | Some r => Rank_eqb (rank c) r
               | None => false
               end = false).
  { rewrite Rq. now apply Rank_eqb_neq. }
  destruct (fourOfAKind_identified _ _ c Gq Hq Hk) as (h & Hid & Hty).
  exists (filter (rankIs q) (sortCards hand) ++ [c]), h.
  split; [|split; [exact Hid | now rewrite Hty]].
  unfold findFiveCardHands. cbv zeta. rewrite !in_app_iff. right. left.
  apply in_flat_map. eexists. split.
  { apply filter_In. split; [exact Gq|]. now apply Nat.eqb_eq. }
  apply in_flat_map. exists c. split; [now apply sorted_In|].
  rewrite Hk. now left.
Qed.

Lemma lowestFlush_bomb_listed (hand : list Card) :
  lowestFlush hand ->
  exists f h, In f (findFiveCardHands hand) /\ identifyHand f = Some h
              /\ isBomb (type h) = true.
Proof.
  intros (rs & s & Hrs & Hlow).
  destruct (pickRanks_complete (sortCards hand) rs) as [f Hf].
  { intros r Hr. destruct (Hlow r Hr) as (c & (Hc & Hrc & _) & _).
    exists c. split; [now apply sorted_In | exact Hrc]. }
  destruct (pickRanks_identified _ _ _ Hf Hrs) as (h & Hid & Hty).
  exists f, h. split; [|split; [exact Hid|]].
  - unfold findFiveCardHands. cbv zeta. rewrite !in_app_iff.
    destruct (window_at rs Hrs) as [(i & Hi & <-) | [-> | ->]].
    + right. right. left. unfold straightWindows. apply in_flat_map.
      exists i. split; [exact Hi|]. rewrite Hf. now left.
    + right. right. right. left. rewrite Hf. now left.
    + right. right. right. right. rewrite Hf. now left.
  - assert (Hsuit : forall a, In a f -> suit a = s).
    { intros a Ha.
      destruct (pickRanks_by_card _ _ _ Hf a Ha) as (r & Hr & Hfind).
      destruct (Hlow r Hr) as (c & Hc & <-).
      apply (lowestOfRank_suit hand r); [now apply find_lowest | exact Hc]. }
    rewrite (proj2 (identifyHand_flush f h Hid Hty)); [reflexivity|].
    intros a b Ha Hb. now rewrite (Hsuit a Ha), (Hsuit b Hb).
Qed.

Lemma quadWithKicker_sorted (hand : list Card) :
  quadWithKicker (sortCards hand) -> quadWithKicker hand.
Proof.
  intros (q & c & Hq & Hc & Hne). exists q, c.
  split; [|split; [now apply sorted_In | exact Hne]].
  now rewrite (countRank_perm q _ _ (sortCards_perm hand)).
Qed.

Lemma lowestFlush_sorted (hand : list Card) :
  lowestFlush (sortCards hand) -> lowestFlush hand.
Proof.
  intros (rs & s & Hrs & Hlow). exists rs, s. split; [exact Hrs|].
  intros r Hr. destruct (Hlow r Hr) as (c & (Hc & Hrc & Hmin) & Hs).
  exists c. split; [|exact Hs].
  split; [now apply sorted_In|]. split; [exact Hrc|].
  intros c' Hc'. apply Hmin. now apply sorted_In.
Qed.

Lemma quadWithKicker_to_sorted (hand : list Card) :
  quadWithKicker hand -> quadWithKicker (sortCards hand).
Proof.
  intros (q & c & Hq & Hc & Hne). exists q, c.
  split; [|split; [now apply sorted_In | exact Hne]].
  now rewrite <- (countRank_perm q _ _ (sortCards_perm hand)).
Qed.

Lemma lowestFlush_to_sorted (hand : list Card) :
  lowestFlush hand -> lowestFlush (sortCards hand).
Proof.
  intros (rs & s & Hrs & Hlow). exists rs, s. split; [exact Hrs|].
  intros r Hr. destruct (Hlow r Hr) as (c & (Hc & Hrc & Hmin) & Hs).
  exists c. split; [|exact Hs].
  split; [now apply sorted_In|]. split; [exact Hrc|].
  intros c' Hc'. apply Hmin. now apply sorted_In.
Qed.

(** The bot holds a bomb in its list exactly when the hand has a rank four
    times with another card, or a window whose lightest cards share a
    suit. *)
Lemma bombs_seen_iff (hand : list Card) :
  bombsOf (findFiveCardHands (sortCards hand)) <> [] <->
  quadWithKicker hand \/ lowestFlush hand.
Proof.
  split.
  - intros Hne.
    destruct (bombsOf (findFiveCardHands (sortCards hand))) as [|b bs] eqn:E;
      [now contradiction Hne|].
    assert (Hb : In b (bombsOf (findFiveCardHands (sortCards hand))))
      by (rewrite E; now left).
    apply bombsOf_In in Hb. destruct Hb as (f & h & Hf & Hid & Hbomb & _).
    destruct (findFiveCardHands_bomb_origin _ f h Hf Hid Hbomb) as [H | H].
    + left. now apply quadWithKicker_sorted.
    + right. now apply lowestFlush_sorted.
  - intros H.
    assert (Hex : exists f h, In f (findFiveCardHands (sortCards hand))
                              /\ identifyHand f = Some h
                              /\ isBomb (type h) = true).
    { destruct H as [H | H].
      - now apply quad_bomb_listed, quadWithKicker_to_sorted.
      - now apply lowestFlush_bomb_listed, lowestFlush_to_sorted. }
    destruct Hex as (f & h & Hf & Hid & Hb).
    pose proof (bombsOf_intro _ f h Hf Hid Hb) as Hin.
    intros E. now rewrite E in Hin.
Qed.

(** ** The answer to a pair *)

Lemma pair_weight_bound (a : Card) : rank a <> R2 -> getCardWeight a < 120.
Proof.
  intros H. unfold getCardWeight.
  pose proof (SuitOrder_range (suit a)).
  assert (RankOrder (rank a) <> 12).
  { intros E. apply H. apply RankOrder_inj. exact E. }
  pose proof (RankOrder_range (rank a)). lia.
Qed.

Lemma heavy_card_is_two (a : Card) : 113 < getCardWeight a -> rank a = R2.
Proof.
  unfold getCardWeight. intros H. apply RankOrder_inj.
  pose proof (SuitOrder_range (suit a)).
  pose proof (RankOrder_range (rank a)).
  change (RankOrder R2) with 12. lia.
Qed.

(** Only a pair of 2s beats a pair holding the ace of spades. *)
Lemma heavy_pair_is_twos (hand refCards : list Card) (reference : Hand)
  (m : list Card) (c : Card) :
  identifyHand refCards = Some reference -> type reference = Pair ->
  113 <= strength reference ->
  beatingPair hand reference m -> In c m -> rank c = R2.
Proof.
  intros Href Hpair Hs Hm Hc.
  destruct (beatingPair_cards hand refCards reference m Href Hpair Hm)
    as (a & b & h & -> & _ & Hr & _ & Hst & Hlt).
  assert (Ha : rank a = R2).
  { destruct (Z.max_spec (getCardWeight a) (getCardWeight b)) as [[_ E] | [_ E]].
    - rewrite Hr. apply heavy_card_is_two. lia.
    - apply heavy_card_is_two. lia. }
  destruct Hc as [<- | [<- | []]]; congruence.
Qed.

Lemma playable_In (m hand : list Card) (c : Card) :
  playable m hand -> In c m -> In c hand.
Proof.
  intros [rest Hp] Hc. eapply Permutation_in; [exact Hp|].
  apply in_or_app. now left.
Qed.

(** C8 (as the code has it).  Answering a Pair, the smart bot looks at the
    pairs playable from its hand that beat the reference.  If there are
    some and all of them are pairs of 2s, every opponent holds more than
    three cards and the bot more than five, it passes.  If one of them is
    not a pair of 2s, or an opponent holds at most three cards, or the bot
    at most five, it plays a beating pair of least strength.  If no pair
    beats the reference it plays a bomb exactly when the hand holds a rank
    four times beside another card, or a straight window whose lightest
    cards, rank by rank, share a suit; it passes otherwise, whatever other
    bombs the hand holds. *)
Theorem getSmartBotPlay_pair
  (hand refCards : list Card) (reference : Hand)
  (opponents : option (list Z)) (passes next : option Z)
  (Href : identifyHand refCards = Some reference)
  (Hpair : type reference = Pair) :
  let play :=
    getSmartBotPlay hand (Some reference) false opponents passes next in
  ((exists m, beatingPair hand reference m) ->
   ((forall m c, beatingPair hand reference m -> In c m -> rank c = R2) ->
    calm hand opponents -> play = Pass)
   /\ ((exists m c, beatingPair hand reference m /\ In c m /\ rank c <> R2)
       \/ (exists sizes s, opponents = Some sizes /\ In s sizes /\ s <= 3)
       \/ (List.length hand <= 5)%nat ->
       exists best h,
         play = Play best /\ beatingPair hand reference best
         /\ identifyHand best = Some h
         /\ forall m h', beatingPair hand reference m ->
                         identifyHand m = Some h' ->
                         strength h <= strength h'))
  /\ ((forall m, ~ beatingPair hand reference m) ->
      (quadWithKicker hand \/ lowestFlush hand ->
       exists b h, play = Play b /\ legalMove hand reference b
                   /\ identifyHand b = Some h /\ isBomb (type h) = true)
      /\ (~ (quadWithKicker hand \/ lowestFlush hand) -> play = Pass)).
Proof.
  intros play.
  pose proof (smart_bot_pair_branch hand reference opponents passes
                next Hpair) as Hplay.
  fold play in Hplay.
  pose proof (weight_sorted_strong _ (sortCards_sorted hand)) as Hsorted.
  set (valid := fun p => match identifyHand p with
                         | Some h => strength reference <? strength h
                         | None => false
                         end).
  assert (Hlisted : forall m h', beatingPair hand reference m ->
            identifyHand m = Some h' ->
            exists u v, In [u; v] (getAllPairs (sortCards hand))
                        /\ valid [u; v] = true
                        /\ Z.max (getCardWeight u) (getCardWeight v)
                           = strength h').
  { intros m h' Hm Hid'.
    destruct (beatingPair_cards hand refCards reference m Href Hpair Hm)
      as (a & b & hm & -> & Hp & Hr & Hid & Hst & Hlt).
    assert (hm = h') by congruence. subst hm.
    assert (Hps : playable [a; b] (sortCards hand))
      by (eapply playable_perm; [apply sortCards_perm | exact Hp]).
    destruct (playable_pair_listed _ a b Hsorted Hps Hr)
      as (u & v & Hin & Hruv & Hmax).
    exists u, v. split; [exact Hin|].
    destruct (identifyHand_pair_some u v Hruv) as [hu Hidu].
    pose proof (identifyHand_two u v hu Hidu) as (_ & _ & Hsu).
    split; [|congruence].
    unfold valid. rewrite Hidu. apply Z.ltb_lt. lia. }
  assert (Hhead : forall bp rest,
            validPairsOf (getAllPairs (sortCards hand)) reference = bp :: rest ->
            exists x y h,
              bp = [x; y] /\ beatingPair hand reference bp
              /\ identifyHand bp = Some h
              /\ forall m h', beatingPair hand reference m ->
                              identifyHand m = Some h' ->
                              strength h <= strength h').
  { intros bp rest E.
    assert (Hbp : beatingPair hand reference bp).
    { apply (validPairs_beating hand refCards); auto.
      rewrite E. now left. }
    destruct (first_valid_pair_min valid _ bp rest Hsorted E)
      as (x & y & -> & Hmin).
    destruct (beatingPair_cards hand refCards reference _ Href Hpair Hbp)
      as (a & b & h & [= <- <-] & _ & _ & Hid & Hst & _).
    exists x, y, h. split; [reflexivity|]. split; [exact Hbp|].
    split; [exact Hid|].
    intros m h' Hm Hid'.
    destruct (Hlisted m h' Hm Hid') as (u & v & Hin & Hv & Hmax).
    specialize (Hmin u v Hin Hv). lia. }
  split.
  - intros [m0 Hm0].
    destruct (validPairsOf (getAllPairs (sortCards hand)) reference)
      as [|bp rest] eqn:E.
    { exfalso.
      destruct Hm0 as (Hlen & Hplay0 & h0 & Hid0 & Hbeat0).
      destruct (Hlisted m0 h0 (conj Hlen (conj Hplay0
                  (ex_intro _ h0 (conj Hid0 Hbeat0)))) Hid0)
        as (u & v & Hin & Hv & _).
      assert (Hf : In [u; v] (validPairsOf (getAllPairs (sortCards hand))
                                reference))
        by (apply filter_In; split; assumption).
      now rewrite E in Hf. }
    destruct (Hhead bp rest eq_refl) as (x & y & h & -> & Hbp & Hid & Hmin).
    split.
    + intros Htwos [Hopp Hlen]. rewrite Hplay.
      rewrite (Htwos [x; y] x Hbp (or_introl eq_refl)), Rank_eqb_refl.
      rewrite (someAtMost3_false opponents Hopp).
      replace (List.length hand <=? 5)%nat with false; [reflexivity|].
      symmetry. apply Nat.leb_gt. exact Hlen.
    + intros Hcase. exists [x; y], h.
      split; [|split; [exact Hbp | split; [exact Hid | exact Hmin]]].
      rewrite Hplay.
      destruct Hcase as [(m & c & Hm & Hc & Hne) | [Hdanger | Hlate]].
      * destruct (beatingPair_cards hand refCards reference m Href Hpair Hm)
          as (a & b & hm & -> & _ & Hr & Hidm & Hst & _).
        assert (Ha : rank a <> R2)
          by (destruct Hc as [<- | [<- | []]]; congruence).
        assert (Hb : rank b <> R2) by congruence.
        pose proof (pair_weight_bound a Ha). pose proof (pair_weight_bound b Hb).
        specialize (Hmin [a; b] hm Hm Hidm).
        pose proof (identifyHand_two x y h Hid) as (_ & _ & Hsx).
        assert (Hx : rank x <> R2).
        { intros Ex. assert (120 <= getCardWeight x).
          { unfold getCardWeight. rewrite Ex.
            pose proof (SuitOrder_range (suit x)).
            change (RankOrder R2) with 12. lia. }
          lia. }
        now rewrite (proj2 (Rank_eqb_neq (rank x) R2) Hx).
      * rewrite (proj2 (someAtMost3_spec opponents) Hdanger).
        now destruct (Rank_eqb (rank x) R2).
      * replace (List.length hand <=? 5)%nat with true
          by (symmetry; now apply Nat.leb_le).
        now destruct (Rank_eqb (rank x) R2), (someAtMost3 opponents).
  - intros Hnone.
    destruct (validPairsOf (getAllPairs (sortCards hand)) reference)
      as [|bp rest] eqn:E.
    2: { exfalso. apply (Hnone bp).
         apply (validPairs_beating hand refCards); auto.
         rewrite E. now left. }
    split.
    + intros Hvis. apply bombs_seen_iff in Hvis.
      destruct (bombsOf (findFiveCardHands (sortCards hand)))
        as [|b bs] eqn:Eb; [now contradiction Hvis|].
      assert (Hb : In b (bombsOf (findFiveCardHands (sortCards hand))))
        by (rewrite Eb; now left).
      pose proof Hb as Hb'. apply bombsOf_In in Hb'.
      destruct Hb' as (f & h & Hf & Hid & Hbomb & ->).
      exists (Types.cards h), h. split; [exact Hplay|].
      split; [|split; [|exact Hbomb]].
      * apply (bomb_legal hand reference
                 (findFiveCardHands (sortCards hand))); auto.
        -- apply findFiveCardHands_sorted_playable.
        -- now rewrite Hpair.
      * pose proof (identifyHand_cards f h Hid) as (-> & _).
        now rewrite identifyHand_sorted.
    + intros Hnot.
      destruct (bombsOf (findFiveCardHands (sortCards hand)))
        as [|b bs] eqn:Eb; [exact Hplay|].
      exfalso. apply Hnot, bombs_seen_iff. rewrite Eb. discriminate.
Qed.

(** The hand 3C 3D 4D 5D 6D 7D 9S against a pair of aces: no pair beats
    the aces, the straight flush 3D-7D is a legal answer, and the bot
    passes, because its straight 3-4-5-6-7 starts with the 3 of clubs. *)
Lemma getSmartBotPlay_pair_counterexample :
  identifyHand pairOfAces = Some handPairOfAces
  /\ (forall m, ~ beatingPair handHiddenFlush handPairOfAces m)
  /\ legalMove handHiddenFlush handPairOfAces diamonds34567
  /\ (exists h, identifyHand diamonds34567 = Some h
                /\ type h = StraightFlush)
  /\ getSmartBotPlay handHiddenFlush (Some handPairOfAces) false
       (Some [13; 13; 13]) (Some 0) (Some 13) = Pass.
Proof.
  split; [reflexivity|]. split; [|split; [|split]].
  - intros m Hm.
    destruct (beatingPair_cards handHiddenFlush pairOfAces handPairOfAces m
                eq_refl eq_refl Hm) as (a & b & h & -> & Hp & _).
    pose proof (heavy_pair_is_twos handHiddenFlush pairOfAces handPairOfAces
                  [a; b] a eq_refl eq_refl ltac:(simpl; lia) Hm
                  (or_introl eq_refl)) as Ha.
    pose proof (playable_In _ _ a Hp (or_introl eq_refl)) as Hin.
    simpl in Hin.
    repeat (destruct Hin as [<- | Hin]; [discriminate Ha|]). contradiction.
  - split.
    + exists [mkCard R3 Clubs; mkCard R9 Spades].
      apply Permutation_sym.
      apply (Permutation_middle diamonds34567 [mkCard R9 Spades]
               (mkCard R3 Clubs)).
    + eexists. split; reflexivity.
  - eexists. split; reflexivity.
  - reflexivity.
Qed.

Lemma getSmartBotPlay_pair_witness :
  getSmartBotPlay handWithTwos (Some handPairOfAces) false
    (Some [13; 13; 13]) None (Some 13) = Pass
  /\ (exists best h,
        getSmartBotPlay handWithKings (Some handPairOfNines) false
          (Some [13; 13; 13]) None (Some 13) = Play best
        /\ beatingPair handWithKings handPairOfNines best
        /\ identifyHand best = Some h
        /\ forall m h', beatingPair handWithKings handPairOfNines m ->
                        identifyHand m = Some h' ->
                        strength h <= strength h')
  /\ (exists b h,
        getSmartBotPlay handWithQuad (Some handPairOfAces) false
          (Some [13; 13; 13]) None (Some 13) = Play b
        /\ legalMove handWithQuad handPairOfAces b
        /\ identifyHand b = Some h /\ isBomb (type h) = true)
  /\ getSmartBotPlay handHiddenFlush (Some handPairOfAces) false
       (Some [13; 13; 13]) None (Some 13) = Pass.
Proof.
  assert (Haces : forall hand m c,
            beatingPair hand handPairOfAces m -> In c m -> rank c = R2).
  { intros hand m c. apply (heavy_pair_is_twos hand pairOfAces);
      [reflexivity | reflexivity | simpl; lia]. }
  assert (Hno2 : forall hand,
            Forall (fun c => rank c <> R2) hand ->
            forall m, ~ beatingPair hand handPairOfAces m).
  { intros hand Hall m Hm.
    destruct (beatingPair_cards hand pairOfAces handPairOfAces m
                eq_refl eq_refl Hm) as (a & b & h & -> & Hp & _).
    rewrite Forall_forall in Hall.
    apply (Hall a (playable_In _ _ a Hp (or_introl eq_refl))).
    apply (Haces hand [a; b] a Hm). now left. }
  split; [|split; [|split]].
  - apply (proj1 (getSmartBotPlay_pair handWithTwos pairOfAces handPairOfAces
                    (Some [13; 13; 13]) None (Some 13) eq_refl eq_refl)).
    + exists [mkCard R2 Hearts; mkCard R2 Spades].
      split; [reflexivity|]. split.
      * apply (playable_adjacent _ _
                 [mkCard R3 Clubs; mkCard R4 Diamonds; mkCard R5 Hearts;
                  mkCard R7 Spades; mkCard R9 Clubs] []).
      * eexists. split; reflexivity.
    + apply Haces.
    + split; [|simpl; lia].
      intros sizes [= <-]. repeat constructor.
  - apply (proj1 (getSmartBotPlay_pair handWithKings pairOfNines
                    handPairOfNines (Some [13; 13; 13]) None (Some 13)
                    eq_refl eq_refl)).
    + exists [mkCard RK Hearts; mkCard RK Spades].
      split; [reflexivity|]. split.
      * apply (playable_adjacent _ _ [mkCard R3 Clubs; mkCard R4 Diamonds]
                 [mkCard R9 Clubs; mkCard R2 Hearts; mkCard R2 Spades]).
      * eexists. split; reflexivity.
    + left. exists [mkCard RK Hearts; mkCard RK Spades], (mkCard RK Hearts).
      split; [|split; [now left | discriminate]].
      split; [reflexivity|]. split.
      * apply (playable_adjacent _ _ [mkCard R3 Clubs; mkCard R4 Diamonds]
                 [mkCard R9 Clubs; mkCard R2 Hearts; mkCard R2 Spades]).
      * eexists. split; reflexivity.
  - apply (proj2 (getSmartBotPlay_pair handWithQuad pairOfAces handPairOfAces
                    (Some [13; 13; 13]) None (Some 13) eq_refl eq_refl)).
    + apply Hno2. repeat constructor; discriminate.
    + left. exists R3, (mkCard R9 Clubs).
      split; [reflexivity|]. split; [simpl; auto 10 | discriminate].
  - apply (proj2 (getSmartBotPlay_pair handHiddenFlush pairOfAces
                    handPairOfAces (Some [13; 13; 13]) None (Some 13)
                    eq_refl eq_refl)).
    + apply Hno2. repeat constructor; discriminate.
    + intros [(q & c & Hq & _) | (rs & s & Hrs & Hlow)].
      * destruct q; vm_compute in Hq; discriminate Hq.
      * assert (Hmiss : forall r, In r rs ->
                  existsb (fun c => Rank_eqb (rank c) r) handHiddenFlush
                  = true).
        { intros r Hr. destruct (Hlow r Hr) as (c & (Hc & Hrc & _) & _).
          apply existsb_exists. exists c. split; [exact Hc|].
          now apply Rank_eqb_eq. }
        simpl in Hrs.
        destruct Hrs as [<- | Hrs].
        { destruct (Hlow R3 ltac:(simpl; auto 10))
            as (c3 & (Hc3 & Hr3 & Hmin3) & Hs3).
          destruct (Hlow R4 ltac:(simpl; auto 10))
            as (c4 & (Hc4 & Hr4 & _) & Hs4).
          specialize (Hmin3 (mkCard R3 Clubs) ltac:(now left) eq_refl).
          simpl in Hc3, Hc4.
          repeat (destruct Hc4 as [<- | Hc4]; [try discriminate Hr4|]);
            try contradiction.
          repeat (destruct Hc3 as [<- | Hc3]; [try discriminate Hr3|]);
            try contradiction.
          simpl in Hs3, Hs4. congruence. }
        repeat (destruct Hrs as [<- | Hrs];
                [first [ discriminate (Hmiss R8 ltac:(simpl; auto 10))
                       | discriminate (Hmiss R10 ltac:(simpl; auto 10))
                       | discriminate (Hmiss RJ ltac:(simpl; auto 10))
                       | discriminate (Hmiss RA ltac:(simpl; auto 10))
                       | discriminate (Hmiss R2 ltac:(simpl; auto 10)) ]|]).
        contradiction.
Defined.
